(** * nofx-lite: risk and decision governance pipeline

    A shallow embedding of the Go packages [trader] and [decision] of
    nofx-lite, and the properties of the sizing engine, the risk-pause state
    machine, the drawdown monitor, the decision sequencer and adjuster, the
    response parser and the decision validator.

    Conventions of the embedding.
    - A Go [float64] is a rational ([Q]); infinities and NaN are outside the
      model, and so is a division by zero (an infinity or NaN in Go, 0 in
      [Q]).  The percentages that the risk pause, the drawdown monitor and
      the balance synchronisation compare with their thresholds are computed
      as the code computes them, in binary64: every operation is the exact
      one followed by the rounding to the nearest binary64 number, ties to
      even (module [F64]), on operands that are binary64 numbers.  Elsewhere
      the arithmetic is exact; the counterexamples there use inputs on which
      the binary64 computation is exact and takes the same branches.
    - A Go [int] is a [Z]; a [time.Time] is a [Z] (nanoseconds), and so is a
      [time.Duration].
    - A Go [string] is a [string] of bytes; a [map[string]T] is a
      [gmap string T], and reading an absent key gives the zero value.
    - Calls to collaborators (exchange adapter, decision-making service,
      logger, clock) are answers supplied by an environment record; the
      clock is read once per cycle and once per monitor check.
    - The two schedules (decision cycle and drawdown monitor) are embedded
      as functions on the session state; their interleaving and the locks
      are not modelled.
    - [log.Printf] lines are dropped.  Error values are constructors of an
      error type that keep the data of the message. *)

From Stdlib Require Import QArith Qabs ZArith Lqa Lia Bool List Ascii String Sorted
  Permutation.
From stdpp Require Import gmap strings list.
Import ListNotations.

Open Scope Q_scope.

(** ** Numbers *)

(** The comparisons of Go, as boolean functions on rationals. *)
Definition Qleb (x y : Q) : bool := Qle_bool x y.
Definition Qltb (x y : Q) : bool := negb (Qle_bool y x).
Definition Qgeb (x y : Q) : bool := Qleb y x.
Definition Qgtb (x y : Q) : bool := Qltb y x.
Definition Qneqb (x y : Q) : bool := negb (Qeq_bool x y).

Declare Scope go_scope.
Delimit Scope go_scope with go.
Infix "<=?" := Qleb (at level 70, no associativity) : go_scope.
Infix "<?" := Qltb (at level 70, no associativity) : go_scope.
Infix ">=?" := Qgeb (at level 70, no associativity) : go_scope.
Infix ">?" := Qgtb (at level 70, no associativity) : go_scope.
Open Scope go_scope.

(** [float64(n)] for an [int] n. *)
Definition float64 (n : Z) : Q := inject_Z n.

(** ** Binary64 arithmetic

    The four operations of IEEE 754 binary64 on finite numbers: the exact
    result, rounded to the nearest number with a significand of 53 bits and
    an exponent of at least -1074 (the subnormal numbers), ties to the even
    significand.  Overflow is outside the model. *)

Module F64.

(** The integer nearest to [a / b], for [0 <= a] and [0 < b]; of two
    nearest integers, the even one. *)
Definition nearestEven (a b : Z) : Z :=
  let q := (a / b)%Z in
  let r := (a mod b)%Z in
  match (2 * r ?= b)%Z with
  | Lt => q
  | Gt => (q + 1)%Z
  | Eq => if Z.even q then q else (q + 1)%Z
  end.

(** [(n / d) / 2^e] as a fraction of integers. *)
Definition scaled (n : Z) (d : positive) (e : Z) : Z * Z :=
  if (0 <=? e)%Z then (n, (Z.pos d * 2 ^ e)%Z) else ((n * 2 ^ (- e))%Z, Z.pos d).

(** The exponent [e] of the unit in the last place of [n / d > 0]: the one
    with [2^52 <= (n / d) / 2^e < 2^53], or -1074 if that is greater. *)
Definition ulpExponent (n : Z) (d : positive) : Z :=
  let e := (Z.log2 n - Z.log2 (Z.pos d) - 52)%Z in
  let '(a, b) := scaled n d e in
  let e := if (2 ^ 52 <=? a / b)%Z then e else (e - 1)%Z in
  Z.max e (-1074).

Definition roundPos (n : Z) (d : positive) : Q :=
  let e := ulpExponent n d in
  let '(a, b) := scaled n d e in
  let m := nearestEven a b in
  if (0 <=? e)%Z then inject_Z (m * 2 ^ e)
  else Qred (m # Pos.shiftl 1 (Z.to_N (- e))).

(** Rounding to the nearest binary64 number. *)
Definition round (x : Q) : Q :=
  match Qnum x with
  | Z0 => 0
  | Zpos _ => roundPos (Qnum x) (Qden x)
  | Zneg p => - roundPos (Zpos p) (Qden x)
  end.

Definition add (x y : Q) : Q := round (x + y).
Definition sub (x y : Q) : Q := round (x - y).
Definition mul (x y : Q) : Q := round (x * y).
Definition div (x y : Q) : Q := round (x / y).

End F64.

Arguments F64.round : simpl never.
Arguments F64.add : simpl never.
Arguments F64.sub : simpl never.
Arguments F64.mul : simpl never.
Arguments F64.div : simpl never.

(** ** Package trader: the sizing engine (sizing.go) *)

Section SizingEngine.

(** [math.Exp].  The exponential is no rational function; the sizing engine
    is embedded over any function standing for it. *)
Variable Exp : Q -> Q.

Definition performanceMultiplier (winRate profitFactor : Q) : Q :=
  if (winRate >=? 60) && (profitFactor >=? 1.50) then 1.10
  else if (winRate >=? 55) && (profitFactor >=? 1.30) then 1.05
  else if (winRate <? 45) || (profitFactor <? 1.00) then 0.65
  else 1.0.

Definition confidenceGate (confidence multiplier : Q) : Q :=
  if confidence >? 0 then
    if confidence <? 50 then multiplier * 0.75
    else if confidence <? 60 then multiplier * 0.85
    else multiplier
  else multiplier.

Definition cooldownGate (recentLossCooldown : bool) (multiplier : Q) : Q :=
  if recentLossCooldown then multiplier * 0.60 else multiplier.

(** The relative-change clamp: [change := newSize / base] is kept within
    [0.50, 1.25]. *)
Definition relativeChangeClamp (base newSize : Q) : Q :=
  if base >? 0 then
    let change := newSize / base in
    let maxIncrease := 1.25 in
    let maxDecrease := 0.50 in
    if change >? maxIncrease then base * maxIncrease
    else if change <? maxDecrease then base * maxDecrease
    else newSize
  else newSize.

(** The margin limit [available / (1/leverage + feeRate)]. *)
Definition marginLimit (leverage : Z) (available feeRate : Q) : Q :=
  let denom := 1.0 / float64 leverage + feeRate in
  available / denom.

(** The margin-safety clamp, with its guard [limit > 0]. *)
Definition marginSafetyClamp (leverage : Z) (available feeRate newSize : Q) : Q :=
  if (0 <? leverage)%Z && (available >? 0) then
    let limit := marginLimit leverage available feeRate in
    if limit >? 0 then
      let cushion := 0.92 in
      let effLimit := limit * cushion in
      let newSize :=
        if newSize >? effLimit then
          let ratio := newSize / limit in
          let compression := 0.92 + (0.08 / (1 + Exp (12 * (ratio - 0.95)))) in
          limit * compression
        else newSize in
      if newSize >? limit then limit else newSize
    else newSize
  else newSize.

Definition ComputeAdjustedSize (base : Q) (leverage : Z)
    (available feeRate winRate profitFactor confidence : Q)
    (recentLossCooldown : bool) : Q :=
  if base <=? 0 then base
  else
    let multiplier := performanceMultiplier winRate profitFactor in
    let multiplier := confidenceGate confidence multiplier in
    let multiplier := cooldownGate recentLossCooldown multiplier in
    let newSize := base * multiplier in
    let newSize := relativeChangeClamp base newSize in
    let newSize := marginSafetyClamp leverage available feeRate newSize in
    if newSize <? 0 then 0 else newSize.

End SizingEngine.

(** ** Errors and results *)

(** One constructor per [fmt.Errorf] site that the embedded code reaches; a
    wrapped error ([%w]) is an argument. *)
Inductive error : Type :=
  | ErrCollaborator (msg : string)          (* an error returned by a collaborator *)
  | ErrInvalidSide (side : string)          (* "invalid side: %s" *)
  | ErrUnknownAction (action : string)      (* "未知的action: %s" *)
  | ErrGetBalance (e : error)               (* "获取账户余额失败: %w" *)
  | ErrGetPositions (e : error)             (* "获取持仓失败: %w" *)
  | ErrCandidateCoins (e : error)           (* "获取候选币种失败: %w" *)
  | ErrBuildContext (e : error)             (* "构建交易上下文失败: %w" *)
  | ErrGetDecision (e : error)              (* "获取AI决策失败: %w" *)
  | ErrAICall (e : error)                   (* "AI call failed: %w" *)
  | ErrResponseParse (e : error)            (* "AI response parse failed: %w" *)
  | ErrStrictJSON (e : error)               (* "strict JSON parsing failed: %w" *)
  | ErrUnparsable (preview : string)        (* "expected JSON object with 'decisions' ..." *)
  | ErrValidation (e : error)               (* "decision validation failed: %w" *)
  | ErrDecisionFailed (index : Z) (e : error) (* "Decision #%d failed validation: %w" *)
  | ErrInvalidAction (action : string)      (* "invalid action: %s" *)
  | ErrLeverage (maxLeverage : Z) (symbol : string) (leverage : Z)
  | ErrSizeNotPositive (size : Q)
  | ErrSizeTooSmall (symbol : string) (size minSize : Q)
  | ErrNotionalTooLarge (btcEth : bool) (maxPositionValue size : Q)
  | ErrStopTakeNotPositive
  | ErrLongStopNotBelowTake
  | ErrShortStopNotAboveTake
  | ErrStopTakeDistance (minDist minATRMultiple : Q)
  | ErrRiskReward (ratio rrrMin riskPercent rewardPercent stopLoss takeProfit : Q)
  | ErrRiskBudget (estimatedRiskUSD riskUSD : Q)
  | ErrNewStopLoss (v : Q)
  | ErrNewTakeProfit (v : Q)
  | ErrClosePercentage (v : Q).

Inductive result (A : Type) : Type :=
  | Ok (a : A)
  | Err (e : error).
Arguments Ok {A} a.
Arguments Err {A} e.

(** ** Package trader: the session state (AutoTrader) *)

Definition Time := Z.
Definition Duration := Z.
Definition Minute : Duration := (60 * 1000000000)%Z.
Definition Hour : Duration := (60 * Minute)%Z.
(** The zero [time.Time] (January 1, year 1), in nanoseconds before the Unix
    epoch. *)
Definition zeroTime : Time := (-62135596800 * 1000000000)%Z.

Record AutoTraderConfig : Type := {
  InitialBalance : Q;
  BTCETHLeverage : Z;
  AltcoinLeverage : Z;
  MaxDailyLoss : Q;
  MaxDrawdown : Q;
  StopTradingTime : Duration;
  BinanceTestnet : bool
}.

(** The fields of [AutoTrader] that the risk pipeline reads or writes. *)
Record AutoTrader : Type := {
  config : AutoTraderConfig;
  initialBalance : Q;
  dailyPnL : Q;
  lastResetTime : Time;
  stopUntil : Time;
  callCount : Z;
  positionFirstSeenTime : gmap string Z;
  peakPnLCache : gmap string Q;
  dayStartEquity : Q;
  equityPeak : Q;
  drawdownBreachCount : gmap string Z;
  drawdownBreachWindow : Z
}.

Definition set_initialBalance (v : Q) (tr : AutoTrader) : AutoTrader :=
  {| config := config tr; initialBalance := v; dailyPnL := dailyPnL tr;
     lastResetTime := lastResetTime tr; stopUntil := stopUntil tr;
     callCount := callCount tr;
     positionFirstSeenTime := positionFirstSeenTime tr;
     peakPnLCache := peakPnLCache tr; dayStartEquity := dayStartEquity tr;
     equityPeak := equityPeak tr;
     drawdownBreachCount := drawdownBreachCount tr;
     drawdownBreachWindow := drawdownBreachWindow tr |}.

Definition set_dailyPnL (v : Q) (tr : AutoTrader) : AutoTrader :=
  {| config := config tr; initialBalance := initialBalance tr; dailyPnL := v;
     lastResetTime := lastResetTime tr; stopUntil := stopUntil tr;
     callCount := callCount tr;
     positionFirstSeenTime := positionFirstSeenTime tr;
     peakPnLCache := peakPnLCache tr; dayStartEquity := dayStartEquity tr;
     equityPeak := equityPeak tr;
     drawdownBreachCount := drawdownBreachCount tr;
     drawdownBreachWindow := drawdownBreachWindow tr |}.

Definition set_lastResetTime (v : Time) (tr : AutoTrader) : AutoTrader :=
  {| config := config tr; initialBalance := initialBalance tr;
     dailyPnL := dailyPnL tr; lastResetTime := v; stopUntil := stopUntil tr;
     callCount := callCount tr;
     positionFirstSeenTime := positionFirstSeenTime tr;
     peakPnLCache := peakPnLCache tr; dayStartEquity := dayStartEquity tr;
     equityPeak := equityPeak tr;
     drawdownBreachCount := drawdownBreachCount tr;
     drawdownBreachWindow := drawdownBreachWindow tr |}.

Definition set_stopUntil (v : Time) (tr : AutoTrader) : AutoTrader :=
  {| config := config tr; initialBalance := initialBalance tr;
     dailyPnL := dailyPnL tr; lastResetTime := lastResetTime tr;
     stopUntil := v; callCount := callCount tr;
     positionFirstSeenTime := positionFirstSeenTime tr;
     peakPnLCache := peakPnLCache tr; dayStartEquity := dayStartEquity tr;
     equityPeak := equityPeak tr;
     drawdownBreachCount := drawdownBreachCount tr;
     drawdownBreachWindow := drawdownBreachWindow tr |}.

Definition set_callCount (v : Z) (tr : AutoTrader) : AutoTrader :=
  {| config := config tr; initialBalance := initialBalance tr;
     dailyPnL := dailyPnL tr; lastResetTime := lastResetTime tr;
     stopUntil := stopUntil tr; callCount := v;
     positionFirstSeenTime := positionFirstSeenTime tr;
     peakPnLCache := peakPnLCache tr; dayStartEquity := dayStartEquity tr;
     equityPeak := equityPeak tr;
     drawdownBreachCount := drawdownBreachCount tr;
     drawdownBreachWindow := drawdownBreachWindow tr |}.

Definition set_positionFirstSeenTime (v : gmap string Z) (tr : AutoTrader)
    : AutoTrader :=
  {| config := config tr; initialBalance := initialBalance tr;
     dailyPnL := dailyPnL tr; lastResetTime := lastResetTime tr;
     stopUntil := stopUntil tr; callCount := callCount tr;
     positionFirstSeenTime := v;
     peakPnLCache := peakPnLCache tr; dayStartEquity := dayStartEquity tr;
     equityPeak := equityPeak tr;
     drawdownBreachCount := drawdownBreachCount tr;
     drawdownBreachWindow := drawdownBreachWindow tr |}.

Definition set_peakPnLCache (v : gmap string Q) (tr : AutoTrader) : AutoTrader :=
  {| config := config tr; initialBalance := initialBalance tr;
     dailyPnL := dailyPnL tr; lastResetTime := lastResetTime tr;
     stopUntil := stopUntil tr; callCount := callCount tr;
     positionFirstSeenTime := positionFirstSeenTime tr;
     peakPnLCache := v; dayStartEquity := dayStartEquity tr;
     equityPeak := equityPeak tr;
     drawdownBreachCount := drawdownBreachCount tr;
     drawdownBreachWindow := drawdownBreachWindow tr |}.

Definition set_dayStartEquity (v : Q) (tr : AutoTrader) : AutoTrader :=
  {| config := config tr; initialBalance := initialBalance tr;
     dailyPnL := dailyPnL tr; lastResetTime := lastResetTime tr;
     stopUntil := stopUntil tr; callCount := callCount tr;
     positionFirstSeenTime := positionFirstSeenTime tr;
     peakPnLCache := peakPnLCache tr; dayStartEquity := v;
     equityPeak := equityPeak tr;
     drawdownBreachCount := drawdownBreachCount tr;
     drawdownBreachWindow := drawdownBreachWindow tr |}.

Definition set_equityPeak (v : Q) (tr : AutoTrader) : AutoTrader :=
  {| config := config tr; initialBalance := initialBalance tr;
     dailyPnL := dailyPnL tr; lastResetTime := lastResetTime tr;
     stopUntil := stopUntil tr; callCount := callCount tr;
     positionFirstSeenTime := positionFirstSeenTime tr;
     peakPnLCache := peakPnLCache tr; dayStartEquity := dayStartEquity tr;
     equityPeak := v;
     drawdownBreachCount := drawdownBreachCount tr;
     drawdownBreachWindow := drawdownBreachWindow tr |}.

Definition set_drawdownBreachCount (v : gmap string Z) (tr : AutoTrader)
    : AutoTrader :=
  {| config := config tr; initialBalance := initialBalance tr;
     dailyPnL := dailyPnL tr; lastResetTime := lastResetTime tr;
     stopUntil := stopUntil tr; callCount := callCount tr;
     positionFirstSeenTime := positionFirstSeenTime tr;
     peakPnLCache := peakPnLCache tr; dayStartEquity := dayStartEquity tr;
     equityPeak := equityPeak tr;
     drawdownBreachCount := v;
     drawdownBreachWindow := drawdownBreachWindow tr |}.

(** [NewAutoTrader], for the modelled fields: the initial balance must be
    positive; the day-start equity and the equity peak start at it, the
    caches are empty and the breach window is 3. *)
Definition NewAutoTrader (cfg : AutoTraderConfig) (now : Time)
    : result AutoTrader :=
  if InitialBalance cfg <=? 0 then
    Err (ErrCollaborator "初始金额必须大于0，请在配置中设置InitialBalance")
  else
    Ok {| config := cfg; initialBalance := InitialBalance cfg; dailyPnL := 0;
          lastResetTime := now; stopUntil := zeroTime; callCount := 0;
          positionFirstSeenTime := ∅; peakPnLCache := ∅;
          dayStartEquity := InitialBalance cfg;
          equityPeak := InitialBalance cfg;
          drawdownBreachCount := ∅; drawdownBreachWindow := 3 |}.

(** ** Package trader: the risk-pause state machine *)

(** Step 2 of [runCycle]: the daily reset, fired when more than 24 hours
    have passed since the last reset. *)
Definition dailyResetDue (now : Time) (tr : AutoTrader) : bool :=
  (24 * Hour <? now - lastResetTime tr)%Z.

Definition dailyReset (now : Time) (tr : AutoTrader) : AutoTrader :=
  if dailyResetDue now tr then
    let tr := set_dailyPnL 0 tr in
    set_lastResetTime now tr
  else tr.

(** The two percentages that [CheckAndApplyRiskPause] computes, on the state
    in which day-start equity, daily P&L and equity peak are already
    updated. *)
Definition dailyLossPct (tr : AutoTrader) : Q :=
  if (dayStartEquity tr >? 0) && (dailyPnL tr <? 0)
  then F64.mul (F64.div (- dailyPnL tr) (dayStartEquity tr)) 100.0
  else 0.0.

Definition drawdownPct (currentEquity : Q) (tr : AutoTrader) : Q :=
  if (equityPeak tr >? 0) && (currentEquity <? equityPeak tr)
  then F64.mul (F64.div (F64.sub (equityPeak tr) currentEquity) (equityPeak tr)) 100.0
  else 0.0.

(** The first half of [CheckAndApplyRiskPause]: lazy initialisation of the
    day-start equity, daily P&L, equity peak. *)
Definition updateRiskTracking (currentEquity : Q) (tr : AutoTrader) : AutoTrader :=
  let tr := if dayStartEquity tr <=? 0
            then set_dayStartEquity currentEquity tr else tr in
  let tr := set_dailyPnL (F64.sub currentEquity (dayStartEquity tr)) tr in
  if currentEquity >? equityPeak tr then set_equityPeak currentEquity tr else tr.

Definition dailyLossBreached (tr : AutoTrader) : bool :=
  (MaxDailyLoss (config tr) >? 0) && (dailyLossPct tr >=? MaxDailyLoss (config tr)).

Definition drawdownBreached (currentEquity : Q) (tr : AutoTrader) : bool :=
  (MaxDrawdown (config tr) >? 0)
  && (drawdownPct currentEquity tr >=? MaxDrawdown (config tr)).

Definition CheckAndApplyRiskPause (now : Time) (currentEquity : Q)
    (tr : AutoTrader) : AutoTrader * bool :=
  let tr := updateRiskTracking currentEquity tr in
  let pauseTriggered := false in
  let '(tr, pauseTriggered) :=
    if dailyLossBreached tr
    then (set_stopUntil (now + StopTradingTime (config tr))%Z tr, true)
    else (tr, pauseTriggered) in
  let '(tr, pauseTriggered) :=
    if drawdownBreached currentEquity tr
    then (set_stopUntil (now + StopTradingTime (config tr))%Z tr, true)
    else (tr, pauseTriggered) in
  (tr, pauseTriggered).

(** ** Package trader: the drawdown monitor *)

(** A record of [GetPositions]: the keys of the [map[string]interface{}] that
    the code reads.  [leverage] is read with a checked type assertion, hence
    optional; the other keys are asserted and always present. *)
Record RawPosition : Type := {
  pos_symbol : string;
  pos_side : string;
  pos_entryPrice : Q;
  pos_markPrice : Q;
  pos_positionAmt : Q;
  pos_unRealizedProfit : Q;
  pos_liquidationPrice : Q;
  pos_leverage : option Q
}.

(** [int(f)] for a [float64] f: truncation toward zero. *)
Definition int_of_float (f : Q) : Z := Z.quot (Qnum f) (Z.pos (Qden f)).

(** [leverage := 10; if lev, ok := pos["leverage"].(float64); ok { leverage = int(lev) }] *)
Definition positionLeverage (p : RawPosition) : Z :=
  match pos_leverage p with
  | Some lev => int_of_float lev
  | None => 10%Z
  end.

(** The position key [symbol + "_" + side]. *)
Definition posKey (symbol side : string) : string :=
  (symbol ++ "_" ++ side)%string.

(** The calls that reach the exchange adapter. *)
Inductive TraderCall : Type :=
  | CallCloseLong (symbol : string) (quantity : Q)
  | CallCloseShort (symbol : string) (quantity : Q).

(** The exchange adapter as seen by one monitor check: the answer to
    [GetPositions] and, for each close order, the error it returns if any. *)
Record Trader : Type := {
  GetPositions : result (list RawPosition);
  CloseLong : string -> Q -> option error;
  CloseShort : string -> Q -> option error
}.

Definition UpdatePeakPnL (symbol side : string) (currentPnLPct : Q)
    (tr : AutoTrader) : AutoTrader :=
  let posKey := posKey symbol side in
  match peakPnLCache tr !! posKey with
  | Some peak =>
      if currentPnLPct >? peak
      then set_peakPnLCache (<[posKey := currentPnLPct]> (peakPnLCache tr)) tr
      else tr
  | None => set_peakPnLCache (<[posKey := currentPnLPct]> (peakPnLCache tr)) tr
  end.

Definition ClearPeakPnLCache (symbol side : string) (tr : AutoTrader) : AutoTrader :=
  let posKey := posKey symbol side in
  set_peakPnLCache (delete posKey (peakPnLCache tr)) tr.

(** [emergencyClosePosition]: a full close (quantity 0) on the side of the
    position; the calls issued and the error if any. *)
Definition emergencyClosePosition (trader : Trader) (symbol side : string)
    : list TraderCall * option error :=
  if String.eqb side "long" then
    ([CallCloseLong symbol 0], CloseLong trader symbol 0)
  else if String.eqb side "short" then
    ([CallCloseShort symbol 0], CloseShort trader symbol 0)
  else ([], Some (ErrInvalidSide side)).

(** The profit percentage of a position as the monitor computes it. *)
Definition monitorPnLPct (p : RawPosition) : Q :=
  let leverage := positionLeverage p in
  if String.eqb (pos_side p) "long" then
    F64.mul (F64.mul (F64.div (F64.sub (pos_markPrice p) (pos_entryPrice p))
                        (pos_entryPrice p))
               (float64 leverage)) 100
  else
    F64.mul (F64.mul (F64.div (F64.sub (pos_entryPrice p) (pos_markPrice p))
                        (pos_entryPrice p))
               (float64 leverage)) 100.

(** The peak that one check compares against: the cached peak read before
    the update, or the current value when the cache has none. *)
Definition monitorPeak (p : RawPosition) (tr : AutoTrader) : Q :=
  match peakPnLCache tr !! posKey (pos_symbol p) (pos_side p) with
  | Some peak => peak
  | None => monitorPnLPct p
  end.

Definition monitorDrawdownPct (p : RawPosition) (tr : AutoTrader) : Q :=
  let currentPnLPct := monitorPnLPct p in
  let peakPnLPct := monitorPeak p tr in
  if (peakPnLPct >? 0) && (currentPnLPct <? peakPnLPct)
  then F64.mul (F64.div (F64.sub peakPnLPct currentPnLPct) peakPnLPct) 100
  else 0.

(** The breach condition of one check: profit above 5% and drawdown from the
    peak of at least 40%. *)
Definition drawdownBreach (p : RawPosition) (tr : AutoTrader) : bool :=
  (monitorPnLPct p >? 5.0) && (monitorDrawdownPct p tr >=? 40.0).

(** The counter of a position; an absent key reads as 0. *)
Definition breachCount (tr : AutoTrader) (key : string) : Z :=
  default 0%Z (drawdownBreachCount tr !! key).

(** The body of the loop of [checkPositionDrawdown], for one position. *)
Definition checkPosition (trader : Trader) (p : RawPosition) (tr : AutoTrader)
    : AutoTrader * list TraderCall :=
  let symbol := pos_symbol p in
  let side := pos_side p in
  let currentPnLPct := monitorPnLPct p in
  let posKey := posKey symbol side in
  let breach := drawdownBreach p tr in
  let tr := UpdatePeakPnL symbol side currentPnLPct tr in
  if breach then
    let tr := set_drawdownBreachCount
                (<[posKey := (breachCount tr posKey + 1)%Z]> (drawdownBreachCount tr)) tr in
    let remaining := (drawdownBreachWindow tr - breachCount tr posKey)%Z in
    if (0 <? remaining)%Z then (tr, [])
    else
      match emergencyClosePosition trader symbol side with
      | (calls, Some _) => (tr, calls)
      | (calls, None) =>
          let tr := ClearPeakPnLCache symbol side tr in
          let tr := set_drawdownBreachCount
                      (<[posKey := 0%Z]> (drawdownBreachCount tr)) tr in
          (tr, calls)
      end
  else
    (set_drawdownBreachCount (<[posKey := 0%Z]> (drawdownBreachCount tr)) tr, []).

Fixpoint checkPositions (trader : Trader) (positions : list RawPosition)
    (tr : AutoTrader) : AutoTrader * list TraderCall :=
  match positions with
  | [] => (tr, [])
  | p :: rest =>
      let '(tr, calls) := checkPosition trader p tr in
      let '(tr, calls') := checkPositions trader rest tr in
      (tr, calls ++ calls')
  end.

(** One monitor check. *)
Definition checkPositionDrawdown (trader : Trader) (tr : AutoTrader)
    : AutoTrader * list TraderCall :=
  match GetPositions trader with
  | Err _ => (tr, [])
  | Ok positions => checkPositions trader positions tr
  end.

(** ** Go's package strings, on byte strings

    Indices are [int]s ([Z]); [-1] is the answer "not found". *)

Module strings.

Open Scope string_scope.
Open Scope Z_scope.

Definition len (s : string) : Z := Z.of_nat (String.length s).

(** [s[i]] for an index in range. *)
Definition byteAt (s : string) (i : Z) : option ascii :=
  if i <? 0 then None else String.get (Z.to_nat i) s.

(** [s[a:b]] and [s[a:]] for indices in range. *)
Definition slice (s : string) (a b : Z) : string :=
  String.substring (Z.to_nat a) (Z.to_nat (b - a)) s.
Definition sliceFrom (s : string) (a : Z) : string := slice s a (len s).

Fixpoint HasPrefix (s prefix : string) : bool :=
  match prefix, s with
  | EmptyString, _ => true
  | String p prefix', String c s' => Ascii.eqb c p && HasPrefix s' prefix'
  | String _ _, EmptyString => false
  end.

Fixpoint dropPrefix (s prefix : string) : string :=
  match prefix, s with
  | String _ prefix', String _ s' => dropPrefix s' prefix'
  | _, _ => s
  end.

Fixpoint indexFrom (s sub : string) (i : Z) : Z :=
  if HasPrefix s sub then i
  else match s with
       | EmptyString => -1
       | String _ s' => indexFrom s' sub (i + 1)
       end.

(** [strings.Index]: the index of the first instance of [sub], or [-1]. *)
Definition Index (s sub : string) : Z := indexFrom s sub 0.

Definition Contains (s sub : string) : bool := 0 <=? Index s sub.

(** [strings.ReplaceAll] for a non-empty [old]: the leftmost instances,
    without overlap. *)
Fixpoint replaceAllFuel (fuel : nat) (s old new : string) : string :=
  match fuel with
  | O => s
  | S fuel' =>
      if HasPrefix s old then new ++ replaceAllFuel fuel' (dropPrefix s old) old new
      else match s with
           | EmptyString => EmptyString
           | String c s' => String c (replaceAllFuel fuel' s' old new)
           end
  end.

Definition ReplaceAll (s old new : string) : string :=
  match old with
  | EmptyString => s   (* never called with an empty pattern *)
  | _ => replaceAllFuel (S (String.length s)) s old new
  end.

(** The white space of [unicode.IsSpace], as UTF-8 byte sequences: the six
    ASCII characters, U+0085, U+00A0, U+1680, U+2000 to U+200A, U+2028,
    U+2029, U+202F, U+205F and U+3000. *)
Definition bytes (l : list nat) : string :=
  string_of_list_ascii (List.map ascii_of_nat l).

Definition spaceRunes : list string :=
  List.map bytes
    [ [9]; [10]; [11]; [12]; [13]; [32]; [194; 133]; [194; 160];
      [225; 154; 128];
      [226; 128; 128]; [226; 128; 129]; [226; 128; 130]; [226; 128; 131];
      [226; 128; 132]; [226; 128; 133]; [226; 128; 134]; [226; 128; 135];
      [226; 128; 136]; [226; 128; 137]; [226; 128; 138];
      [226; 128; 168]; [226; 128; 169]; [226; 128; 175]; [226; 129; 159];
      [227; 128; 128] ]%nat.

Definition leadingSpace (s : string) : option string :=
  List.find (HasPrefix s) spaceRunes.

Fixpoint trimLeftFuel (fuel : nat) (s : string) : string :=
  match fuel with
  | O => s
  | S fuel' =>
      match leadingSpace s with
      | Some sp => trimLeftFuel fuel' (dropPrefix s sp)
      | None => s
      end
  end.

Definition TrimLeftSpace (s : string) : string :=
  trimLeftFuel (String.length s) s.

Definition reverse (s : string) : string :=
  string_of_list_ascii (List.rev (list_ascii_of_string s)).

Definition trailingSpace (r : string) : option string :=
  List.find (fun sp => HasPrefix r (reverse sp)) spaceRunes.

Fixpoint trimRightFuel (fuel : nat) (r : string) : string :=
  match fuel with
  | O => r
  | S fuel' =>
      match trailingSpace r with
      | Some sp => trimRightFuel fuel' (dropPrefix r sp)
      | None => r
      end
  end.

Definition TrimRightSpace (s : string) : string :=
  reverse (trimRightFuel (String.length s) (reverse s)).

(** [strings.TrimSpace], on valid UTF-8. *)
Definition TrimSpace (s : string) : string := TrimRightSpace (TrimLeftSpace s).

Definition lowerByte (c : ascii) : ascii :=
  let n := nat_of_ascii c in
  if ((65 <=? n) && (n <=? 90))%nat then ascii_of_nat (n + 32) else c.

Definition upperByte (c : ascii) : ascii :=
  let n := nat_of_ascii c in
  if ((97 <=? n) && (n <=? 122))%nat then ascii_of_nat (n - 32) else c.

Fixpoint mapBytes (f : ascii -> ascii) (s : string) : string :=
  match s with
  | EmptyString => EmptyString
  | String c s' => String (f c) (mapBytes f s')
  end.

(** [strings.ToLower] and [strings.ToUpper], on ASCII letters; the letters
    outside ASCII are left as they are. *)
Definition ToLower : string -> string := mapBytes lowerByte.
Definition ToUpper : string -> string := mapBytes upperByte.

End strings.

(** ** Go's package regexp, for the patterns of the decision package

    A pattern is a term of [re]; matching is the leftmost-first search of
    Go's [regexp] (preferring the left alternative, the longer repetition
    for a greedy star and the shorter one for a lazy star), on bytes.  The
    patterns below delimit every [.] repetition by ASCII text, so the match
    found is the one of the rune-based matcher on valid UTF-8. *)

Module regexp.

Open Scope string_scope.

Inductive re : Type :=
  | Eps
  | Byte (p : ascii -> bool)
  | Cat (r1 r2 : re)
  | Alt (r1 r2 : re)
  | Star (greedy : bool) (r : re)
  | Group (n : nat) (r : re)
  | BeginLine            (* ^ under (?m) *)
  | EndLine.             (* $ under (?m) *)

(** The state of a match in progress: the offset reached, the byte before
    it, the text from it, and the submatches closed so far. *)
Record mstate : Type := {
  m_pos : nat;
  m_prev : option ascii;
  m_rest : string;
  m_caps : list (nat * (nat * nat))
}.

Definition newline : ascii := ascii_of_nat 10.

Fixpoint rmatch (r : re) (k : mstate -> option mstate) (st : mstate)
    {struct r} : option mstate :=
  match r with
  | Eps => k st
  | Byte p =>
      match m_rest st with
      | String c rest =>
          if p c
          then k {| m_pos := S (m_pos st); m_prev := Some c; m_rest := rest;
                    m_caps := m_caps st |}
          else None
      | EmptyString => None
      end
  | Cat r1 r2 => rmatch r1 (rmatch r2 k) st
  | Alt r1 r2 =>
      match rmatch r1 k st with
      | Some st' => Some st'
      | None => rmatch r2 k st
      end
  | Star greedy r1 =>
      (fix loop (fuel : nat) (st : mstate) {struct fuel} : option mstate :=
         match fuel with
         | O => k st
         | S fuel' =>
             let again st' :=
               if (m_pos st <? m_pos st')%nat then loop fuel' st' else None in
             if greedy then
               match rmatch r1 again st with
               | Some st' => Some st'
               | None => k st
               end
             else
               match k st with
               | Some st' => Some st'
               | None => rmatch r1 again st
               end
         end) (S (String.length (m_rest st))) st
  | Group n r1 =>
      rmatch r1
        (fun st' =>
           k {| m_pos := m_pos st'; m_prev := m_prev st'; m_rest := m_rest st';
                m_caps := (n, (m_pos st, m_pos st')) :: m_caps st' |})
        st
  | BeginLine =>
      match m_prev st with
      | None => k st
      | Some c => if Ascii.eqb c newline then k st else None
      end
  | EndLine =>
      match m_rest st with
      | EmptyString => k st
      | String c _ => if Ascii.eqb c newline then k st else None
      end
  end.

(** The leftmost match at or after an offset: where it starts and the state
    at its end. *)
Fixpoint findFrom (r : re) (pos : nat) (prev : option ascii) (rest : string)
    : option (nat * mstate) :=
  match rmatch r Some {| m_pos := pos; m_prev := prev; m_rest := rest; m_caps := [] |} with
  | Some st => Some (pos, st)
  | None =>
      match rest with
      | String c rest' => findFrom r (S pos) (Some c) rest'
      | EmptyString => None
      end
  end.

Definition capture (s : string) (caps : list (nat * (nat * nat))) (n : nat)
    : string :=
  match List.find (fun c => Nat.eqb (fst c) n) caps with
  | Some (_, (a, b)) => String.substring a (b - a) s
  | None => EmptyString
  end.

(** [FindStringSubmatch] for a pattern with one group: the whole match and
    the first submatch, or nothing ([nil]). *)
Definition FindStringSubmatch (r : re) (s : string) : option (string * string) :=
  match findFrom r 0 None s with
  | Some (start, st) =>
      Some (String.substring start (m_pos st - start) s, capture s (m_caps st) 1)
  | None => None
  end.

(** [ReplaceAllString]: every match, leftmost first and without overlap, is
    replaced.  After an empty match the search resumes one byte later. *)
Fixpoint replaceAllFuel (fuel : nat) (r : re) (repl : string)
    (pos : nat) (prev : option ascii) (rest : string) : string :=
  match fuel with
  | O => rest
  | S fuel' =>
      match findFrom r pos prev rest with
      | None => rest
      | Some (start, st) =>
          let skipped := String.substring 0 (start - pos) rest in
          if (start <? m_pos st)%nat then
            skipped ++ repl
            ++ replaceAllFuel fuel' r repl (m_pos st) (m_prev st) (m_rest st)
          else
            match m_rest st with
            | EmptyString => skipped ++ repl
            | String c rest' =>
                skipped ++ repl
                ++ String c (replaceAllFuel fuel' r repl (S start) (Some c) rest')
            end
      end
  end.

Definition ReplaceAllString (r : re) (s repl : string) : string :=
  replaceAllFuel (S (String.length s)) r repl 0 None s.

(** Pattern syntax. *)
Definition any : re := Byte (fun _ => true).                         (* . under (?s) *)
Definition anyButNewline : re := Byte (fun c => negb (Ascii.eqb c newline)). (* . *)
Definition chr (c : ascii) : re := Byte (Ascii.eqb c).
Definition chrFold (c : ascii) : re :=                              (* under (?i) *)
  Byte (fun x => Ascii.eqb (strings.lowerByte x) (strings.lowerByte c)).
(** [\s]: tab, newline, form feed, carriage return, space. *)
Definition space : re :=
  Byte (fun c => let n := nat_of_ascii c in
                 Nat.eqb n 9 || Nat.eqb n 10 || Nat.eqb n 12 || Nat.eqb n 13
                 || Nat.eqb n 32).
Fixpoint lit (s : string) : re :=
  match s with
  | EmptyString => Eps
  | String c s' => Cat (chr c) (lit s')
  end.
Fixpoint litFold (s : string) : re :=
  match s with
  | EmptyString => Eps
  | String c s' => Cat (chrFold c) (litFold s')
  end.
Fixpoint oneOf (l : list string) : re :=
  match l with
  | [] => Byte (fun _ => false)
  | [s] => lit s
  | s :: l' => Alt (lit s) (oneOf l')
  end.

End regexp.

(** ** Go's package encoding/json, as far as [json.Unmarshal] is used

    A text is first parsed as a whole (a syntax error anywhere, or text
    after the value, fails the call); the value is then stored into the
    target.  Nesting is bounded by the length of the text (Go stops at a
    depth of 10000).  Invalid UTF-8 inside a string is kept as it is (Go
    writes U+FFFD). *)

Module json.

Open Scope string_scope.

(** A number literal [-? int (. frac)? (e exp)?], kept by its parts: the
    value is [(-1)^neg * digits * 10^exp10], and the literal is an integer
    literal when it has neither fraction nor exponent. *)
Record number : Type := {
  num_neg : bool;
  num_digits : Z;
  num_exp10 : Z;
  num_isInt : bool
}.

#[local] Set Warnings "-register-all".

Inductive value : Type :=
  | Null
  | Bool (b : bool)
  | Number (n : number)
  | Str (s : string)
  | Array (elements : list value)
  | Object (members : list (string * value)).

Definition isWhitespace (c : ascii) : bool :=
  let n := nat_of_ascii c in
  Nat.eqb n 32 || Nat.eqb n 9 || Nat.eqb n 10 || Nat.eqb n 13.

Fixpoint skipWhitespace (s : string) : string :=
  match s with
  | String c s' => if isWhitespace c then skipWhitespace s' else s
  | EmptyString => s
  end.

Definition digitOf (c : ascii) : option Z :=
  let n := nat_of_ascii c in
  if ((48 <=? n) && (n <=? 57))%nat then Some (Z.of_nat (n - 48)) else None.

Definition hexOf (c : ascii) : option Z :=
  let n := nat_of_ascii c in
  if ((48 <=? n) && (n <=? 57))%nat then Some (Z.of_nat (n - 48))
  else if ((97 <=? n) && (n <=? 102))%nat then Some (Z.of_nat (n - 87))
  else if ((65 <=? n) && (n <=? 70))%nat then Some (Z.of_nat (n - 55))
  else None.

(** A run of digits: its value, how many there are, and the rest. *)
Fixpoint digits (s : string) (acc : Z) (count : Z) : Z * Z * string :=
  match s with
  | String c s' =>
      match digitOf c with
      | Some d => digits s' (acc * 10 + d)%Z (count + 1)%Z
      | None => (acc, count, s)
      end
  | EmptyString => (acc, count, s)
  end.

Definition startsWithZero (s : string) : bool :=
  match s with
  | String c _ => Ascii.eqb c "0"
  | EmptyString => false
  end.

Definition parseNumber (s : string) : option (number * string) :=
  let '(neg, s) :=
    match s with
    | String "-" s' => (true, s')
    | _ => (false, s)
    end in
  let '(ip, ic, s1) := digits s 0%Z 0%Z in
  if (ic =? 0)%Z || (startsWithZero s && (1 <? ic)%Z) then None
  else
    let fracPart :=
      match s1 with
      | String "." s2 =>
          let '(fp, fc, s3) := digits s2 ip 0%Z in
          if (fc =? 0)%Z then None else Some (fp, fc, true, s3)
      | _ => Some (ip, 0%Z, false, s1)
      end in
    match fracPart with
    | None => None
    | Some (mant, fc, hasFrac, s3) =>
        let expOf (s4 : string) :=
          let '(eneg, s5) :=
            match s4 with
            | String "-" s' => (true, s')
            | String "+" s' => (false, s')
            | _ => (false, s4)
            end in
          let '(ev, ec, s6) := digits s5 0%Z 0%Z in
          if (ec =? 0)%Z then None
          else Some ({| num_neg := neg; num_digits := mant;
                        num_exp10 := ((if eneg then - ev else ev) - fc)%Z;
                        num_isInt := false |}, s6) in
        match s3 with
        | String "e" s4 => expOf s4
        | String "E" s4 => expOf s4
        | _ => Some ({| num_neg := neg; num_digits := mant;
                        num_exp10 := (- fc)%Z;
                        num_isInt := negb hasFrac |}, s3)
        end
    end.

(** The UTF-8 encoding of a code point. *)
Definition utf8 (cp : Z) : string :=
  let b (n : Z) := ascii_of_nat (Z.to_nat n) in
  if (cp <? 128)%Z then String (b cp) EmptyString
  else if (cp <? 2048)%Z then
    String (b (192 + cp / 64)%Z) (String (b (128 + cp mod 64)%Z) EmptyString)
  else if (cp <? 65536)%Z then
    String (b (224 + cp / 4096)%Z)
      (String (b (128 + (cp / 64) mod 64)%Z)
         (String (b (128 + cp mod 64)%Z) EmptyString))
  else
    String (b (240 + cp / 262144)%Z)
      (String (b (128 + (cp / 4096) mod 64)%Z)
         (String (b (128 + (cp / 64) mod 64)%Z)
            (String (b (128 + cp mod 64)%Z) EmptyString))).

(** Four hexadecimal digits. *)
Definition hex4 (s : string) : option (Z * string) :=
  match s with
  | String a (String b (String c (String d rest))) =>
      match hexOf a, hexOf b, hexOf c, hexOf d with
      | Some a, Some b, Some c, Some d =>
          Some (((a * 16 + b) * 16 + c) * 16 + d, rest)%Z
      | _, _, _, _ => None
      end
  | _ => None
  end.

Definition isHighSurrogate (u : Z) : bool := ((55296 <=? u) && (u <? 56320))%Z.
Definition isLowSurrogate (u : Z) : bool := ((56320 <=? u) && (u <? 57344))%Z.

(** The text after [\u]: a code point, a surrogate pair, or U+FFFD for a
    surrogate on its own. *)
Definition unicodeEscape (s : string) : option (string * string) :=
  match hex4 s with
  | None => None
  | Some (u, rest) =>
      if isHighSurrogate u then
        match rest with
        | String "\" (String "u" rest') =>
            match hex4 rest' with
            | Some (u2, rest'') =>
                if isLowSurrogate u2
                then Some (utf8 (65536 + (u - 55296) * 1024 + (u2 - 56320))%Z, rest'')
                else Some (utf8 65533, rest)
            | None => Some (utf8 65533, rest)
            end
        | _ => Some (utf8 65533, rest)
        end
      else if isLowSurrogate u then Some (utf8 65533, rest)
      else Some (utf8 u, rest)
  end.

(** The text after an opening quote, up to the closing one. *)
Fixpoint parseStringBody (fuel : nat) (s : string) : option (string * string) :=
  match fuel with
  | O => None
  | S fuel' =>
      match s with
      | EmptyString => None
      | String c s' =>
          if Ascii.eqb c (ascii_of_nat 34) then Some (EmptyString, s')
          else if Ascii.eqb c "\" then
            match s' with
            | String e s'' =>
                let simple (x : nat) :=
                  match parseStringBody fuel' s'' with
                  | Some (body, rest) => Some (String (ascii_of_nat x) body, rest)
                  | None => None
                  end in
                if Ascii.eqb e (ascii_of_nat 34) then simple 34%nat
                else if Ascii.eqb e "\" then simple 92%nat
                else if Ascii.eqb e "/" then simple 47%nat
                else if Ascii.eqb e "b" then simple 8%nat
                else if Ascii.eqb e "f" then simple 12%nat
                else if Ascii.eqb e "n" then simple 10%nat
                else if Ascii.eqb e "r" then simple 13%nat
                else if Ascii.eqb e "t" then simple 9%nat
                else if Ascii.eqb e "u" then
                  match unicodeEscape s'' with
                  | Some (enc, rest) =>
                      match parseStringBody fuel' rest with
                      | Some (body, rest') => Some (enc ++ body, rest')
                      | None => None
                      end
                  | None => None
                  end
                else None
            | EmptyString => None
            end
          else if (nat_of_ascii c <? 32)%nat then None
          else
            match parseStringBody fuel' s' with
            | Some (body, rest) => Some (String c body, rest)
            | None => None
            end
      end
  end.

Definition parseString (s : string) : option (string * string) :=
  parseStringBody (S (String.length s)) s.

Definition expect (lit : string) (v : value) (s : string) : option (value * string) :=
  if strings.HasPrefix s lit then Some (v, strings.dropPrefix s lit) else None.

Definition isQuote (c : ascii) : bool := Ascii.eqb c (ascii_of_nat 34).

(** A value, then the elements of an array after its first one and the members
    of an object after its first one. *)
Fixpoint parseValue (fuel : nat) (s : string) {struct fuel} : option (value * string) :=
  match fuel with
  | O => None
  | S fuel' =>
      match skipWhitespace s with
      | EmptyString => None
      | String c s' as s0 =>
          if Ascii.eqb c "{" then
            match skipWhitespace s' with
            | String "}" rest => Some (Object [], rest)
            | s1 =>
                match parseMembers fuel' s1 with
                | Some (ms, rest) => Some (Object ms, rest)
                | None => None
                end
            end
          else if Ascii.eqb c "[" then
            match skipWhitespace s' with
            | String "]" rest => Some (Array [], rest)
            | s1 =>
                match parseElements fuel' s1 with
                | Some (vs, rest) => Some (Array vs, rest)
                | None => None
                end
            end
          else if isQuote c then
            match parseString s' with
            | Some (str, rest) => Some (Str str, rest)
            | None => None
            end
          else if Ascii.eqb c "t" then expect "true" (Bool true) s0
          else if Ascii.eqb c "f" then expect "false" (Bool false) s0
          else if Ascii.eqb c "n" then expect "null" Null s0
          else
            match parseNumber s0 with
            | Some (n, rest) => Some (Number n, rest)
            | None => None
            end
      end
  end
with parseElements (fuel : nat) (s : string) {struct fuel}
    : option (list value * string) :=
  match fuel with
  | O => None
  | S fuel' =>
      match parseValue fuel' s with
      | None => None
      | Some (v, rest) =>
          match skipWhitespace rest with
          | String "," rest' =>
              match parseElements fuel' rest' with
              | Some (vs, rest'') => Some (v :: vs, rest'')
              | None => None
              end
          | String "]" rest' => Some ([v], rest')
          | _ => None
          end
      end
  end
with parseMembers (fuel : nat) (s : string) {struct fuel}
    : option (list (string * value) * string) :=
  match fuel with
  | O => None
  | S fuel' =>
      match skipWhitespace s with
      | String c s1 =>
          if isQuote c then
            match parseString s1 with
            | None => None
            | Some (key, rest) =>
                match skipWhitespace rest with
                | String ":" rest1 =>
                    match parseValue fuel' rest1 with
                    | None => None
                    | Some (v, rest2) =>
                        match skipWhitespace rest2 with
                        | String "," rest3 =>
                            match parseMembers fuel' rest3 with
                            | Some (ms, rest4) => Some ((key, v) :: ms, rest4)
                            | None => None
                            end
                        | String "}" rest3 => Some ([(key, v)], rest3)
                        | _ => None
                        end
                    end
                | _ => None
                end
            end
          else None
      | EmptyString => None
      end
  end.

(** The whole text as one value. *)
Definition parse (s : string) : option value :=
  match parseValue (2 * String.length s + 2) s with
  | Some (v, rest) =>
      match skipWhitespace rest with
      | EmptyString => Some v
      | _ => None
      end
  | None => None
  end.

End json.

(** ** Package decision: data *)

(** [Decision]: one decision of the decision-making service. *)
Record Decision : Type := {
  Symbol : string;
  Action : string;
  Leverage : Z;
  PositionSizeUSD : Q;
  StopLoss : Q;
  TakeProfit : Q;
  NewStopLoss : Q;
  NewTakeProfit : Q;
  ClosePercentage : Q;
  Confidence : Z;
  RiskUSD : Q;
  Reasoning : string
}.

(** The zero value of [Decision]. *)
Definition zeroDecision : Decision :=
  {| Symbol := EmptyString; Action := EmptyString; Leverage := 0;
     PositionSizeUSD := 0; StopLoss := 0; TakeProfit := 0; NewStopLoss := 0;
     NewTakeProfit := 0; ClosePercentage := 0; Confidence := 0; RiskUSD := 0;
     Reasoning := EmptyString |}.

Definition set_PositionSizeUSD (v : Q) (d : Decision) : Decision :=
  {| Symbol := Symbol d; Action := Action d; Leverage := Leverage d;
     PositionSizeUSD := v; StopLoss := StopLoss d; TakeProfit := TakeProfit d;
     NewStopLoss := NewStopLoss d; NewTakeProfit := NewTakeProfit d;
     ClosePercentage := ClosePercentage d; Confidence := Confidence d;
     RiskUSD := RiskUSD d; Reasoning := Reasoning d |}.

Record PositionInfo : Type := {
  pi_Symbol : string;
  pi_Side : string;
  pi_EntryPrice : Q;
  pi_MarkPrice : Q;
  pi_Quantity : Q;
  pi_Leverage : Z;
  pi_UnrealizedPnL : Q;
  pi_UnrealizedPnLPct : Q;
  pi_PeakPnLPct : Q;
  pi_LiquidationPrice : Q;
  pi_MarginUsed : Q;
  pi_UpdateTime : Z
}.

Record AccountInfo : Type := {
  TotalEquity : Q;
  AvailableBalance : Q;
  TotalPnL : Q;
  TotalPnLPct : Q;
  MarginUsed : Q;
  MarginUsedPct : Q;
  PositionCount : Z
}.

(** [market.Data] (market/types.go), by the fields that the validator
    reads: the current price and, when [LongerTermContext] is not [nil], its
    [ATR14]. *)
Record MarketData : Type := {
  CurrentPrice : Q;
  LongerTermATR14 : option Q
}.

(** Modelled from the spec: the types [logger.TradeOutcome] and
    [logger.PerformanceAnalysis] are declared outside the embedded files;
    these are the fields that the adjuster reads (rolling win rate, profit
    factor, recent trade outcomes with symbol, side, P&L percentage and close
    time). *)
Record TradeOutcome : Type := {
  to_Symbol : string;
  to_Side : string;
  to_PnLPct : Q;
  to_CloseTime : Time
}.

Record PerformanceAnalysis : Type := {
  WinRate : Q;
  ProfitFactor : Q;
  TotalTrades : Z;
  RecentTrades : list TradeOutcome
}.

(** [Context]: what one cycle hands to the decision-making call.  The
    market data map is [nil] until [fetchMarketDataForContext] fills it. *)
Record Context : Type := {
  ctx_CallCount : Z;
  ctx_Account : AccountInfo;
  ctx_Positions : list PositionInfo;
  ctx_CandidateCoins : list string;
  ctx_MarketDataMap : option (gmap string (option MarketData));
  ctx_Performance : option PerformanceAnalysis;
  ctx_BTCETHLeverage : Z;
  ctx_AltcoinLeverage : Z;
  ctx_UseTestnet : bool
}.

Definition set_MarketDataMap (m : option (gmap string (option MarketData)))
    (ctx : Context) : Context :=
  {| ctx_CallCount := ctx_CallCount ctx; ctx_Account := ctx_Account ctx;
     ctx_Positions := ctx_Positions ctx;
     ctx_CandidateCoins := ctx_CandidateCoins ctx;
     ctx_MarketDataMap := m; ctx_Performance := ctx_Performance ctx;
     ctx_BTCETHLeverage := ctx_BTCETHLeverage ctx;
     ctx_AltcoinLeverage := ctx_AltcoinLeverage ctx;
     ctx_UseTestnet := ctx_UseTestnet ctx |}.

(** [FullDecision]: the reasoning trace and the decisions of one response. *)
Record FullDecision : Type := {
  SystemPrompt : string;
  UserPrompt : string;
  CoTTrace : string;
  Decisions : list Decision
}.

(** ** Package decision: decoding a JSON value into decisions

    [json.Unmarshal] into a struct matches an object key with a field tag,
    ignoring case (ASCII letters here); a key that matches no field is
    ignored, [null] leaves the target as it is, a later occurrence of a key
    overwrites an earlier one (an array read into a slice replaces its
    elements), and a value of the wrong kind makes the call return an
    error. *)

Module decode.

Open Scope string_scope.

Definition keyIs (key tag : string) : bool :=
  String.eqb (strings.ToLower key) (strings.ToLower tag).

(** A number into a [float64] field: [strconv.ParseFloat] fails when the
    value is out of range. *)
Definition maxFloatBound : Z := (2 ^ 1024 - 2 ^ 970)%Z.

Definition floatOf (n : json.number) : option Q :=
  let m := json.num_digits n in
  let e := json.num_exp10 n in
  let magnitude : Q :=
    if (0 <=? e)%Z then inject_Z (m * 10 ^ e)
    else Qmake m (Z.to_pos (10 ^ (- e))) in
  if Qle_bool (inject_Z maxFloatBound) magnitude then None
  else Some (if json.num_neg n then - magnitude else magnitude).

(** A number into an [int] field: [strconv.ParseInt] accepts an integer
    literal within 64 bits. *)
Definition intOf (n : json.number) : option Z :=
  if json.num_isInt n then
    let v := if json.num_neg n then (- json.num_digits n)%Z else json.num_digits n in
    if ((- 2 ^ 63 <=? v) && (v <? 2 ^ 63))%Z then Some v else None
  else None.

Definition intoString (v : json.value) (old : string) : option string :=
  match v with
  | json.Null => Some old
  | json.Str s => Some s
  | _ => None
  end.

Definition intoFloat (v : json.value) (old : Q) : option Q :=
  match v with
  | json.Null => Some old
  | json.Number n => floatOf n
  | _ => None
  end.

Definition intoInt (v : json.value) (old : Z) : option Z :=
  match v with
  | json.Null => Some old
  | json.Number n => intOf n
  | _ => None
  end.

(** One member of an object stored into a [Decision]. *)
Definition setField (d : Decision) (key : string) (v : json.value)
    : option Decision :=
  let upd {A} (r : option A) (f : A -> Decision) : option Decision :=
    match r with Some a => Some (f a) | None => None end in
  if keyIs key "symbol" then
    upd (intoString v (Symbol d)) (fun x =>
      {| Symbol := x; Action := Action d; Leverage := Leverage d;
         PositionSizeUSD := PositionSizeUSD d; StopLoss := StopLoss d;
         TakeProfit := TakeProfit d; NewStopLoss := NewStopLoss d;
         NewTakeProfit := NewTakeProfit d; ClosePercentage := ClosePercentage d;
         Confidence := Confidence d; RiskUSD := RiskUSD d; Reasoning := Reasoning d |})
  else if keyIs key "action" then
    upd (intoString v (Action d)) (fun x =>
      {| Symbol := Symbol d; Action := x; Leverage := Leverage d;
         PositionSizeUSD := PositionSizeUSD d; StopLoss := StopLoss d;
         TakeProfit := TakeProfit d; NewStopLoss := NewStopLoss d;
         NewTakeProfit := NewTakeProfit d; ClosePercentage := ClosePercentage d;
         Confidence := Confidence d; RiskUSD := RiskUSD d; Reasoning := Reasoning d |})
  else if keyIs key "leverage" then
    upd (intoInt v (Leverage d)) (fun x =>
      {| Symbol := Symbol d; Action := Action d; Leverage := x;
         PositionSizeUSD := PositionSizeUSD d; StopLoss := StopLoss d;
         TakeProfit := TakeProfit d; NewStopLoss := NewStopLoss d;
         NewTakeProfit := NewTakeProfit d; ClosePercentage := ClosePercentage d;
         Confidence := Confidence d; RiskUSD := RiskUSD d; Reasoning := Reasoning d |})
  else if keyIs key "position_size_usd" then
    upd (intoFloat v (PositionSizeUSD d)) (fun x => set_PositionSizeUSD x d)
  else if keyIs key "stop_loss" then
    upd (intoFloat v (StopLoss d)) (fun x =>
      {| Symbol := Symbol d; Action := Action d; Leverage := Leverage d;
         PositionSizeUSD := PositionSizeUSD d; StopLoss := x;
         TakeProfit := TakeProfit d; NewStopLoss := NewStopLoss d;
         NewTakeProfit := NewTakeProfit d; ClosePercentage := ClosePercentage d;
         Confidence := Confidence d; RiskUSD := RiskUSD d; Reasoning := Reasoning d |})
  else if keyIs key "take_profit" then
    upd (intoFloat v (TakeProfit d)) (fun x =>
      {| Symbol := Symbol d; Action := Action d; Leverage := Leverage d;
         PositionSizeUSD := PositionSizeUSD d; StopLoss := StopLoss d;
         TakeProfit := x; NewStopLoss := NewStopLoss d;
         NewTakeProfit := NewTakeProfit d; ClosePercentage := ClosePercentage d;
         Confidence := Confidence d; RiskUSD := RiskUSD d; Reasoning := Reasoning d |})
  else if keyIs key "new_stop_loss" then
    upd (intoFloat v (NewStopLoss d)) (fun x =>
      {| Symbol := Symbol d; Action := Action d; Leverage := Leverage d;
         PositionSizeUSD := PositionSizeUSD d; StopLoss := StopLoss d;
         TakeProfit := TakeProfit d; NewStopLoss := x;
         NewTakeProfit := NewTakeProfit d; ClosePercentage := ClosePercentage d;
         Confidence := Confidence d; RiskUSD := RiskUSD d; Reasoning := Reasoning d |})
  else if keyIs key "new_take_profit" then
    upd (intoFloat v (NewTakeProfit d)) (fun x =>
      {| Symbol := Symbol d; Action := Action d; Leverage := Leverage d;
         PositionSizeUSD := PositionSizeUSD d; StopLoss := StopLoss d;
         TakeProfit := TakeProfit d; NewStopLoss := NewStopLoss d;
         NewTakeProfit := x; ClosePercentage := ClosePercentage d;
         Confidence := Confidence d; RiskUSD := RiskUSD d; Reasoning := Reasoning d |})
  else if keyIs key "close_percentage" then
    upd (intoFloat v (ClosePercentage d)) (fun x =>
      {| Symbol := Symbol d; Action := Action d; Leverage := Leverage d;
         PositionSizeUSD := PositionSizeUSD d; StopLoss := StopLoss d;
         TakeProfit := TakeProfit d; NewStopLoss := NewStopLoss d;
         NewTakeProfit := NewTakeProfit d; ClosePercentage := x;
         Confidence := Confidence d; RiskUSD := RiskUSD d; Reasoning := Reasoning d |})
  else if keyIs key "confidence" then
    upd (intoInt v (Confidence d)) (fun x =>
      {| Symbol := Symbol d; Action := Action d; Leverage := Leverage d;
         PositionSizeUSD := PositionSizeUSD d; StopLoss := StopLoss d;
         TakeProfit := TakeProfit d; NewStopLoss := NewStopLoss d;
         NewTakeProfit := NewTakeProfit d; ClosePercentage := ClosePercentage d;
         Confidence := x; RiskUSD := RiskUSD d; Reasoning := Reasoning d |})
  else if keyIs key "risk_usd" then
    upd (intoFloat v (RiskUSD d)) (fun x =>
      {| Symbol := Symbol d; Action := Action d; Leverage := Leverage d;
         PositionSizeUSD := PositionSizeUSD d; StopLoss := StopLoss d;
         TakeProfit := TakeProfit d; NewStopLoss := NewStopLoss d;
         NewTakeProfit := NewTakeProfit d; ClosePercentage := ClosePercentage d;
         Confidence := Confidence d; RiskUSD := x; Reasoning := Reasoning d |})
  else if keyIs key "reasoning" then
    upd (intoString v (Reasoning d)) (fun x =>
      {| Symbol := Symbol d; Action := Action d; Leverage := Leverage d;
         PositionSizeUSD := PositionSizeUSD d; StopLoss := StopLoss d;
         TakeProfit := TakeProfit d; NewStopLoss := NewStopLoss d;
         NewTakeProfit := NewTakeProfit d; ClosePercentage := ClosePercentage d;
         Confidence := Confidence d; RiskUSD := RiskUSD d; Reasoning := x |})
  else Some d.

Fixpoint setFields (d : Decision) (members : list (string * json.value))
    : option Decision :=
  match members with
  | [] => Some d
  | (key, v) :: rest =>
      match setField d key v with
      | Some d' => setFields d' rest
      | None => None
      end
  end.

(** A value into a [Decision] that starts at its zero value. *)
Definition decision (v : json.value) : option Decision :=
  match v with
  | json.Null => Some zeroDecision
  | json.Object members => setFields zeroDecision members
  | _ => None
  end.

Fixpoint decisionElements (vs : list json.value) : option (list Decision) :=
  match vs with
  | [] => Some []
  | v :: rest =>
      match decision v, decisionElements rest with
      | Some d, Some ds => Some (d :: ds)
      | _, _ => None
      end
  end.

(** A value into a [[]Decision]. *)
Definition decisionSlice (v : json.value) (old : list Decision)
    : option (list Decision) :=
  match v with
  | json.Null => Some old
  | json.Array vs => decisionElements vs
  | _ => None
  end.

Fixpoint wrapperFields (ds : list Decision) (members : list (string * json.value))
    : option (list Decision) :=
  match members with
  | [] => Some ds
  | (key, v) :: rest =>
      if keyIs key "decisions" then
        match decisionSlice v ds with
        | Some ds' => wrapperFields ds' rest
        | None => None
        end
      else wrapperFields ds rest
  end.

(** [json.Unmarshal([]byte(s), &wrapper)] for
    [wrapper struct { Decisions []Decision `json:"decisions"` }]: the field
    after the call, or nothing when the call returns an error. *)
Definition UnmarshalWrapper (s : string) : option (list Decision) :=
  match json.parse s with
  | Some json.Null => Some []
  | Some (json.Object members) => wrapperFields [] members
  | _ => None
  end.

(** [json.Unmarshal([]byte(s), &arr)] for [arr []Decision] holding [old]. *)
Definition UnmarshalSlice (s : string) (old : list Decision)
    : option (list Decision) :=
  match json.parse s with
  | Some v => decisionSlice v old
  | None => None
  end.

End decode.

(** ** Package decision: the response parser (engine.go) *)

Section ResponseParser.

Import regexp.
Open Scope string_scope.

Definition quote : string := String (ascii_of_nat 34) EmptyString.
Definition backslash : ascii := "\"%char.

(** The compiled patterns. *)

(** [reInvisibleRunes]: one of U+200B, U+200C, U+200D, U+FEFF. *)
Definition reInvisibleRunes : re :=
  oneOf (List.map strings.bytes
           [[226; 128; 139]; [226; 128; 140]; [226; 128; 141]; [239; 187; 191]]%nat).

(** [reJSONFenceGeneric]: under (?is), three backquotes and json, white
    space, a lazy group of any bytes, white space, three backquotes. *)
Definition reJSONFenceGeneric : re :=
  Cat (litFold "```json")
    (Cat (Star true space)
       (Cat (Group 1 (Star false any))
          (Cat (Star true space) (litFold "```")))).

(** [reLineComment]: under (?m), a line start, white space, two slashes
    or a hash, a lazy run up to the line end. *)
Definition reLineComment : re :=
  Cat BeginLine
    (Cat (Star true space)
       (Cat (Group 1 (Alt (lit "//") (lit "#")))
          (Cat (Star false anyButNewline) EndLine))).

(** [reBlockComment]: under (?s), a slash and a star, a lazy run, a star and
    a slash. *)
Definition reBlockComment : re :=
  Cat (lit "/*") (Cat (Star false any) (lit "*/")).

(** [reDecisionTag]: under (?s), the decision tag around a lazy group. *)
Definition reDecisionTag : re :=
  Cat (lit "<decision>") (Cat (Group 1 (Star false any)) (lit "</decision>")).

Definition removeInvisibleRunes (s : string) : string :=
  ReplaceAllString reInvisibleRunes s EmptyString.

(** [fixMissingQuotes]: curly quotes, full-width and CJK punctuation and the
    full-width space become their ASCII counterparts. *)
Definition fixMissingQuotes (jsonStr : string) : string :=
  let jsonStr := strings.ReplaceAll jsonStr "“" quote in
  let jsonStr := strings.ReplaceAll jsonStr "”" quote in
  let jsonStr := strings.ReplaceAll jsonStr "‘" "'" in
  let jsonStr := strings.ReplaceAll jsonStr "’" "'" in
  let jsonStr := strings.ReplaceAll jsonStr "［" "[" in
  let jsonStr := strings.ReplaceAll jsonStr "］" "]" in
  let jsonStr := strings.ReplaceAll jsonStr "｛" "{" in
  let jsonStr := strings.ReplaceAll jsonStr "｝" "}" in
  let jsonStr := strings.ReplaceAll jsonStr "：" ":" in
  let jsonStr := strings.ReplaceAll jsonStr "，" "," in
  let jsonStr := strings.ReplaceAll jsonStr "【" "[" in
  let jsonStr := strings.ReplaceAll jsonStr "】" "]" in
  let jsonStr := strings.ReplaceAll jsonStr "〔" "[" in
  let jsonStr := strings.ReplaceAll jsonStr "〕" "]" in
  let jsonStr := strings.ReplaceAll jsonStr "、" "," in
  let jsonStr := strings.ReplaceAll jsonStr "　" " " in
  jsonStr.

Definition stripJSONComments (s : string) : string :=
  let s := ReplaceAllString reBlockComment s EmptyString in
  let s := ReplaceAllString reLineComment s EmptyString in
  s.

(** The loop of [findMatchingBrace] from index [i]: [rest] is [s[i:]] and
    [prev] is [s[i-1]] when [i > 0]. *)
Fixpoint matchBraceLoop (rest : string) (i : Z) (prev : option ascii)
    (depth : Z) (inString : bool) : Z :=
  match rest with
  | EmptyString => (-1)%Z
  | String ch rest' =>
      let next := matchBraceLoop rest' (i + 1)%Z (Some ch) in
      if Ascii.eqb ch (ascii_of_nat 34)
         && match prev with
            | None => true
            | Some p => negb (Ascii.eqb p backslash)
            end
      then next depth (negb inString)
      else if inString then next depth inString
      else if Ascii.eqb ch "{" then next (depth + 1)%Z inString
      else if Ascii.eqb ch "}" then
        let depth := (depth - 1)%Z in
        if (depth =? 0)%Z then i else next depth inString
      else next depth inString
  end.

Definition findMatchingBrace (s : string) (start : Z) : Z :=
  if (strings.len s <=? start)%Z
     || negb (match strings.byteAt s start with
              | Some c => Ascii.eqb c "{"
              | None => false
              end)
  then (-1)%Z
  else matchBraceLoop (strings.sliceFrom s start) start
         (strings.byteAt s (start - 1)) 0%Z false.

Fixpoint matchBracketLoop (rest : string) (i : Z) (depth : Z) : Z :=
  match rest with
  | EmptyString => (-1)%Z
  | String ch rest' =>
      if Ascii.eqb ch "[" then matchBracketLoop rest' (i + 1)%Z (depth + 1)%Z
      else if Ascii.eqb ch "]" then
        let depth := (depth - 1)%Z in
        if (depth =? 0)%Z then i else matchBracketLoop rest' (i + 1)%Z depth
      else matchBracketLoop rest' (i + 1)%Z depth
  end.

Definition findMatchingBracket (s : string) (start : Z) : Z :=
  if (strings.len s <=? start)%Z
     || negb (match strings.byteAt s start with
              | Some c => Ascii.eqb c "["
              | None => false
              end)
  then (-1)%Z
  else matchBracketLoop (strings.sliceFrom s start) start 0%Z.

(** The nearest opening brace at or before [idx], scanning backward. *)
Fixpoint lastBraceUpTo (n : nat) (s : string) : Z :=
  match strings.byteAt s (Z.of_nat n) with
  | Some c =>
      if Ascii.eqb c "{" then Z.of_nat n
      else match n with
           | O => (-1)%Z
           | S n' => lastBraceUpTo n' s
           end
  | None => match n with
            | O => (-1)%Z
            | S n' => lastBraceUpTo n' s
            end
  end.

Definition findDecisionsObjectSubstring (s : string) : string :=
  let idx := strings.Index s (quote ++ "decisions" ++ quote) in
  if (idx <? 0)%Z then EmptyString
  else
    let start := lastBraceUpTo (Z.to_nat idx) s in
    if (start <? 0)%Z then EmptyString
    else
      let end_ := findMatchingBrace s start in
      if (start <? end_)%Z then strings.slice s start (end_ + 1)%Z
      else EmptyString.

Definition sanitizeModelResponse (response : string) : string :=
  let s := removeInvisibleRunes (strings.TrimSpace response) in
  let s := fixMissingQuotes s in
  match FindStringSubmatch reJSONFenceGeneric s with
  | Some (_, m1) => stripJSONComments (strings.TrimSpace m1)
  | None =>
  match FindStringSubmatch reDecisionTag s with
  | Some (_, m1) => stripJSONComments (strings.TrimSpace m1)
  | None =>
  let obj := findDecisionsObjectSubstring s in
  if negb (String.eqb obj EmptyString)
  then stripJSONComments (strings.TrimSpace obj)
  else
    let idxObj := strings.Index s "{" in
    let idxArr := strings.Index s "[" in
    let '(start, isObj) :=
      if (0 <=? idxObj)%Z && ((idxArr <? 0)%Z || (idxObj <? idxArr)%Z)
      then (idxObj, true)
      else if (0 <=? idxArr)%Z then (idxArr, false)
      else ((-1)%Z, false) in
    let s :=
      if (0 <=? start)%Z then
        let end_ := if isObj then findMatchingBrace s start
                    else findMatchingBracket s start in
        if (start <? end_)%Z then strings.slice s start (end_ + 1)%Z
        else strings.sliceFrom s start
      else s in
    let s := stripJSONComments s in
    strings.TrimSpace s
  end end.

Definition nonEmptyDecisions (r : option (list Decision)) : option (list Decision) :=
  match r with
  | Some (d :: ds) => Some (d :: ds)
  | _ => None
  end.

(** [extractDecisionsStrict]: the four attempts in order, then the error
    with a preview of at most 160 bytes. *)
Definition extractDecisionsStrict (response : string) : result (list Decision) :=
  let s := sanitizeModelResponse response in
  match nonEmptyDecisions (decode.UnmarshalWrapper s) with
  | Some ds => Ok ds
  | None =>
  let obj := findDecisionsObjectSubstring response in
  match (if negb (String.eqb obj EmptyString)
         then nonEmptyDecisions (decode.UnmarshalWrapper obj) else None) with
  | Some ds => Ok ds
  | None =>
  match nonEmptyDecisions (decode.UnmarshalSlice s []) with
  | Some ds => Ok ds
  | None =>
  let idx := strings.Index s "[" in
  let last :=
    if (0 <=? idx)%Z then
      let end_ := findMatchingBracket s idx in
      if (idx <? end_)%Z
      then nonEmptyDecisions
             (decode.UnmarshalSlice (strings.slice s idx (end_ + 1)%Z) [])
      else None
    else None in
  match last with
  | Some ds => Ok ds
  | None =>
      let preview := s in
      let preview :=
        if (160 <? strings.len preview)%Z
        then strings.slice preview 0 160 ++ "..." else preview in
      Err (ErrUnparsable preview)
  end end end end.

End ResponseParser.

(** ** Package decision: the decision validator (engine.go) *)

Definition validActions : list string :=
  [ "open_long"; "open_short"; "close_long"; "close_short";
    "update_stop_loss"; "update_take_profit"; "partial_close"; "hold"; "wait" ].

Definition isValidAction (action : string) : bool :=
  existsb (String.eqb action) validActions.

Definition isOpenAction (action : string) : bool :=
  String.eqb action "open_long" || String.eqb action "open_short".

Definition isBTCETH (symbol : string) : bool :=
  String.eqb symbol "BTCUSDT" || String.eqb symbol "ETHUSDT".

(** The volatility measure and the price that the validator finds for a
    symbol; both are 0 when the context has none. *)
Definition atrAndPrice (d : Decision) (ctx : option Context) : Q * Q :=
  match ctx with
  | Some ctx =>
      match ctx_MarketDataMap ctx with
      | Some m =>
          match m !! Symbol d with
          | Some (Some md) =>
              (match LongerTermATR14 md with Some a => a | None => 0 end,
               CurrentPrice md)
          | _ => (0, 0)
          end
      | None => (0, 0)
      end
  | None => (0, 0)
  end.

(** The checks of an opening decision, in the order of the code; [None] when
    all pass. *)
Definition validateOpen (d : Decision) (accountEquity : Q)
    (btcEthLeverage altcoinLeverage : Z) (ctx : option Context) : option error :=
  let maxLeverage := if isBTCETH (Symbol d) then btcEthLeverage else altcoinLeverage in
  let maxPositionValue :=
    if isBTCETH (Symbol d) then accountEquity * 10 else accountEquity * 1.5 in
  if (Leverage d <=? 0)%Z || (maxLeverage <? Leverage d)%Z then
    Some (ErrLeverage maxLeverage (Symbol d) (Leverage d))
  else if PositionSizeUSD d <=? 0 then Some (ErrSizeNotPositive (PositionSizeUSD d))
  else
  let minPositionSizeGeneral := 12.0 in
  let minPositionSizeBTCETH := 60.0 in
  if isBTCETH (Symbol d) && (PositionSizeUSD d <? minPositionSizeBTCETH) then
    Some (ErrSizeTooSmall (Symbol d) (PositionSizeUSD d) minPositionSizeBTCETH)
  else if negb (isBTCETH (Symbol d)) && (PositionSizeUSD d <? minPositionSizeGeneral) then
    Some (ErrSizeTooSmall (Symbol d) (PositionSizeUSD d) minPositionSizeGeneral)
  else
  let tolerance := maxPositionValue * 0.01 in
  if PositionSizeUSD d >? maxPositionValue + tolerance then
    Some (ErrNotionalTooLarge (isBTCETH (Symbol d)) maxPositionValue (PositionSizeUSD d))
  else if (StopLoss d <=? 0) || (TakeProfit d <=? 0) then Some ErrStopTakeNotPositive
  else
  let long := String.eqb (Action d) "open_long" in
  if long && (StopLoss d >=? TakeProfit d) then Some ErrLongStopNotBelowTake
  else if negb long && (StopLoss d <=? TakeProfit d) then Some ErrShortStopNotAboveTake
  else
  let entryPrice :=
    if long then StopLoss d + (TakeProfit d - StopLoss d) * 0.2
    else StopLoss d - (StopLoss d - TakeProfit d) * 0.2 in
  let riskPercent :=
    if long then (entryPrice - StopLoss d) / entryPrice * 100
    else (StopLoss d - entryPrice) / entryPrice * 100 in
  let rewardPercent :=
    if long then (TakeProfit d - entryPrice) / entryPrice * 100
    else (entryPrice - TakeProfit d) / entryPrice * 100 in
  let riskRewardRatio :=
    if riskPercent >? 0 then rewardPercent / riskPercent else 0 in
  let '(atr14, price) := atrAndPrice d ctx in
  let minATRMultiple := 1.0 in
  let minDist := minATRMultiple * atr14 in
  if (atr14 >? 0)
     && (if long
         then (entryPrice - StopLoss d <? minDist) || (TakeProfit d - entryPrice <? minDist)
         else (StopLoss d - entryPrice <? minDist) || (entryPrice - TakeProfit d <? minDist))
  then Some (ErrStopTakeDistance minDist minATRMultiple)
  else
  let rrrMin :=
    if (atr14 >? 0) && (price >? 0) then
      let vol := atr14 / price in
      if vol <? 0.01 then 2.5 else if vol >=? 0.02 then 3.5 else 3.0
    else 3.0 in
  if riskRewardRatio <? rrrMin then
    Some (ErrRiskReward riskRewardRatio rrrMin riskPercent rewardPercent
            (StopLoss d) (TakeProfit d))
  else if (RiskUSD d >? 0)
          && ((riskPercent / 100.0) * PositionSizeUSD d >? RiskUSD d) then
    Some (ErrRiskBudget ((riskPercent / 100.0) * PositionSizeUSD d) (RiskUSD d))
  else None.

(** [validateDecision]: [None] is the [nil] error. *)
Definition validateDecision (d : Decision) (accountEquity : Q)
    (btcEthLeverage altcoinLeverage : Z) (ctx : option Context) : option error :=
  if negb (isValidAction (Action d)) then Some (ErrInvalidAction (Action d))
  else
    match (if isOpenAction (Action d)
           then validateOpen d accountEquity btcEthLeverage altcoinLeverage ctx
           else None) with
    | Some e => Some e
    | None =>
        if String.eqb (Action d) "update_stop_loss" && (NewStopLoss d <=? 0)
        then Some (ErrNewStopLoss (NewStopLoss d))
        else if String.eqb (Action d) "update_take_profit" && (NewTakeProfit d <=? 0)
        then Some (ErrNewTakeProfit (NewTakeProfit d))
        else if String.eqb (Action d) "partial_close"
                && ((ClosePercentage d <=? 0) || (ClosePercentage d >? 100))
        then Some (ErrClosePercentage (ClosePercentage d))
        else None
    end.

(** The loop of [validateDecisions] from the decision of index [i]. *)
Fixpoint validateDecisionsFrom (i : Z) (decisions : list Decision)
    (accountEquity : Q) (btcEthLeverage altcoinLeverage : Z)
    (ctx : option Context) : option error :=
  match decisions with
  | [] => None
  | decision :: rest =>
      match validateDecision decision accountEquity btcEthLeverage altcoinLeverage ctx with
      | Some err => Some (ErrDecisionFailed (i + 1)%Z err)
      | None =>
          validateDecisionsFrom (i + 1)%Z rest accountEquity btcEthLeverage
            altcoinLeverage ctx
      end
  end.

Definition validateDecisions (decisions : list Decision) (accountEquity : Q)
    (btcEthLeverage altcoinLeverage : Z) (ctx : option Context) : option error :=
  validateDecisionsFrom 0%Z decisions accountEquity btcEthLeverage altcoinLeverage ctx.

(** ** Package decision: parsing a response and the decision call *)

Section DecisionCall.

(** [extractCoTTrace], the best-effort extraction of the reasoning trace, is
    kept abstract: the results below hold for any extraction. *)
Variable extractCoTTrace : string -> string.

(** The prompts and the answer of the decision-making service to them. *)
Variable buildSystemPrompt : Context -> string.
Variable buildUserPrompt : Context -> string.

(** [parseFullDecisionResponse]: the decision returned (it is never [nil])
    and the error if any. *)
Definition parseFullDecisionResponse (aiResponse : string) (ctx : Context)
    : FullDecision * option error :=
  let decisions := extractDecisionsStrict aiResponse in
  let cot := strings.TrimSpace (extractCoTTrace aiResponse) in
  match decisions with
  | Err err =>
      ({| SystemPrompt := EmptyString; UserPrompt := EmptyString;
          CoTTrace := cot; Decisions := [] |},
       Some (ErrStrictJSON err))
  | Ok decisions =>
      match validateDecisions decisions (TotalEquity (ctx_Account ctx))
              (ctx_BTCETHLeverage ctx) (ctx_AltcoinLeverage ctx) (Some ctx) with
      | Some err =>
          ({| SystemPrompt := EmptyString; UserPrompt := EmptyString;
              CoTTrace := cot; Decisions := decisions |},
           Some (ErrValidation err))
      | None =>
          ({| SystemPrompt := EmptyString; UserPrompt := EmptyString;
              CoTTrace := cot; Decisions := decisions |},
           None)
      end
  end.

(** [fetchMarketDataForContext] fills the market data map of the context
    with what the market-data collaborator answers (after its open-interest
    filter) and never fails; the filled map is given. *)
Definition fetchMarketDataForContext (marketData : gmap string (option MarketData))
    (ctx : Context) : Context :=
  set_MarketDataMap (Some marketData) ctx.

(** [GetFullDecisionWithCustomPrompt]: the decision ([None] is [nil]) and
    the error if any; [aiAnswer] is what [CallWithMessages] returns. *)
Definition GetFullDecisionWithCustomPrompt
    (marketData : gmap string (option MarketData))
    (aiAnswer : result string) (ctx : Context)
    : Context * option FullDecision * option error :=
  let ctx := fetchMarketDataForContext marketData ctx in
  let systemPrompt := buildSystemPrompt ctx in
  let userPrompt := buildUserPrompt ctx in
  match aiAnswer with
  | Err err => (ctx, None, Some (ErrAICall err))
  | Ok aiResponse =>
      match parseFullDecisionResponse aiResponse ctx with
      | (decision, Some err) => (ctx, Some decision, Some (ErrResponseParse err))
      | (decision, None) =>
          (ctx,
           Some {| SystemPrompt := systemPrompt; UserPrompt := userPrompt;
                   CoTTrace := CoTTrace decision; Decisions := Decisions decision |},
           None)
      end
  end.

End DecisionCall.

(** ** Package trader: the decision sequencer *)

Definition getActionPriority (action : string) : Z :=
  if String.eqb action "close_long" || String.eqb action "close_short"
     || String.eqb action "partial_close" then 1
  else if String.eqb action "update_stop_loss"
          || String.eqb action "update_take_profit" then 2
  else if String.eqb action "open_long" || String.eqb action "open_short" then 3
  else if String.eqb action "hold" || String.eqb action "wait" then 4
  else 999.

Definition priority (d : Decision) : Z := getActionPriority (Action d).

(** The body of the inner loop: [sorted[i]] and [sorted[j]] are exchanged
    when the priority number of the first is greater. *)
Definition exchangeStep (i j : nat) (sorted : list Decision) : list Decision :=
  match sorted !! i, sorted !! j with
  | Some a, Some b =>
      if (priority b <? priority a)%Z
      then <[j := a]> (<[i := b]> sorted)
      else sorted
  | _, _ => sorted   (* not reached: both indices are in range *)
  end.

(** [for j := i + 1; j < n; j++]. *)
Definition innerLoop (n i : nat) (sorted : list Decision) : list Decision :=
  foldl (fun sorted j => exchangeStep i j sorted) sorted (seq (S i) (n - S i)).

(** [for i := 0; i < n - 1; i++]. *)
Definition outerLoop (n : nat) (sorted : list Decision) : list Decision :=
  foldl (fun sorted i => innerLoop n i sorted) sorted (seq 0 (n - 1)).

Definition sortDecisionsByPriority (decisions : list Decision) : list Decision :=
  if (length decisions <=? 1)%nat then decisions
  else
    let sorted := decisions in
    outerLoop (length sorted) sorted.

(** ** Package trader: the adjuster *)

(** A line of the execution log of a record. *)
Inductive LogLine : Type :=
  | LogPreDecision
  | LogPerformance (winRate profitFactor : Q) (trades : Z)
  | LogCooldown (symbol side : string)
  | LogMarginErrors
  | LogClamped (newSize : Q)
  | LogAdjusted (symbol side : string) (base newSize : Q)
  | LogFailed (symbol action : string) (e : error)
  | LogSuccess (symbol action : string).

Definition sideOfOpen (action : string) : string :=
  if String.eqb action "open_short" then "short" else "long".

(** The scan of the recent trade outcomes, from the last entry of the slice
    backward: the first outcome with the symbol and the side of the decision
    ends the scan, and sets the cooldown when it is a loss of 15% or more
    closed less than 90 minutes ago.  The argument is the slice reversed. *)
Fixpoint cooldownScan (now : Time) (fromEnd : list TradeOutcome)
    (symbol side : string) : bool :=
  match fromEnd with
  | [] => false
  | t :: rest =>
      if String.eqb (to_Symbol t) symbol && String.eqb (to_Side t) side then
        (to_PnLPct t <=? -15) && (now - to_CloseTime t <? 90 * Minute)%Z
      else cooldownScan now rest symbol side
  end.

Definition recentLossCooldown (now : Time) (recentTrades : list TradeOutcome)
    (symbol side : string) : bool :=
  cooldownScan now (rev recentTrades) symbol side.

(** Whether the execution logs of the latest records mention a margin
    failure. *)
Definition mentionsMargin (line : string) : bool :=
  strings.Contains line "保证金不足"
  || strings.Contains (strings.ToLower line) "margin".

Definition hadRecentMarginError (recentLogs : list (list string)) : bool :=
  existsb (existsb mentionsMargin) recentLogs.

Section Adjuster.

Variable Exp : Q -> Q.

(** The adjustment of one decision: the decision after it and the lines it
    appends to the execution log. *)
Definition adjustDecision (now : Time) (available : Q) (marginError : bool)
    (winRate profitFactor : Q) (recentTrades : list TradeOutcome)
    (d : Decision) : Decision * list LogLine :=
  if negb (String.eqb (Action d) "open_long")
     && negb (String.eqb (Action d) "open_short")
  then (d, [])
  else
    let feeRate := 0.0004 in
    let side := sideOfOpen (Action d) in
    let cooldown := recentLossCooldown now recentTrades (Symbol d) side in
    let log1 := if cooldown
                then [LogCooldown (Symbol d) (strings.ToUpper side)] else [] in
    let base := if PositionSizeUSD d <=? 0 then 0 else PositionSizeUSD d in
    let newSize :=
      ComputeAdjustedSize Exp base (Leverage d) available feeRate winRate
        profitFactor (float64 (Confidence d)) cooldown in
    let '(newSize, log2) :=
      if marginError && (newSize >? 0)
      then (newSize * 0.85, [LogMarginErrors]) else (newSize, []) in
    let log3 :=
      if (0 <? Leverage d)%Z then
        let denom := 1.0 / float64 (Leverage d) + feeRate in
        let maxSize := available / denom in
        if (base >? 0) && (newSize >? maxSize - 0.000001)
        then [LogClamped newSize] else []
      else [] in
    let log4 :=
      if (base >? 0) && Qneqb newSize base
      then [LogAdjusted (Symbol d) (strings.ToUpper side) base newSize] else [] in
    (set_PositionSizeUSD newSize d, log1 ++ log2 ++ log3 ++ log4).

Fixpoint adjustEach (now : Time) (available : Q) (marginError : bool)
    (winRate profitFactor : Q) (recentTrades : list TradeOutcome)
    (decisions : list Decision) : list Decision * list LogLine :=
  match decisions with
  | [] => ([], [])
  | d :: rest =>
      let '(d', lines) :=
        adjustDecision now available marginError winRate profitFactor recentTrades d in
      let '(rest', lines') :=
        adjustEach now available marginError winRate profitFactor recentTrades rest in
      (d' :: rest', lines ++ lines')
  end.

(** [adjustDecisionsByPerformance]: [recentLogs] are the execution logs of
    the latest 20 records, as the logger returns them. *)
Definition adjustDecisionsByPerformance (now : Time) (recentLogs : list (list string))
    (decisions : list Decision) (ctx : Context)
    (recent : option PerformanceAnalysis) : list Decision * list LogLine :=
  match decisions with
  | [] => (decisions, [])
  | _ =>
      let available := AvailableBalance (ctx_Account ctx) in
      let marginError := hadRecentMarginError recentLogs in
      let '(winRate, profitFactor, recentTrades) :=
        match recent with
        | Some r => (WinRate r, ProfitFactor r, RecentTrades r)
        | None => (0, 0, [])
        end in
      adjustEach now available marginError winRate profitFactor recentTrades decisions
  end.

End Adjuster.

(** ** Package trader: the per-cycle trading context *)

(** The answer of [GetBalance]: each key is read with a checked type
    assertion, and reads as 0 when absent. *)
Record Balance : Type := {
  totalWalletBalance : option Q;
  totalUnrealizedProfit : option Q;
  availableBalance : option Q
}.

Definition calculatePnLPercentage (unrealizedPnl marginUsed : Q) : Q :=
  if marginUsed >? 0 then (unrealizedPnl / marginUsed) * 100 else 0.0.

(** [now.UnixMilli()]. *)
Definition UnixMilli (now : Time) : Z := (now / 1000000)%Z.

(** The position snapshot of one record of [GetPositions], with the state
    after the first-seen time of the position is recorded; [None] for a
    record of quantity 0, which is skipped. *)
Definition positionSnapshot (now : Time) (pos : RawPosition) (tr : AutoTrader)
    : option (PositionInfo * AutoTrader) :=
  let symbol := pos_symbol pos in
  let side := pos_side pos in
  let quantity := pos_positionAmt pos in
  let quantity := if quantity <? 0 then - quantity else quantity in
  if Qeq_bool quantity 0 then None
  else
    let leverage := positionLeverage pos in
    let marginUsed := (quantity * pos_markPrice pos) / float64 leverage in
    let pnlPct := calculatePnLPercentage (pos_unRealizedProfit pos) marginUsed in
    let posKey := posKey symbol side in
    let tr :=
      match positionFirstSeenTime tr !! posKey with
      | Some _ => tr
      | None =>
          set_positionFirstSeenTime
            (<[posKey := UnixMilli now]> (positionFirstSeenTime tr)) tr
      end in
    let updateTime := default 0%Z (positionFirstSeenTime tr !! posKey) in
    let peakPnlPct := default 0 (peakPnLCache tr !! symbol) in
    Some ({| pi_Symbol := symbol; pi_Side := side;
             pi_EntryPrice := pos_entryPrice pos;
             pi_MarkPrice := pos_markPrice pos;
             pi_Quantity := quantity; pi_Leverage := leverage;
             pi_UnrealizedPnL := pos_unRealizedProfit pos;
             pi_UnrealizedPnLPct := pnlPct;
             pi_PeakPnLPct := peakPnlPct;
             pi_LiquidationPrice := pos_liquidationPrice pos;
             pi_MarginUsed := marginUsed;
             pi_UpdateTime := updateTime |}, tr).

(** The loop over the positions: the snapshots, the keys of the live
    positions, and the state. *)
Fixpoint positionSnapshots (now : Time) (positions : list RawPosition)
    (tr : AutoTrader) : list PositionInfo * gset string * AutoTrader :=
  match positions with
  | [] => ([], ∅, tr)
  | pos :: rest =>
      match positionSnapshot now pos tr with
      | None => positionSnapshots now rest tr
      | Some (info, tr) =>
          let '(infos, keys, tr) := positionSnapshots now rest tr in
          (info :: infos, {[posKey (pos_symbol pos) (pos_side pos)]} ∪ keys, tr)
      end
  end.

Definition sumMarginUsed (infos : list PositionInfo) : Q :=
  foldl (fun total info => total + pi_MarginUsed info) 0.0 infos.

(** What the collaborators answer during one cycle. *)
Record CycleEnv : Type := {
  env_now : Time;
  (** the initial balance after [autoSyncBalanceIfNeeded], when it changes it *)
  env_syncedBalance : option Q;
  env_balance : result Balance;
  env_positions : result (list RawPosition);
  env_candidateCoins : result (list string);
  (** [AnalyzePerformance(100)] and [AnalyzePerformance(30)]; an error reads as [nil] *)
  env_performance : option PerformanceAnalysis;
  env_recentPerf : option PerformanceAnalysis;
  (** the execution logs of [GetLatestRecords(20)] *)
  env_recentLogs : list (list string);
  env_marketData : gmap string (option MarketData);
  env_aiAnswer : result string;
  (** the error, if any, of executing a trading decision on the exchange *)
  env_execute : Decision -> option error
}.

Definition buildTradingContext (env : CycleEnv) (tr : AutoTrader)
    : AutoTrader * result Context :=
  match env_balance env with
  | Err err => (tr, Err (ErrGetBalance err))
  | Ok balance =>
      let totalWalletBalance := default 0.0 (totalWalletBalance balance) in
      let totalUnrealizedProfit := default 0.0 (totalUnrealizedProfit balance) in
      let availableBalance := default 0.0 (availableBalance balance) in
      let totalEquity := totalWalletBalance + totalUnrealizedProfit in
      match env_positions env with
      | Err err => (tr, Err (ErrGetPositions err))
      | Ok positions =>
          let '(positionInfos, currentPositionKeys, tr) :=
            positionSnapshots (env_now env) positions tr in
          let totalMarginUsed := sumMarginUsed positionInfos in
          let tr :=
            set_positionFirstSeenTime
              (filter (fun kv => bool_decide (kv.1 ∈ currentPositionKeys))
                 (positionFirstSeenTime tr)) tr in
          match env_candidateCoins env with
          | Err err => (tr, Err (ErrCandidateCoins err))
          | Ok candidateCoins =>
              let totalPnL := totalEquity - initialBalance tr in
              let totalPnLPct :=
                if initialBalance tr >? 0
                then (totalPnL / initialBalance tr) * 100 else 0.0 in
              let marginUsedPct :=
                if totalEquity >? 0
                then (totalMarginUsed / totalEquity) * 100 else 0.0 in
              (tr,
               Ok {| ctx_CallCount := callCount tr;
                     ctx_Account :=
                       {| TotalEquity := totalEquity;
                          AvailableBalance := availableBalance;
                          TotalPnL := totalPnL; TotalPnLPct := totalPnLPct;
                          MarginUsed := totalMarginUsed;
                          MarginUsedPct := marginUsedPct;
                          PositionCount := Z.of_nat (length positionInfos) |};
                     ctx_Positions := positionInfos;
                     ctx_CandidateCoins := candidateCoins;
                     ctx_MarketDataMap := None;
                     ctx_Performance := env_performance env;
                     ctx_BTCETHLeverage := BTCETHLeverage (config tr);
                     ctx_AltcoinLeverage := AltcoinLeverage (config tr);
                     ctx_UseTestnet := BinanceTestnet (config tr) |})
          end
      end
  end.

(** ** Package trader: one decision cycle *)

(** Modelled from the spec: the types [logger.DecisionRecord],
    [logger.DecisionAction] and [logger.AccountSnapshot] are declared
    outside the embedded files; these are the fields that [runCycle] writes
    (the structured record per cycle: account snapshot, position snapshots,
    candidate list, prompts, parsed decisions, per-decision execution outcome,
    adjustment and error notes). *)
Record AccountSnapshot : Type := {
  as_TotalBalance : Q;
  as_AvailableBalance : Q;
  as_TotalUnrealizedProfit : Q;
  as_PositionCount : Z;
  as_MarginUsedPct : Q;
  as_DayStartEquity : Q;
  as_EquityPeak : Q
}.

Record DecisionAction : Type := {
  da_Action : string;
  da_Symbol : string;
  da_Leverage : Z;
  da_Success : bool;
  da_Error : option error
}.

(** The error message of a record, by the place that writes it. *)
Inductive RecordMessage : Type :=
  | MsgPaused (remaining : Duration)
  | MsgContextFailed (e : error)
  | MsgRiskTriggered (remaining : Duration) (equity : Q)
  | MsgDecisionFailed (e : error).

Record DecisionRecord : Type := {
  rec_Success : bool;
  rec_ErrorMessage : option RecordMessage;
  rec_AccountState : option AccountSnapshot;
  rec_Positions : list PositionInfo;
  rec_CandidateCoins : list string;
  rec_SystemPrompt : string;
  rec_InputPrompt : string;
  rec_CoTTrace : string;
  (** the decisions marshalled into [DecisionJSON]; empty when none are *)
  rec_DecisionJSON : list Decision;
  rec_ExecutionLog : list LogLine;
  rec_Decisions : list DecisionAction
}.

Definition newRecord : DecisionRecord :=
  {| rec_Success := true; rec_ErrorMessage := None; rec_AccountState := None;
     rec_Positions := []; rec_CandidateCoins := [];
     rec_SystemPrompt := EmptyString; rec_InputPrompt := EmptyString;
     rec_CoTTrace := EmptyString; rec_DecisionJSON := [];
     rec_ExecutionLog := []; rec_Decisions := [] |}.

(** [record.Success = false; record.ErrorMessage = msg]. *)
Definition failRecord (msg : RecordMessage) (r : DecisionRecord) : DecisionRecord :=
  {| rec_Success := false; rec_ErrorMessage := Some msg;
     rec_AccountState := rec_AccountState r; rec_Positions := rec_Positions r;
     rec_CandidateCoins := rec_CandidateCoins r;
     rec_SystemPrompt := rec_SystemPrompt r; rec_InputPrompt := rec_InputPrompt r;
     rec_CoTTrace := rec_CoTTrace r; rec_DecisionJSON := rec_DecisionJSON r;
     rec_ExecutionLog := rec_ExecutionLog r; rec_Decisions := rec_Decisions r |}.

Definition recordContext (ctx : Context) (tr : AutoTrader) (r : DecisionRecord)
    : DecisionRecord :=
  {| rec_Success := rec_Success r; rec_ErrorMessage := rec_ErrorMessage r;
     rec_AccountState :=
       Some {| as_TotalBalance := TotalEquity (ctx_Account ctx);
               as_AvailableBalance := AvailableBalance (ctx_Account ctx);
               as_TotalUnrealizedProfit := TotalPnL (ctx_Account ctx);
               as_PositionCount := PositionCount (ctx_Account ctx);
               as_MarginUsedPct := MarginUsedPct (ctx_Account ctx);
               as_DayStartEquity := dayStartEquity tr;
               as_EquityPeak := equityPeak tr |};
     rec_Positions := rec_Positions r ++ ctx_Positions ctx;
     rec_CandidateCoins := rec_CandidateCoins r ++ ctx_CandidateCoins ctx;
     rec_SystemPrompt := rec_SystemPrompt r; rec_InputPrompt := rec_InputPrompt r;
     rec_CoTTrace := rec_CoTTrace r; rec_DecisionJSON := rec_DecisionJSON r;
     rec_ExecutionLog := rec_ExecutionLog r; rec_Decisions := rec_Decisions r |}.

(** The prompts, the reasoning trace and the decisions of a response are
    saved even when the call returned an error. *)
Definition recordDecision (decision : option FullDecision) (r : DecisionRecord)
    : DecisionRecord :=
  match decision with
  | None => r
  | Some decision =>
      {| rec_Success := rec_Success r; rec_ErrorMessage := rec_ErrorMessage r;
         rec_AccountState := rec_AccountState r; rec_Positions := rec_Positions r;
         rec_CandidateCoins := rec_CandidateCoins r;
         rec_SystemPrompt := SystemPrompt decision;
         rec_InputPrompt := UserPrompt decision;
         rec_CoTTrace := CoTTrace decision;
         rec_DecisionJSON := Decisions decision;
         rec_ExecutionLog := rec_ExecutionLog r; rec_Decisions := rec_Decisions r |}
  end.

Definition appendLog (lines : list LogLine) (r : DecisionRecord) : DecisionRecord :=
  {| rec_Success := rec_Success r; rec_ErrorMessage := rec_ErrorMessage r;
     rec_AccountState := rec_AccountState r; rec_Positions := rec_Positions r;
     rec_CandidateCoins := rec_CandidateCoins r;
     rec_SystemPrompt := rec_SystemPrompt r; rec_InputPrompt := rec_InputPrompt r;
     rec_CoTTrace := rec_CoTTrace r; rec_DecisionJSON := rec_DecisionJSON r;
     rec_ExecutionLog := rec_ExecutionLog r ++ lines;
     rec_Decisions := rec_Decisions r |}.

Definition appendAction (a : DecisionAction) (r : DecisionRecord) : DecisionRecord :=
  {| rec_Success := rec_Success r; rec_ErrorMessage := rec_ErrorMessage r;
     rec_AccountState := rec_AccountState r; rec_Positions := rec_Positions r;
     rec_CandidateCoins := rec_CandidateCoins r;
     rec_SystemPrompt := rec_SystemPrompt r; rec_InputPrompt := rec_InputPrompt r;
     rec_CoTTrace := rec_CoTTrace r; rec_DecisionJSON := rec_DecisionJSON r;
     rec_ExecutionLog := rec_ExecutionLog r;
     rec_Decisions := rec_Decisions r ++ [a] |}.

(** What one cycle does besides changing the session state: the record it
    hands to [LogDecision], the decisions it hands to
    [executeDecisionWithRecord], in order, and the error it returns. *)
Record CycleResult : Type := {
  logged : DecisionRecord;
  executed : list Decision;
  returned : option error
}.

Definition isTradingAction (action : string) : bool :=
  existsb (String.eqb action)
    [ "open_long"; "open_short"; "close_long"; "close_short";
      "update_stop_loss"; "update_take_profit"; "partial_close" ]%string.

(** [executeDecisionWithRecord]: a trading action goes to the exchange
    (its outcome is the answer of the environment), hold and wait do
    nothing, any other action is an error. *)
Definition executeDecisionWithRecord (env : CycleEnv) (d : Decision) : option error :=
  if isTradingAction (Action d) then env_execute env d
  else if String.eqb (Action d) "hold" || String.eqb (Action d) "wait" then None
  else Some (ErrUnknownAction (Action d)).

(** The execution loop over the sorted and adjusted decisions. *)
Fixpoint executeAll (env : CycleEnv) (decisions : list Decision)
    (r : DecisionRecord) : DecisionRecord * list Decision :=
  match decisions with
  | [] => (r, [])
  | d :: rest =>
      let r :=
        match executeDecisionWithRecord env d with
        | Some err =>
            appendAction
              {| da_Action := Action d; da_Symbol := Symbol d;
                 da_Leverage := Leverage d; da_Success := false;
                 da_Error := Some err |}
              (appendLog [LogFailed (Symbol d) (Action d) err] r)
        | None =>
            appendAction
              {| da_Action := Action d; da_Symbol := Symbol d;
                 da_Leverage := Leverage d; da_Success := true;
                 da_Error := None |}
              (appendLog [LogSuccess (Symbol d) (Action d)] r)
        end in
      let '(r, done) := executeAll env rest r in
      (r, d :: done)
  end.

(** [autoSyncBalanceIfNeeded] writes the initial balance, the time of the
    last synchronisation and the database row; of these the state keeps the
    initial balance. *)
Definition autoSyncBalanceIfNeeded (env : CycleEnv) (tr : AutoTrader) : AutoTrader :=
  match env_syncedBalance env with
  | Some b => set_initialBalance b tr
  | None => tr
  end.

Section Cycle.

Variable Exp : Q -> Q.
Variable extractCoTTrace : string -> string.
Variable buildSystemPrompt : Context -> string.
Variable buildUserPrompt : Context -> string.

(** Steps 5 to 9 of [runCycle]: the decision call, and the ordering,
    adjustment and execution of its decisions.  These steps leave the risk
    state as it is (the first-seen time that an executed opening order
    records is part of the exchange path, which is the answer of the
    environment). *)
Definition decideAndExecute (env : CycleEnv) (ctx : Context)
    (record : DecisionRecord) : CycleResult :=
  let now := env_now env in
  (* 5. the decision call *)
  let '(ctx, decision, err) :=
    GetFullDecisionWithCustomPrompt extractCoTTrace buildSystemPrompt
      buildUserPrompt (env_marketData env) (env_aiAnswer env) ctx in
  let record := recordDecision decision record in
  match err with
  | Some err =>
      {| logged := failRecord (MsgDecisionFailed err) record;
         executed := []; returned := Some (ErrGetDecision err) |}
  | None =>
  (* 7. recent performance *)
  let recentPerf := env_recentPerf env in
  let record := appendLog [LogPreDecision] record in
  let record :=
    match recentPerf with
    | Some p => appendLog [LogPerformance (WinRate p) (ProfitFactor p) (TotalTrades p)] record
    | None => record
    end in
  (* 8. order, adjust, execute *)
  let decisions := match decision with Some d => Decisions d | None => [] end in
  let sortedDecisions := sortDecisionsByPriority decisions in
  let '(sortedDecisions, lines) :=
    adjustDecisionsByPerformance Exp now (env_recentLogs env) sortedDecisions ctx
      recentPerf in
  let record := appendLog lines record in
  let '(record, done) := executeAll env sortedDecisions record in
  (* 9. the record is saved *)
  {| logged := record; executed := done; returned := None |}
  end.

(** [runCycle].  The clock is read once per cycle. *)
Definition runCycle (env : CycleEnv) (tr : AutoTrader) : AutoTrader * CycleResult :=
  let now := env_now env in
  let tr := set_callCount (callCount tr + 1)%Z tr in
  let record := newRecord in
  (* 1. paused? *)
  if (now <? stopUntil tr)%Z then
    (tr, {| logged := failRecord (MsgPaused (stopUntil tr - now)%Z) record;
            executed := []; returned := None |})
  else
  (* 2. daily reset *)
  let tr := dailyReset now tr in
  (* 3. balance synchronisation *)
  let tr := autoSyncBalanceIfNeeded env tr in
  (* 4. trading context *)
  match buildTradingContext env tr with
  | (tr, Err err) =>
      (tr, {| logged := failRecord (MsgContextFailed err) record;
              executed := []; returned := Some (ErrBuildContext err) |})
  | (tr, Ok ctx) =>
  let record := recordContext ctx tr record in
  match CheckAndApplyRiskPause now (TotalEquity (ctx_Account ctx)) tr with
  | (tr, true) =>
      (tr, {| logged := failRecord
                          (MsgRiskTriggered (stopUntil tr - now)%Z
                             (TotalEquity (ctx_Account ctx))) record;
              executed := []; returned := None |})
  | (tr, false) => (tr, decideAndExecute env ctx record)
  end end.

End Cycle.

(** ** Sessions *)

(** The risk check of successive cycles: each observation is the time and
    the equity of one invocation of [CheckAndApplyRiskPause]. *)
Fixpoint riskChecks (observations : list (Time * Q)) (tr : AutoTrader) : AutoTrader :=
  match observations with
  | [] => tr
  | (now, currentEquity) :: rest =>
      riskChecks rest (fst (CheckAndApplyRiskPause now currentEquity tr))
  end.

(** The equity peak after each of the successive invocations. *)
Fixpoint equityPeaks (observations : list (Time * Q)) (tr : AutoTrader) : list Q :=
  match observations with
  | [] => []
  | (now, currentEquity) :: rest =>
      let tr := fst (CheckAndApplyRiskPause now currentEquity tr) in
      equityPeak tr :: equityPeaks rest tr
  end.

(** ** Package trader: the execution paths (sizing.go)

    What [executeDecisionWithRecord] does on the exchange for each action,
    which the decision cycle above takes as an answer of its environment.
    The exchange adapter, the market-data collaborator and the clock are the
    environment; the orders sent are listed in the order of the calls.  The
    arithmetic is exact. *)

Module Execution.

(** The orders that the execution paths send to the exchange adapter. *)
Inductive Order : Type :=
  | OrderSetMarginMode (symbol : string) (isCrossMargin : bool)
  | OrderOpenLong (symbol : string) (quantity : Q) (leverage : Z)
  | OrderOpenShort (symbol : string) (quantity : Q) (leverage : Z)
  | OrderCloseLong (symbol : string) (quantity : Q)
  | OrderCloseShort (symbol : string) (quantity : Q)
  | OrderSetStopLoss (symbol positionSide : string) (quantity stopPrice : Q)
  | OrderSetTakeProfit (symbol positionSide : string) (quantity takeProfitPrice : Q)
  | OrderCancelStopLoss (symbol positionSide : string)
  | OrderCancelTakeProfit (symbol positionSide : string).

(** What the collaborators answer during one execution: [GetPositions],
    [GetBalance], [market.Get] for a symbol, and the error, if any, of each
    order; [isCrossMargin] is the [IsCrossMargin] of the configuration.  A
    key of a position record that is absent reads as the zero value of its
    type, which is the record with that field at zero. *)
Record Exchange : Type := {
  ex_positions : result (list RawPosition);
  ex_balance : result Balance;
  ex_marketGet : string -> result MarketData;
  ex_send : Order -> option error;
  ex_isCrossMargin : bool
}.

(** One constructor per error that an execution path returns. *)
Inductive execError : Type :=
  | ErrAlreadyLong (symbol : string)       (* "已有多仓，拒绝开仓..." *)
  | ErrAlreadyShort (symbol : string)      (* "已有空仓，拒绝开仓..." *)
  | ErrMarket (e : error)                  (* the error of market.Get *)
  | ErrBalance (e : error)                 (* "获取账户余额失败: %w" *)
  | ErrInsufficientMargin (totalRequired requiredMargin estimatedFee availableBalance : Q)
  | ErrOrder (e : error)                   (* the error of the open or close order *)
  | ErrPositions (e : error)               (* "获取持仓失败: %w" *)
  | ErrNoPosition (symbol : string)        (* "持仓不存在: %s" *)
  | ErrLongStopNotBelowPrice (price newStopLoss : Q)
  | ErrShortStopNotAbovePrice (price newStopLoss : Q)
  | ErrLongTakeNotAbovePrice (price newTakeProfit : Q)
  | ErrShortTakeNotBelowPrice (price newTakeProfit : Q)
  | ErrSetStopLoss (e : error)             (* "修改止损失败: %w" *)
  | ErrSetTakeProfit (e : error)           (* "修改止盈失败: %w" *)
  | ErrPercentage (closePercentage : Q)    (* "平仓百分比必须在 0-100 之间" *)
  | ErrPartialClose (e : error)            (* "部分平仓失败: %w" *)
  | ErrUnknown (action : string).          (* "未知的action: %s" *)

(** The outcome of one execution: the state, the orders sent, the quantity
    and the price written to the action record (0 when not written), and the
    error returned. *)
Record Outcome : Type := {
  out_state : AutoTrader;
  out_orders : list Order;
  out_quantity : Q;
  out_price : Q;
  out_error : option execError
}.

Definition failed (tr : AutoTrader) (quantity price : Q) (e : execError) : Outcome :=
  {| out_state := tr; out_orders := []; out_quantity := quantity;
     out_price := price;
     out_error := Some e |}.

(** The test of the loop that looks for a position of the symbol on one
    side. *)
Definition heldOnSide (symbol positionSide : string) (pos : RawPosition) : bool :=
  String.eqb (pos_symbol pos) symbol
  && String.eqb (strings.ToUpper (pos_side pos)) positionSide
  && Qneqb (pos_positionAmt pos) 0.

(** [executeOpenLongWithRecord] and [executeOpenShortWithRecord]: the two
    functions differ in the side only. *)
Definition executeOpenWithRecord (long : bool) (now : Time) (ex : Exchange)
    (d : Decision) (tr : AutoTrader) : Outcome :=
  let positionSide := if long then "LONG" else "SHORT" in
  if match ex_positions ex with
     | Ok positions => existsb (heldOnSide (Symbol d) positionSide) positions
     | Err _ => false
     end
  then failed tr 0 0 (if long then ErrAlreadyLong (Symbol d) else ErrAlreadyShort (Symbol d))
  else
  match ex_marketGet ex (Symbol d) with
  | Err err => failed tr 0 0 (ErrMarket err)
  | Ok marketData =>
  let quantity := PositionSizeUSD d / CurrentPrice marketData in
  let price := CurrentPrice marketData in
  let requiredMargin := PositionSizeUSD d / float64 (Leverage d) in
  match ex_balance ex with
  | Err err => failed tr quantity price (ErrBalance err)
  | Ok balance =>
  let availableBalance := default 0.0 (availableBalance balance) in
  let estimatedFee := PositionSizeUSD d * 0.0004 in
  let totalRequired := requiredMargin + estimatedFee in
  if totalRequired >? availableBalance then
    failed tr quantity price
      (ErrInsufficientMargin totalRequired requiredMargin estimatedFee availableBalance)
  else
  let marginMode := OrderSetMarginMode (Symbol d) (ex_isCrossMargin ex) in
  let open := if long then OrderOpenLong (Symbol d) quantity (Leverage d)
              else OrderOpenShort (Symbol d) quantity (Leverage d) in
  match ex_send ex open with
  | Some err =>
      {| out_state := tr; out_orders := [marginMode; open]; out_quantity := quantity;
         out_price := price; out_error := Some (ErrOrder err) |}
  | None =>
      let posKey := (Symbol d ++ (if long then "_long" else "_short"))%string in
      let tr := set_positionFirstSeenTime
                  (<[posKey := UnixMilli now]> (positionFirstSeenTime tr)) tr in
      {| out_state := tr;
         out_orders := [marginMode; open;
                    OrderSetStopLoss (Symbol d) positionSide quantity (StopLoss d);
                    OrderSetTakeProfit (Symbol d) positionSide quantity (TakeProfit d)];
         out_quantity := quantity; out_price := price; out_error := None |}
  end end end.

Definition executeOpenLongWithRecord := executeOpenWithRecord true.
Definition executeOpenShortWithRecord := executeOpenWithRecord false.

(** [executeCloseLongWithRecord] and [executeCloseShortWithRecord]: a full
    close (quantity 0) after the price is read. *)
Definition executeCloseWithRecord (long : bool) (ex : Exchange) (d : Decision)
    (tr : AutoTrader) : Outcome :=
  match ex_marketGet ex (Symbol d) with
  | Err err => failed tr 0 0 (ErrMarket err)
  | Ok marketData =>
      let close := if long then OrderCloseLong (Symbol d) 0
                   else OrderCloseShort (Symbol d) 0 in
      {| out_state := tr; out_orders := [close]; out_quantity := 0;
         out_price := CurrentPrice marketData;
         out_error := match ex_send ex close with
                    | Some err => Some (ErrOrder err)
                    | None => None
                    end |}
  end.

Definition executeCloseLongWithRecord := executeCloseWithRecord true.
Definition executeCloseShortWithRecord := executeCloseWithRecord false.

(** The first position of the symbol with a quantity other than 0. *)
Definition targetPosition (symbol : string) (positions : list RawPosition)
    : option RawPosition :=
  List.find (fun pos => String.eqb (pos_symbol pos) symbol
                        && Qneqb (pos_positionAmt pos) 0) positions.

(** [executeUpdateStopLossWithRecord] ([stop] is true) and
    [executeUpdateTakeProfitWithRecord]: the two functions differ in the
    decision field, in the direction of the comparisons with the price and in
    the orders.  The search for a position on the other side only writes to
    the log. *)
Definition executeUpdateWithRecord (stop : bool) (ex : Exchange) (d : Decision)
    (tr : AutoTrader) : Outcome :=
  let newPrice := if stop then NewStopLoss d else NewTakeProfit d in
  match ex_marketGet ex (Symbol d) with
  | Err err => failed tr 0 0 (ErrMarket err)
  | Ok marketData =>
  let price := CurrentPrice marketData in
  match ex_positions ex with
  | Err err => failed tr 0 price (ErrPositions err)
  | Ok positions =>
  match targetPosition (Symbol d) positions with
  | None => failed tr 0 price (ErrNoPosition (Symbol d))
  | Some target =>
  let positionSide := strings.ToUpper (pos_side target) in
  let positionAmt := pos_positionAmt target in
  if String.eqb positionSide "LONG"
     && (if stop then newPrice >=? price else newPrice <=? price)
  then failed tr 0 price
         (if stop then ErrLongStopNotBelowPrice price newPrice
          else ErrLongTakeNotAbovePrice price newPrice)
  else if String.eqb positionSide "SHORT"
          && (if stop then newPrice <=? price else newPrice >=? price)
  then failed tr 0 price
         (if stop then ErrShortStopNotAbovePrice price newPrice
          else ErrShortTakeNotBelowPrice price newPrice)
  else
    let cancel := if stop then OrderCancelStopLoss (Symbol d) positionSide
                  else OrderCancelTakeProfit (Symbol d) positionSide in
    let quantity := Qabs positionAmt in
    let set := if stop then OrderSetStopLoss (Symbol d) positionSide quantity newPrice
               else OrderSetTakeProfit (Symbol d) positionSide quantity newPrice in
    {| out_state := tr; out_orders := [cancel; set]; out_quantity := 0;
       out_price := price;
       out_error := match ex_send ex set with
                  | Some err => Some (if stop then ErrSetStopLoss err
                                      else ErrSetTakeProfit err)
                  | None => None
                  end |}
  end end end.

Definition executeUpdateStopLossWithRecord := executeUpdateWithRecord true.
Definition executeUpdateTakeProfitWithRecord := executeUpdateWithRecord false.

Definition executePartialCloseWithRecord (ex : Exchange) (d : Decision)
    (tr : AutoTrader) : Outcome :=
  if (ClosePercentage d <=? 0) || (ClosePercentage d >? 100) then
    failed tr 0 0 (ErrPercentage (ClosePercentage d))
  else
  match ex_marketGet ex (Symbol d) with
  | Err err => failed tr 0 0 (ErrMarket err)
  | Ok marketData =>
  let price := CurrentPrice marketData in
  match ex_positions ex with
  | Err err => failed tr 0 price (ErrPositions err)
  | Ok positions =>
  match targetPosition (Symbol d) positions with
  | None => failed tr 0 price (ErrNoPosition (Symbol d))
  | Some target =>
  let positionSide := strings.ToUpper (pos_side target) in
  let positionAmt := pos_positionAmt target in
  let totalQuantity := Qabs positionAmt in
  let closeQuantity := totalQuantity * (ClosePercentage d / 100.0) in
  let close := if String.eqb positionSide "LONG"
               then OrderCloseLong (Symbol d) closeQuantity
               else OrderCloseShort (Symbol d) closeQuantity in
  {| out_state := tr; out_orders := [close]; out_quantity := closeQuantity;
     out_price := price;
     out_error := match ex_send ex close with
                | Some err => Some (ErrPartialClose err)
                | None => None
                end |}
  end end end.

(** [executeDecisionWithRecord]: the dispatch on the action. *)
Definition executeDecisionWithRecord (now : Time) (ex : Exchange) (d : Decision)
    (tr : AutoTrader) : Outcome :=
  let action := Action d in
  if String.eqb action "open_long" then executeOpenLongWithRecord now ex d tr
  else if String.eqb action "open_short" then executeOpenShortWithRecord now ex d tr
  else if String.eqb action "close_long" then executeCloseLongWithRecord ex d tr
  else if String.eqb action "close_short" then executeCloseShortWithRecord ex d tr
  else if String.eqb action "update_stop_loss" then executeUpdateStopLossWithRecord ex d tr
  else if String.eqb action "update_take_profit"
  then executeUpdateTakeProfitWithRecord ex d tr
  else if String.eqb action "partial_close" then executePartialCloseWithRecord ex d tr
  else if String.eqb action "hold" || String.eqb action "wait" then
    {| out_state := tr; out_orders := []; out_quantity := 0; out_price := 0;
       out_error := None |}
  else failed tr 0 0 (ErrUnknown action).

End Execution.

(** ** Package trader: the balance synchronisation (sizing.go) *)

Module BalanceSync.

(** The answer of [GetBalance] as [extractBalance] reads it: the [float64]
    under each of the three keys, [None] when the key is absent or holds a
    value of another type. *)
Record BalanceInfo : Type := {
  available_balance : option Q;
  availableBalance : option Q;
  balance : option Q
}.

(** The first of the fields, in this order, that holds a positive number;
    0 when none does. *)
Definition extractBalance (balanceInfo : BalanceInfo) : Q :=
  let balanceFields :=
    [available_balance balanceInfo; availableBalance balanceInfo; balance balanceInfo] in
  match List.find (fun field => match field with
                                | Some value => value >? 0
                                | None => false
                                end) balanceFields with
  | Some (Some value) => value
  | _ => 0
  end.

(** [((actualBalance - at.initialBalance) / at.initialBalance) * 100], in
    binary64. *)
Definition changePercent (initialBalance actualBalance : Q) : Q :=
  F64.mul (F64.div (F64.sub actualBalance initialBalance) initialBalance) 100.

(** The outcome of one call: the state, the time of the last
    synchronisation, and the balance written to the database, if any. *)
Record Synced : Type := {
  trader : AutoTrader;
  lastBalanceSyncTime : Time;
  written : option Q
}.

(** [autoSyncBalanceIfNeeded], with [handleInvalidInitialBalance],
    [updateBalance] and [updateLastSyncTime] in line; the clock is read
    once. *)
Definition autoSyncBalanceIfNeeded (now : Time) (getBalance : result BalanceInfo)
    (tr : AutoTrader) (lastBalanceSyncTime : Time) : Synced :=
  if (now - lastBalanceSyncTime <? 10 * Minute)%Z then
    {| trader := tr; lastBalanceSyncTime := lastBalanceSyncTime; written := None |}
  else
    match getBalance with
    | Err _ => {| trader := tr; lastBalanceSyncTime := now; written := None |}
    | Ok balanceInfo =>
        let actualBalance := extractBalance balanceInfo in
        if actualBalance <=? 0 then
          {| trader := tr; lastBalanceSyncTime := now; written := None |}
        else if initialBalance tr <=? 0 then
          {| trader := set_initialBalance actualBalance tr; lastBalanceSyncTime := now;
             written := Some actualBalance |}
        else
          let changePercent := changePercent (initialBalance tr) actualBalance in
          if Qabs changePercent <=? 5.0 then
            {| trader := tr; lastBalanceSyncTime := now; written := None |}
          else
            {| trader := set_initialBalance actualBalance tr; lastBalanceSyncTime := now;
               written := Some actualBalance |}
    end.

End BalanceSync.

(** ** Package market: the indicators (data.go)

    The volatility measure that the validator reads is
    [calculateATR(klines, 14)] of the four-hour candles.  The arithmetic is
    exact. *)

(** [Kline], by the fields that the indicators read. *)
Record Kline : Type := {
  kl_High : Q;
  kl_Low : Q;
  kl_Close : Q
}.

(** [klines[i]] for an index in range. *)
Definition klineAt (klines : list Kline) (i : nat) : Kline :=
  default {| kl_High := 0; kl_Low := 0; kl_Close := 0 |} (klines !! i).

(** The indices of [for i := from; i < to; i++]. *)
Definition indices (from to : Z) : list nat :=
  seq (Z.to_nat from) (Z.to_nat to - Z.to_nat from).

(** [klines[i].Close - klines[i-1].Close]. *)
Definition closeChange (klines : list Kline) (i : nat) : Q :=
  kl_Close (klineAt klines i) - kl_Close (klineAt klines (i - 1)).

Definition calculateRSI (klines : list Kline) (period : Z) : Q :=
  if (Z.of_nat (length klines) <=? period)%Z then 0
  else
    let '(gains, losses) :=
      foldl (fun '(gains, losses) i =>
               let change := closeChange klines i in
               if change >? 0 then (gains + change, losses)
               else (gains, losses + - change))
        (0.0, 0.0) (indices 1 (period + 1)) in
    let avgGain := gains / float64 period in
    let avgLoss := losses / float64 period in
    let '(avgGain, avgLoss) :=
      foldl (fun '(avgGain, avgLoss) i =>
               let change := closeChange klines i in
               if change >? 0 then
                 ((avgGain * float64 (period - 1) + change) / float64 period,
                  (avgLoss * float64 (period - 1)) / float64 period)
               else
                 ((avgGain * float64 (period - 1)) / float64 period,
                  (avgLoss * float64 (period - 1) + - change) / float64 period))
        (avgGain, avgLoss) (indices (period + 1) (Z.of_nat (length klines))) in
    if Qeq_bool avgLoss 0 then 100
    else
      let rs := avgGain / avgLoss in
      let rsi := 100 - (100 / (1 + rs)) in
      rsi.

(** [math.Max] on numbers. *)
Definition mathMax (x y : Q) : Q := if x <? y then y else x.

(** [trs[i]], the true range of candle [i] for [i >= 1]. *)
Definition trueRange (klines : list Kline) (i : nat) : Q :=
  let high := kl_High (klineAt klines i) in
  let low := kl_Low (klineAt klines i) in
  let prevClose := kl_Close (klineAt klines (i - 1)) in
  let tr1 := high - low in
  let tr2 := Qabs (high - prevClose) in
  let tr3 := Qabs (low - prevClose) in
  mathMax tr1 (mathMax tr2 tr3).

Definition calculateATR (klines : list Kline) (period : Z) : Q :=
  if (Z.of_nat (length klines) <=? period)%Z then 0
  else
    let sum := foldl (fun sum i => sum + trueRange klines i) 0.0
                 (indices 1 (period + 1)) in
    let atr := sum / float64 period in
    foldl (fun atr i => (atr * float64 (period - 1) + trueRange klines i) / float64 period)
      atr (indices (period + 1) (Z.of_nat (length klines))).

(** * Properties *)

(** ** Comparisons *)

Lemma Qleb_spec x y : reflect (x <= y) (x <=? y).
Proof. unfold Qleb. apply iff_reflect. symmetry. apply Qle_bool_iff. Qed.

Lemma Qltb_spec x y : reflect (x < y) (x <? y).
Proof.
  unfold Qltb. destruct (Qle_bool y x) eqn:E; constructor.
  - apply Qle_bool_iff in E. lra.
  - apply Qnot_le_lt. intros H. apply Qle_bool_iff in H. congruence.
Qed.

Lemma Qgeb_spec x y : reflect (y <= x) (x >=? y).
Proof. apply Qleb_spec. Qed.

Lemma Qgtb_spec x y : reflect (y < x) (x >? y).
Proof. apply Qltb_spec. Qed.

(** ** Binary64 arithmetic *)

(** Rounding is symmetric in the sign. *)
Lemma F64_round_opp x : F64.round (- x) = - F64.round x.
Proof.
  destruct x as [[|p|p] d]; unfold F64.round; cbn [Qnum Qden Qopp Z.opp].
  - reflexivity.
  - reflexivity.
  - change (- Z.neg p)%Z with (Z.pos p). cbv iota.
    destruct (F64.roundPos (Z.pos p) d) as [n e]. unfold Qopp. cbn [Qnum Qden].
    rewrite Z.opp_involutive. reflexivity.
Qed.

(** Values of the rounding: numbers that binary64 has are kept; 1/10, 1/3
    and -7/5 go to the nearest number with a significand of 53 bits; a tie
    goes to the even significand; below 2^-1022 the numbers are the multiples
    of 2^-1074. *)
Lemma F64_round_examples :
  F64.round 6 == 6
  /\ F64.round 0.5 == 0.5
  /\ F64.round (1 # 10) == 3602879701896397 # 36028797018963968
  /\ F64.round (1 # 3) == 6004799503160661 # 18014398509481984
  /\ F64.round (- (7 # 5)) == - (3152519739159347 # 2251799813685248)
  /\ F64.round (inject_Z (2 ^ 53 + 1)) == inject_Z (2 ^ 53)
  /\ F64.round (inject_Z (2 ^ 53 + 3)) == inject_Z (2 ^ 53 + 4)
  /\ F64.round (inject_Z (2 ^ 54 + 2)) == inject_Z (2 ^ 54)
  /\ F64.round (inject_Z (2 ^ 54 + 6)) == inject_Z (2 ^ 54 + 8)
  /\ F64.round (1 # 2 ^ 1075) == 0
  /\ F64.round (3 # 2 ^ 1075) == 2 # 2 ^ 1074
  /\ F64.round (5 # 2 ^ 1076) == 1 # 2 ^ 1074
  /\ F64.add (F64.round (1 # 10)) (F64.round (2 # 10))
     == 1351079888211149 # 4503599627370496.
Proof. vm_compute. repeat split; reflexivity. Qed.

(** ** The sizing engine *)

Section SizingProperties.

Variable Exp : Q -> Q.

Lemma marginLimit_eq leverage available feeRate :
  marginLimit leverage available feeRate
    == available / (1 / float64 leverage + feeRate).
Proof.
  unfold marginLimit. cbv zeta.
  assert (E : 1.0 == 1) by reflexivity. rewrite E. reflexivity.
Qed.

Lemma marginLimit_pos leverage available feeRate :
  0 < available -> 0 < 1 / float64 leverage + feeRate ->
  0 < marginLimit leverage available feeRate.
Proof.
  intros Ha Hd. rewrite marginLimit_eq.
  apply Qlt_shift_div_l; [exact Hd|]. lra.
Qed.

(** Once the guard [limit > 0] is passed, the clamp ends under the limit:
    whatever the compression gives, the hard cap is applied after it. *)
Lemma marginSafetyClamp_le leverage available feeRate newSize :
  (0 < leverage)%Z -> 0 < available ->
  0 < marginLimit leverage available feeRate ->
  marginSafetyClamp Exp leverage available feeRate newSize
    <= marginLimit leverage available feeRate.
Proof.
  intros Hl Ha Hlim. unfold marginSafetyClamp.
  destruct (Z.ltb_spec 0 leverage) as [_|?]; [|lia].
  destruct (Qgtb_spec available 0) as [_|?]; [|tauto]. simpl.
  set (limit := marginLimit leverage available feeRate) in *.
  destruct (Qgtb_spec limit 0) as [_|?]; [|tauto].
  match goal with |- context [if ?n >? limit then limit else _] =>
    destruct (Qgtb_spec n limit) end; lra.
Qed.

(** C1 (as amended).  For every call with leverage > 0, available > 0 and a
    positive denominator 1/leverage + feeRate (so for every fee rate that is
    not negative), the returned size is at most the margin limit
    available / (1/leverage + feeRate). *)
Theorem ComputeAdjustedSize_le_margin_limit base leverage available feeRate
    winRate profitFactor confidence recentLossCooldown :
  (0 < leverage)%Z -> 0 < available ->
  0 < 1 / float64 leverage + feeRate ->
  ComputeAdjustedSize Exp base leverage available feeRate winRate profitFactor
      confidence recentLossCooldown
    <= available / (1 / float64 leverage + feeRate).
Proof.
  intros Hl Ha Hd.
  pose proof (marginLimit_pos leverage available feeRate Ha Hd) as Hlim.
  rewrite <- marginLimit_eq.
  unfold ComputeAdjustedSize.
  destruct (Qleb_spec base 0); [lra|].
  match goal with |- context [marginSafetyClamp ?e ?l ?a ?f ?n] =>
    pose proof (marginSafetyClamp_le l a f n Hl Ha Hlim) as Hc;
    set (c := marginSafetyClamp e l a f n) in * end.
  destruct (Qltb_spec c 0); lra.
Qed.

End SizingProperties.

(** A call in which the clamp engages: a proposed size of 50000 against a
    limit of 10000 / (1/5 + 0.0004). *)
Lemma ComputeAdjustedSize_le_margin_limit_witness :
  ComputeAdjustedSize (fun _ => 1) 50000 5 10000 0.0004 70 2.0 80 false
    <= 10000 / (1 / float64 5 + 0.0004).
Proof.
  apply ComputeAdjustedSize_le_margin_limit; [lia | reflexivity | reflexivity].
Defined.

(** C1 as stated fails when the fee rate makes the denominator negative: the
    limit is then negative, the guard [limit > 0] skips the clamp, and the
    size is returned unclamped.  With base 100, leverage 1, available 1 and
    fee rate -2 the limit is -1 and the result is 100 (the exponential is not
    evaluated on this path). *)
Lemma ComputeAdjustedSize_exceeds_negative_limit :
  (0 < 1)%Z /\ 0 < 1
  /\ 1 / (1 / float64 1 + -2) == -1
  /\ (forall Exp, ComputeAdjustedSize Exp 100 1 1 (-2) 50 1.25 0 false == 100)
  /\ (forall Exp,
        ~ (ComputeAdjustedSize Exp 100 1 1 (-2) 50 1.25 0 false
             <= 1 / (1 / float64 1 + -2))).
Proof.
  split; [lia|]. split; [reflexivity|]. split; [reflexivity|].
  split; [intros Exp; reflexivity|].
  intros Exp. vm_compute. intros H. apply H. reflexivity.
Qed.


(** ** The risk-pause state machine *)

Lemma updateRiskTracking_config currentEquity tr :
  config (updateRiskTracking currentEquity tr) = config tr.
Proof.
  unfold updateRiskTracking.
  destruct (dayStartEquity tr <=? 0); simpl;
  match goal with |- context [if ?b then _ else _] => destruct b end; reflexivity.
Qed.




(** The two percentages in the words of the specification, computed in
    binary64 from the day-start equity and the equity peak before the call
    and the current equity.  A day-start equity that is not set (not
    positive) is first set to the current equity; a peak that is not
    positive has no drawdown. *)
Definition lossPercent (dayStartEquity currentEquity : Q) : Q :=
  let dayStartEquity :=
    if dayStartEquity <=? 0 then currentEquity else dayStartEquity in
  let dailyPnL := F64.sub currentEquity dayStartEquity in
  if dailyPnL <? 0 then F64.mul (F64.div (- dailyPnL) dayStartEquity) 100.0 else 0.0.


Lemma F64_sub_diag x : F64.sub x x = 0.
Proof.
  unfold F64.sub, F64.round.
  assert (E : Qnum (x - x) = 0%Z).
  { destruct x as [n d]. cbn. lia. }
  rewrite E. reflexivity.
Qed.

(** The daily loss percentage of an invocation is that of the
    specification. *)
Lemma dailyLossPct_lossPercent currentEquity tr :
  dailyLossPct (updateRiskTracking currentEquity tr)
  = lossPercent (dayStartEquity tr) currentEquity.
Proof.
  unfold updateRiskTracking, lossPercent. cbv zeta.
  assert (E : forall t, dailyLossPct (if currentEquity >? equityPeak t
                                      then set_equityPeak currentEquity t else t)
                        = dailyLossPct t).
  { intros t. destruct (currentEquity >? equityPeak t); reflexivity. }
  destruct (Qleb_spec (dayStartEquity tr) 0) as [Hle|Hgt].
  - rewrite E. unfold dailyLossPct.
    cbn [dayStartEquity dailyPnL set_dailyPnL set_dayStartEquity].
    rewrite F64_sub_diag.
    destruct (Qltb_spec 0 0) as [?|_]; [lra|].
    rewrite andb_false_r. reflexivity.
  - rewrite E. unfold dailyLossPct.
    cbn [dayStartEquity dailyPnL set_dailyPnL].
    destruct (Qgtb_spec (dayStartEquity tr) 0) as [_|?]; [|lra]. reflexivity.
Qed.


Lemma riskPause_neither now currentEquity tr :
  dailyLossBreached (updateRiskTracking currentEquity tr) = false ->
  drawdownBreached currentEquity (updateRiskTracking currentEquity tr) = false ->
  snd (CheckAndApplyRiskPause now currentEquity tr) = false
  /\ stopUntil (fst (CheckAndApplyRiskPause now currentEquity tr)) = stopUntil tr.
Proof.
  intros Hl Hd. unfold CheckAndApplyRiskPause. rewrite Hl, Hd. cbn [fst snd].
  split; [reflexivity|]. unfold updateRiskTracking.
  destruct (dayStartEquity tr <=? 0); cbn;
    match goal with |- context [if ?b then _ else _] => destruct b end; reflexivity.
Qed.

Lemma dailyLossBreached_false tr :
  ~ (0 < MaxDailyLoss (config tr) /\ MaxDailyLoss (config tr) <= dailyLossPct tr) ->
  dailyLossBreached tr = false.
Proof.
  intros H. unfold dailyLossBreached.
  destruct (Qgtb_spec (MaxDailyLoss (config tr)) 0); [|reflexivity].
  destruct (Qgeb_spec (dailyLossPct tr) (MaxDailyLoss (config tr))); [tauto|reflexivity].
Qed.

Lemma drawdownBreached_false currentEquity tr :
  ~ (0 < MaxDrawdown (config tr)
     /\ MaxDrawdown (config tr) <= drawdownPct currentEquity tr) ->
  drawdownBreached currentEquity tr = false.
Proof.
  intros H. unfold drawdownBreached.
  destruct (Qgtb_spec (MaxDrawdown (config tr)) 0); [|reflexivity].
  destruct (Qgeb_spec (drawdownPct currentEquity tr) (MaxDrawdown (config tr)));
    [tauto|reflexivity].
Qed.

(** The day-start equity and the equity peak are positive in a new session,
    and stay positive through the risk check and the daily reset. *)
Lemma NewAutoTrader_positive cfg now tr :
  NewAutoTrader cfg now = Ok tr -> 0 < dayStartEquity tr /\ 0 < equityPeak tr.
Proof.
  unfold NewAutoTrader.
  destruct (Qleb_spec (InitialBalance cfg) 0) as [?|H]; [discriminate|].
  intros E. inversion E; subst; clear E. cbn.
  apply Qnot_le_lt in H. split; exact H.
Qed.

Lemma CheckAndApplyRiskPause_positive now currentEquity tr :
  0 < dayStartEquity tr -> 0 < equityPeak tr ->
  0 < dayStartEquity (fst (CheckAndApplyRiskPause now currentEquity tr))
  /\ 0 < equityPeak (fst (CheckAndApplyRiskPause now currentEquity tr)).
Proof.
  intros Hd Hp. unfold CheckAndApplyRiskPause, updateRiskTracking.
  destruct (Qleb_spec (dayStartEquity tr) 0) as [?|_]; [lra|].
  cbv zeta.
  match goal with |- context [if currentEquity >? ?e then _ else _] =>
    destruct (Qgtb_spec currentEquity e) as [Hgt|Hle] end;
    cbn [equityPeak set_dailyPnL] in *;
    repeat match goal with
           | |- context [if ?b then _ else _] => destruct b
           end; cbn; split; lra.
Qed.

Lemma dailyReset_positive now tr :
  0 < dayStartEquity tr -> 0 < equityPeak tr ->
  0 < dayStartEquity (dailyReset now tr) /\ 0 < equityPeak (dailyReset now tr).
Proof.
  intros Hd Hp. unfold dailyReset. destruct (dailyResetDue now tr); cbn; split; assumption.
Qed.


(** A session created with an initial balance of 1000, a daily-loss
    threshold of 5 percent, no drawdown threshold and a pause of one hour. *)
Definition exampleConfig : AutoTraderConfig :=
  {| InitialBalance := 1000; BTCETHLeverage := 10; AltcoinLeverage := 5;
     MaxDailyLoss := 5; MaxDrawdown := 0; StopTradingTime := Hour;
     BinanceTestnet := false |}.

Definition exampleTrader : AutoTrader :=
  {| config := exampleConfig; initialBalance := 1000; dailyPnL := 0;
     lastResetTime := 0%Z; stopUntil := zeroTime; callCount := 0%Z;
     positionFirstSeenTime := ∅; peakPnLCache := ∅; dayStartEquity := 1000;
     equityPeak := 1000; drawdownBreachCount := ∅;
     drawdownBreachWindow := 3%Z |}.

Lemma exampleTrader_new : NewAutoTrader exampleConfig 0%Z = Ok exampleTrader.
Proof. reflexivity. Qed.




(** The percentages are compared as computed: with a day-start equity of
    100 and an equity of 71 the loss is 29/100 in binary64, times 100, which
    is 28.999999999999996 and under a threshold of 29; there is no pause. *)
Lemma dailyLoss_100_71_under_29 :
  lossPercent 100 71 == 8162774324609023 # 281474976710656
  /\ lossPercent 100 71 < 29
  /\ forall now tr,
       dayStartEquity tr = 100 -> equityPeak tr = 100 ->
       MaxDailyLoss (config tr) = 29 -> MaxDrawdown (config tr) = 0 ->
       snd (CheckAndApplyRiskPause now 71 tr) = false.
Proof.
  assert (E : lossPercent 100 71 == 8162774324609023 # 281474976710656)
    by (vm_compute; reflexivity).
  split; [exact E|]. split; [rewrite E; reflexivity|].
  intros now tr Hd Hp Hl Hw. apply riskPause_neither.
  - apply dailyLossBreached_false.
    rewrite updateRiskTracking_config, dailyLossPct_lossPercent.
    rewrite Hl, Hd, E. intros [_ H]. vm_compute in H. apply H. reflexivity.
  - apply drawdownBreached_false. rewrite updateRiskTracking_config, Hw.
    intros [H _]. vm_compute in H. discriminate H.
Qed.

(** A session whose day-start equity is not set takes the current equity
    for it and has no daily loss, whatever the equity is. *)
Lemma lossPercent_unset currentEquity dayStartEquity :
  dayStartEquity <= 0 -> lossPercent dayStartEquity currentEquity = 0.0.
Proof.
  intros H. unfold lossPercent. cbv zeta.
  destruct (Qleb_spec dayStartEquity 0) as [_|?]; [|tauto].
  rewrite F64_sub_diag. reflexivity.
Qed.

(** C9.  When the daily reset fires it sets the daily P&L to 0 and the
    last-reset time to now, and leaves every other field of the session as
    it is: day-start equity, equity peak and pause deadline in particular. *)
Theorem dailyReset_frame now tr :
  dailyResetDue now tr = true ->
  dailyPnL (dailyReset now tr) = 0
  /\ lastResetTime (dailyReset now tr) = now
  /\ dayStartEquity (dailyReset now tr) = dayStartEquity tr
  /\ equityPeak (dailyReset now tr) = equityPeak tr
  /\ stopUntil (dailyReset now tr) = stopUntil tr
  /\ config (dailyReset now tr) = config tr
  /\ initialBalance (dailyReset now tr) = initialBalance tr
  /\ callCount (dailyReset now tr) = callCount tr
  /\ positionFirstSeenTime (dailyReset now tr) = positionFirstSeenTime tr
  /\ peakPnLCache (dailyReset now tr) = peakPnLCache tr
  /\ drawdownBreachCount (dailyReset now tr) = drawdownBreachCount tr
  /\ drawdownBreachWindow (dailyReset now tr) = drawdownBreachWindow tr.
Proof.
  intros H. unfold dailyReset. rewrite H. cbn. repeat split.
Qed.

(** Twenty-five hours after the session started. *)
Lemma dailyReset_frame_witness :
  dailyPnL (dailyReset (25 * Hour)%Z exampleTrader) = 0
  /\ lastResetTime (dailyReset (25 * Hour)%Z exampleTrader) = (25 * Hour)%Z
  /\ dayStartEquity (dailyReset (25 * Hour)%Z exampleTrader)
     = dayStartEquity exampleTrader
  /\ equityPeak (dailyReset (25 * Hour)%Z exampleTrader) = equityPeak exampleTrader
  /\ stopUntil (dailyReset (25 * Hour)%Z exampleTrader) = stopUntil exampleTrader
  /\ config (dailyReset (25 * Hour)%Z exampleTrader) = config exampleTrader
  /\ initialBalance (dailyReset (25 * Hour)%Z exampleTrader)
     = initialBalance exampleTrader
  /\ callCount (dailyReset (25 * Hour)%Z exampleTrader) = callCount exampleTrader
  /\ positionFirstSeenTime (dailyReset (25 * Hour)%Z exampleTrader)
     = positionFirstSeenTime exampleTrader
  /\ peakPnLCache (dailyReset (25 * Hour)%Z exampleTrader)
     = peakPnLCache exampleTrader
  /\ drawdownBreachCount (dailyReset (25 * Hour)%Z exampleTrader)
     = drawdownBreachCount exampleTrader
  /\ drawdownBreachWindow (dailyReset (25 * Hour)%Z exampleTrader)
     = drawdownBreachWindow exampleTrader.
Proof.
  apply dailyReset_frame. reflexivity.
Defined.

(** The reset does not rebase the day-start equity, and neither does the
    risk check that follows it in the cycle: a positive day-start equity
    survives both. *)
Lemma dayStartEquity_kept_after_reset now now' currentEquity tr :
  0 < dayStartEquity tr ->
  dayStartEquity (fst (CheckAndApplyRiskPause now' currentEquity (dailyReset now tr)))
  = dayStartEquity tr.
Proof.
  intros Hpos.
  assert (Hd : dayStartEquity (dailyReset now tr) = dayStartEquity tr).
  { unfold dailyReset. destruct (dailyResetDue now tr); reflexivity. }
  unfold CheckAndApplyRiskPause, updateRiskTracking.
  rewrite Hd.
  destruct (Qleb_spec (dayStartEquity tr) 0) as [Hle|_]; [lra|].
  repeat match goal with
         | |- context [if ?b then _ else _] => destruct b; cbn
         end; exact Hd.
Qed.

(** ** The drawdown monitor *)

(** An exchange adapter whose close orders succeed. *)
Definition quietTrader : Trader :=
  {| GetPositions := Ok []; CloseLong := fun _ _ => None;
     CloseShort := fun _ _ => None |}.

(** A long BTCUSDT position entered at 100 with leverage 10: a mark price of
    100 + x/10 is a profit of x percent. *)
Definition btcLong (markPrice : Q) : RawPosition :=
  {| pos_symbol := "BTCUSDT"; pos_side := "long"; pos_entryPrice := 100;
     pos_markPrice := markPrice; pos_positionAmt := 1;
     pos_unRealizedProfit := markPrice - 100; pos_liquidationPrice := 0;
     pos_leverage := Some 10 |}.

(** The session after the monitor has seen the position at a profit of 20
    percent: the peak cache holds 20 under the key of the position. *)
Definition monitored : AutoTrader :=
  fst (checkPosition quietTrader (btcLong 102) exampleTrader).

Lemma UpdatePeakPnL_counts symbol side pnl tr :
  drawdownBreachCount (UpdatePeakPnL symbol side pnl tr) = drawdownBreachCount tr
  /\ drawdownBreachWindow (UpdatePeakPnL symbol side pnl tr) = drawdownBreachWindow tr.
Proof.
  unfold UpdatePeakPnL. cbv zeta.
  destruct (peakPnLCache tr !! posKey symbol side) as [peak|]; [|split; reflexivity].
  destruct (pnl >? peak); split; reflexivity.
Qed.

Lemma breachCount_insert tr key n :
  breachCount (set_drawdownBreachCount (<[key := n]> (drawdownBreachCount tr)) tr) key = n.
Proof. unfold breachCount. cbn. rewrite lookup_insert_eq. reflexivity. Qed.

Definition closeCall (symbol side : string) : list TraderCall :=
  if String.eqb side "long" then [CallCloseLong symbol 0]
  else if String.eqb side "short" then [CallCloseShort symbol 0]
  else [].

Lemma emergencyClosePosition_calls trader symbol side :
  fst (emergencyClosePosition trader symbol side) = closeCall symbol side.
Proof.
  unfold emergencyClosePosition, closeCall.
  destruct (String.eqb side "long"); [reflexivity|].
  destruct (String.eqb side "short"); reflexivity.
Qed.

Lemma checkPosition_no_breach trader p tr :
  drawdownBreach p tr = false ->
  snd (checkPosition trader p tr) = []
  /\ breachCount (fst (checkPosition trader p tr)) (posKey (pos_symbol p) (pos_side p)) = 0%Z
  /\ drawdownBreachWindow (fst (checkPosition trader p tr)) = drawdownBreachWindow tr.
Proof.
  intros H. unfold checkPosition. cbv zeta. rewrite H. cbn [fst snd].
  split; [reflexivity|]. split; [apply breachCount_insert|].
  cbn. apply UpdatePeakPnL_counts.
Qed.

Lemma checkPosition_breach trader p tr :
  drawdownBreach p tr = true ->
  let key := posKey (pos_symbol p) (pos_side p) in
  let count := (breachCount tr key + 1)%Z in
  drawdownBreachWindow (fst (checkPosition trader p tr)) = drawdownBreachWindow tr
  /\ if (count <? drawdownBreachWindow tr)%Z
     then snd (checkPosition trader p tr) = []
          /\ breachCount (fst (checkPosition trader p tr)) key = count
     else snd (checkPosition trader p tr) = closeCall (pos_symbol p) (pos_side p).
Proof.
  intros H key count. unfold checkPosition. cbv zeta. rewrite H.
  destruct (UpdatePeakPnL_counts (pos_symbol p) (pos_side p) (monitorPnLPct p) tr)
    as [Hc Hw].
  set (tr1 := UpdatePeakPnL (pos_symbol p) (pos_side p) (monitorPnLPct p) tr) in *.
  fold key.
  assert (Hb : breachCount tr1 key = breachCount tr key).
  { unfold breachCount. rewrite Hc. reflexivity. }
  subst count. rewrite <- Hb, <- Hw.
  rewrite breachCount_insert.
  cbn [drawdownBreachWindow set_drawdownBreachCount].
  set (count := (breachCount tr1 key + 1)%Z).
  destruct (Z.ltb_spec count (drawdownBreachWindow tr1)) as [Hlt|Hge].
  - destruct (Z.ltb_spec 0 (drawdownBreachWindow tr1 - count)) as [_|?]; [|lia].
    cbn [fst snd drawdownBreachWindow set_drawdownBreachCount].
    split; [reflexivity|]. split; [reflexivity|].
    apply breachCount_insert.
  - destruct (Z.ltb_spec 0 (drawdownBreachWindow tr1 - count)) as [?|_]; [lia|].
    rewrite <- (emergencyClosePosition_calls trader).
    destruct (emergencyClosePosition trader (pos_symbol p) (pos_side p)) as [calls [e|]];
      cbn; auto.
Qed.

(** A check of a position with another key leaves the counter as it is. *)
Lemma checkPosition_other_key trader p tr key :
  posKey (pos_symbol p) (pos_side p) <> key ->
  breachCount (fst (checkPosition trader p tr)) key = breachCount tr key.
Proof.
  intros Hne. unfold checkPosition. cbv zeta.
  destruct (UpdatePeakPnL_counts (pos_symbol p) (pos_side p) (monitorPnLPct p) tr)
    as [Hc _].
  set (tr1 := UpdatePeakPnL (pos_symbol p) (pos_side p) (monitorPnLPct p) tr) in *.
  assert (Hb : breachCount tr1 key = breachCount tr key)
    by (unfold breachCount; rewrite Hc; reflexivity).
  assert (Hi : forall n t, drawdownBreachCount t = drawdownBreachCount tr1 ->
            breachCount (set_drawdownBreachCount
                           (<[posKey (pos_symbol p) (pos_side p) := n]>
                              (drawdownBreachCount t)) t) key
            = breachCount tr key).
  { intros n t Ht. unfold breachCount. cbn.
    rewrite lookup_insert_ne by exact Hne. rewrite Ht. exact Hb. }
  destruct (drawdownBreach p tr); [|apply Hi; reflexivity].
  match goal with |- context [if ?b then _ else _] => destruct b end;
    [apply Hi; reflexivity|].
  destruct (emergencyClosePosition trader (pos_symbol p) (pos_side p))
    as [calls [e|]]; cbn [fst].
  - apply Hi; reflexivity.
  - unfold breachCount. cbn. rewrite !lookup_insert_ne by exact Hne. exact Hb.
Qed.

(** No check changes the window. *)
Lemma checkPosition_window trader p tr :
  drawdownBreachWindow (fst (checkPosition trader p tr)) = drawdownBreachWindow tr.
Proof.
  destruct (drawdownBreach p tr) eqn:H.
  - apply (checkPosition_breach trader p tr H).
  - apply (checkPosition_no_breach trader p tr H).
Qed.

(** So do the checks of any number of positions with other keys. *)
Lemma checkPositions_other_keys trader key positions : forall tr,
  Forall (fun q => posKey (pos_symbol q) (pos_side q) <> key) positions ->
  breachCount (fst (checkPositions trader positions tr)) key = breachCount tr key
  /\ drawdownBreachWindow (fst (checkPositions trader positions tr))
     = drawdownBreachWindow tr.
Proof.
  induction positions as [|p rest IH]; intros tr H; simpl; [split; reflexivity|].
  inversion H; subst.
  pose proof (checkPosition_other_key trader p tr key ltac:(assumption)) as Hk.
  pose proof (checkPosition_window trader p tr) as Hw.
  destruct (checkPosition trader p tr) as [tr1 calls]. simpl in *.
  specialize (IH tr1 ltac:(assumption)).
  destruct (checkPositions trader rest tr1) as [tr2 calls']. simpl in *.
  destruct IH as [IH1 IH2]. split; congruence.
Qed.

(** The drawdown of a profit from a peak, and the breach condition, in the
    words of the specification; the percentages are binary64 numbers and the
    drawdown is computed in binary64.  A position without a cached peak is at
    its peak. *)
Definition drawdownFromPeak (peakPnLPct currentPnLPct : Q) : Q :=
  if (peakPnLPct >? 0) && (currentPnLPct <? peakPnLPct)
  then F64.mul (F64.div (F64.sub peakPnLPct currentPnLPct) peakPnLPct) 100
  else 0.

Definition breachCondition (currentPnLPct : Q) (cachedPeak : option Q) : Prop :=
  5.0 < currentPnLPct
  /\ 40.0 <= drawdownFromPeak (default currentPnLPct cachedPeak) currentPnLPct.




Lemma UpdatePeakPnL_lookup symbol side pnl tr :
  peakPnLCache (UpdatePeakPnL symbol side pnl tr) !! posKey symbol side
  = Some (match peakPnLCache tr !! posKey symbol side with
          | Some peak => if pnl >? peak then pnl else peak
          | None => pnl
          end).
Proof.
  unfold UpdatePeakPnL. cbv zeta.
  destruct (peakPnLCache tr !! posKey symbol side) as [peak|] eqn:E.
  - destruct (pnl >? peak); cbn; [apply lookup_insert_eq|exact E].
  - cbn. apply lookup_insert_eq.
Qed.

Lemma UpdatePeakPnL_other symbol side pnl tr key :
  posKey symbol side <> key ->
  peakPnLCache (UpdatePeakPnL symbol side pnl tr) !! key = peakPnLCache tr !! key.
Proof.
  intros Hne. unfold UpdatePeakPnL. cbv zeta.
  destruct (peakPnLCache tr !! posKey symbol side) as [peak|].
  - destruct (pnl >? peak); cbn; [apply lookup_insert_ne; exact Hne|reflexivity].
  - cbn. apply lookup_insert_ne. exact Hne.
Qed.


Lemma checkPosition_other_peak trader p tr key :
  posKey (pos_symbol p) (pos_side p) <> key ->
  peakPnLCache (fst (checkPosition trader p tr)) !! key = peakPnLCache tr !! key.
Proof.
  intros Hne. unfold checkPosition. cbv zeta.
  pose proof (UpdatePeakPnL_other (pos_symbol p) (pos_side p) (monitorPnLPct p) tr key Hne)
    as Hu.
  set (tr1 := UpdatePeakPnL (pos_symbol p) (pos_side p) (monitorPnLPct p) tr) in *.
  destruct (drawdownBreach p tr); [|exact Hu].
  match goal with |- context [if ?b then _ else _] => destruct b end; [exact Hu|].
  destruct (emergencyClosePosition trader (pos_symbol p) (pos_side p))
    as [calls [e|]]; cbn [fst]; [exact Hu|].
  cbn. rewrite lookup_delete_ne by exact Hne. exact Hu.
Qed.

Lemma checkPositions_other_peak trader key positions : forall tr,
  Forall (fun q => posKey (pos_symbol q) (pos_side q) <> key) positions ->
  peakPnLCache (fst (checkPositions trader positions tr)) !! key = peakPnLCache tr !! key.
Proof.
  induction positions as [|p rest IH]; intros tr H; simpl; [reflexivity|].
  inversion H; subst.
  pose proof (checkPosition_other_peak trader p tr key ltac:(assumption)) as Hk.
  destruct (checkPosition trader p tr) as [tr1 calls]. simpl in *.
  specialize (IH tr1 ltac:(assumption)).
  destruct (checkPositions trader rest tr1) as [tr2 calls']. simpl in *. congruence.
Qed.










(** The exchange listing the given positions; it accepts every close. *)
Definition listing (positions : list RawPosition) : Trader :=
  {| GetPositions := Ok positions; CloseLong := fun _ _ => None;
     CloseShort := fun _ _ => None |}.



(** The session after the monitor has seen the long BTCUSDT position at a
    profit of 20 percent, and after the checks at 10 and at 7.5 percent. *)
Definition peaked : AutoTrader :=
  fst (checkPositionDrawdown (listing [btcLong 102]) exampleTrader).

Definition breachedOnce : AutoTrader :=
  fst (checkPositionDrawdown (listing [btcLong 101]) peaked).

Definition breachedTwice : AutoTrader :=
  fst (checkPositionDrawdown (listing [btcLong 100.75]) breachedOnce).





(** The session after the monitor has seen the long BTCUSDT position at a
    profit of 650 percent. *)
Definition peakedAt650 : AutoTrader :=
  fst (checkPositionDrawdown (listing [btcLong 165]) exampleTrader).

(** At a peak of 650 percent and a mark price of 139 the profit computed in
    binary64 is just above 390 percent and the drawdown just below 40
    percent, where the exact quotient is 40 percent: the check is no
    breach. *)
Lemma drawdown_650_390_under_40 :
  peakPnLCache peakedAt650 !! posKey "BTCUSDT" "long" = Some (inject_Z 650)
  /\ 390 < monitorPnLPct (btcLong 139)
  /\ monitorDrawdownPct (btcLong 139) peakedAt650 < 40
  /\ (650 - 390) / 650 * 100 == 40
  /\ ~ breachCondition (monitorPnLPct (btcLong 139))
         (peakPnLCache peakedAt650 !! posKey "BTCUSDT" "long")
  /\ drawdownBreach (btcLong 139) peakedAt650 = false.
Proof.
  vm_compute.
  repeat split; try reflexivity; try discriminate.
  intros [_ H]. apply H. reflexivity.
Qed.

(** A short ETHUSDT position entered at 100, with no leverage on the
    position record. *)
Definition ethShort (markPrice : Q) : RawPosition :=
  {| pos_symbol := "ETHUSDT"; pos_side := "short"; pos_entryPrice := 100;
     pos_markPrice := markPrice; pos_positionAmt := -1;
     pos_unRealizedProfit := 100 - markPrice; pos_liquidationPrice := 0;
     pos_leverage := None |}.

(** The profit percentage on the two sides: the price move over the entry
    price, times the leverage (10 when the record has none), times 100. *)
Lemma monitorPnLPct_examples :
  monitorPnLPct (btcLong 102) == 20
  /\ monitorPnLPct (btcLong 98) == -20
  /\ monitorPnLPct (ethShort 98) == 20
  /\ monitorPnLPct (ethShort 102) == -20.
Proof. vm_compute. repeat split; reflexivity. Qed.

(** ** The peak in the position snapshot *)

Lemma positionSnapshot_peak now pos tr info tr' :
  positionSnapshot now pos tr = Some (info, tr') ->
  pi_PeakPnLPct info = default 0 (peakPnLCache tr !! pos_symbol pos).
Proof.
  unfold positionSnapshot. destruct (Qeq_bool _ 0); [discriminate|].
  intros H. inversion H; subst; clear H. cbn [pi_PeakPnLPct].
  destruct (positionFirstSeenTime tr !! _); reflexivity.
Qed.

(** C8 (the code departs from it).  The snapshot reads the peak cache under
    the symbol alone, while the monitor writes it under the key
    symbol + "_" + side: after the monitor has recorded a peak of 20 percent
    for the long BTCUSDT position, the snapshot of that position carries a
    peak of 0. *)
Theorem snapshot_peak_misses_monitor_entry :
  exists peak info tr',
    peakPnLCache monitored !! posKey "BTCUSDT" "long" = Some peak
    /\ peak == 20
    /\ positionSnapshot 5%Z (btcLong 102) monitored = Some (info, tr')
    /\ pi_PeakPnLPct info == 0.
Proof.
  vm_compute. eexists _, _, _. repeat split; try reflexivity.
Qed.

(** ** The adjuster *)

(** A trade outcome of the symbol and side of the decision; a loss of 15
    percent or more closed less than 90 minutes ago. *)
Definition sameMarket (symbol side : string) (t : TradeOutcome) : Prop :=
  to_Symbol t = symbol /\ to_Side t = side.

Definition largeRecentLoss (now : Time) (t : TradeOutcome) : Prop :=
  to_PnLPct t <= -15 /\ (now - to_CloseTime t < 90 * Minute)%Z.

Lemma sameMarket_spec symbol side t :
  reflect (sameMarket symbol side t)
    (String.eqb (to_Symbol t) symbol && String.eqb (to_Side t) side).
Proof.
  unfold sameMarket.
  destruct (String.eqb_spec (to_Symbol t) symbol);
  destruct (String.eqb_spec (to_Side t) side); constructor; tauto.
Qed.

Lemma largeRecentLoss_spec now t :
  reflect (largeRecentLoss now t)
    ((to_PnLPct t <=? -15) && (now - to_CloseTime t <? 90 * Minute)%Z).
Proof.
  unfold largeRecentLoss.
  destruct (Qleb_spec (to_PnLPct t) (-15));
  destruct (now - to_CloseTime t <? 90 * Minute)%Z eqn:E; constructor;
  try (apply Z.ltb_lt in E); try (apply Z.ltb_ge in E); try tauto; lia.
Qed.

Lemma cooldownScan_true now l symbol side :
  cooldownScan now l symbol side = true <->
  exists scanned t rest,
    l = scanned ++ t :: rest
    /\ Forall (fun u => ~ sameMarket symbol side u) scanned
    /\ sameMarket symbol side t /\ largeRecentLoss now t.
Proof.
  induction l as [|u l IH]; simpl.
  - split; [discriminate|]. intros (scanned & t & rest & E & _).
    destruct scanned; discriminate.
  - destruct (sameMarket_spec symbol side u) as [Hm|Hm].
    + split.
      * intros H. exists [], u, l. split; [reflexivity|]. split; [constructor|].
        split; [exact Hm|]. destruct (largeRecentLoss_spec now u); [assumption|discriminate].
      * intros (scanned & t & rest & E & Hn & Ht & Hl).
        destruct scanned as [|v scanned]; simpl in E; inversion E; subst.
        -- destruct (largeRecentLoss_spec now t); [reflexivity|contradiction].
        -- inversion Hn; subst. contradiction.
    + rewrite IH. split.
      * intros (scanned & t & rest & E & Hn & Ht & Hl).
        exists (u :: scanned), t, rest. subst l. split; [reflexivity|].
        split; [constructor; assumption|]. tauto.
      * intros (scanned & t & rest & E & Hn & Ht & Hl).
        destruct scanned as [|v scanned]; simpl in E; inversion E; subst.
        -- contradiction.
        -- inversion Hn; subst. exists scanned, t, rest. tauto.
Qed.

Lemma recentLossCooldown_true now trades symbol side :
  recentLossCooldown now trades symbol side = true <->
  exists before t after,
    trades = before ++ t :: after
    /\ Forall (fun u => ~ sameMarket symbol side u) after
    /\ sameMarket symbol side t /\ largeRecentLoss now t.
Proof.
  unfold recentLossCooldown. rewrite cooldownScan_true. split.
  - intros (scanned & t & rest & E & Hn & Ht & Hl).
    exists (rev rest), t, (rev scanned).
    split.
    + rewrite <- (rev_involutive trades), E, rev_app_distr. simpl.
      rewrite <- app_assoc. reflexivity.
    + split; [|tauto]. apply Forall_rev. exact Hn.
  - intros (rest & t & scanned & E & Hn & Ht & Hl).
    exists (rev scanned), t, (rev rest).
    split.
    + rewrite E, rev_app_distr. simpl. rewrite <- app_assoc. reflexivity.
    + split; [|tauto]. apply Forall_rev. exact Hn.
Qed.

Lemma recentLossCooldown_false now trades symbol side :
  (forall t, In t trades -> sameMarket symbol side t -> ~ largeRecentLoss now t) ->
  recentLossCooldown now trades symbol side = false.
Proof.
  intros H. destruct (recentLossCooldown now trades symbol side) eqn:E; [|reflexivity].
  apply recentLossCooldown_true in E. destruct E as (before & t & after & E & _ & Ht & Hl).
  exfalso. apply (H t); [|assumption|assumption].
  subst trades. apply in_or_app. right. left. reflexivity.
Qed.

(** The size that the adjuster writes into an opening decision: the size of
    the sizing engine, called with the cooldown flag, less 15 percent after
    recent margin failures. *)
Definition adjustedSize (Exp : Q -> Q) (now : Time) (available : Q) (marginError : bool)
    (winRate profitFactor : Q) (recentTrades : list TradeOutcome) (d : Decision) : Q :=
  let base := if PositionSizeUSD d <=? 0 then 0 else PositionSizeUSD d in
  let newSize :=
    ComputeAdjustedSize Exp base (Leverage d) available 0.0004 winRate profitFactor
      (float64 (Confidence d))
      (recentLossCooldown now recentTrades (Symbol d) (sideOfOpen (Action d))) in
  if marginError && (newSize >? 0) then newSize * 0.85 else newSize.

Lemma adjustDecision_open Exp now available marginError winRate profitFactor trades d :
  isOpenAction (Action d) = true ->
  fst (adjustDecision Exp now available marginError winRate profitFactor trades d)
  = set_PositionSizeUSD
      (adjustedSize Exp now available marginError winRate profitFactor trades d) d.
Proof.
  unfold isOpenAction, adjustDecision, adjustedSize. intros H.
  destruct (String.eqb (Action d) "open_long"), (String.eqb (Action d) "open_short");
    try discriminate; cbn [negb andb]; cbv zeta;
    match goal with |- context [if ?b then (_, [LogMarginErrors]) else _] => destruct b end;
    reflexivity.
Qed.

(** C7 (as amended).  For an opening decision the cooldown flag handed to the
    sizing engine is decided by one entry of the recent trade outcomes: the
    last entry of the slice that has the symbol and side of the decision,
    which is the first such entry that the scan from the end of the slice
    meets.  The flag is set exactly when that entry is a loss of 15 percent
    or more closed less than 90 minutes ago; the entries before it in the
    slice are not looked at, whatever their close times.  The flag is not
    set when no entry of that symbol and side is such a loss. *)
Theorem cooldown_decided_by_last_entry :
  (forall now trades symbol side,
     recentLossCooldown now trades symbol side = true <->
     exists before t after,
       trades = before ++ t :: after
       /\ Forall (fun u => ~ sameMarket symbol side u) after
       /\ sameMarket symbol side t /\ largeRecentLoss now t)
  /\ (forall now trades symbol side,
        (forall t, In t trades -> sameMarket symbol side t ->
                   ~ largeRecentLoss now t) ->
        recentLossCooldown now trades symbol side = false)
  /\ (forall Exp now available marginError winRate profitFactor trades d,
        isOpenAction (Action d) = true ->
        fst (adjustDecision Exp now available marginError winRate profitFactor
               trades d)
        = set_PositionSizeUSD
            (adjustedSize Exp now available marginError winRate profitFactor
               trades d) d).
Proof.
  split; [exact recentLossCooldown_true|].
  split; [exact recentLossCooldown_false|].
  intros. apply adjustDecision_open. assumption.
Qed.

(** Trade outcomes of BTCUSDT long, read at minute 100: a gain of 5 percent
    and a loss of 20 percent, closed at the given minutes. *)
Definition btcGain (closedAt : Z) : TradeOutcome :=
  {| to_Symbol := "BTCUSDT"; to_Side := "long"; to_PnLPct := 5;
     to_CloseTime := (closedAt * Minute)%Z |}.

Definition btcLoss (closedAt : Z) : TradeOutcome :=
  {| to_Symbol := "BTCUSDT"; to_Side := "long"; to_PnLPct := -20;
     to_CloseTime := (closedAt * Minute)%Z |}.

(** The gain closed at minute 85, then the loss closed at minute 95. *)
Definition gainThenLoss : list TradeOutcome := [btcGain 85; btcLoss 95].

(** The loss closed at minute 90, then the gain closed at minute 95: a slice
    in the order of the close times. *)
Definition lossThenGain : list TradeOutcome := [btcLoss 90; btcGain 95].

(** The loss closed at minute 95, then the gain closed at minute 90: a slice
    in the reverse order of the close times. *)
Definition lossThenEarlierGain : list TradeOutcome := [btcLoss 95; btcGain 90].

Lemma cooldown_decided_by_last_entry_witness :
  recentLossCooldown (100 * Minute)%Z gainThenLoss "BTCUSDT" "long" = true.
Proof.
  apply (proj1 cooldown_decided_by_last_entry).
  exists [btcGain 85], (btcLoss 95), [].
  split; [reflexivity|]. split; [constructor|].
  split; [split; reflexivity|]. split; [vm_compute; discriminate | reflexivity].
Defined.

(** C7 as stated fails: a loss of 15 percent or more closed less than 90
    minutes ago does not set the flag when an entry of the same symbol and
    side comes after it in the slice, because the scan stops at the last
    such entry.  This is so in whichever order of close times the slice is
    kept. *)
Lemma cooldown_ignores_earlier_entry :
  (recentLossCooldown (100 * Minute)%Z lossThenGain "BTCUSDT" "long" = false
   /\ exists t, In t lossThenGain
               /\ sameMarket "BTCUSDT" "long" t
               /\ largeRecentLoss (100 * Minute)%Z t)
  /\ (recentLossCooldown (100 * Minute)%Z lossThenEarlierGain "BTCUSDT" "long" = false
      /\ exists t, In t lossThenEarlierGain
                  /\ sameMarket "BTCUSDT" "long" t
                  /\ largeRecentLoss (100 * Minute)%Z t).
Proof.
  split; (split; [reflexivity|]);
    (eexists; split; [left; reflexivity|];
     split; [split; reflexivity|]; split; [vm_compute; discriminate | reflexivity]).
Qed.

(** ** The decision sequencer *)

(** The inner loop for one index, on the element at the index and the
    elements after it: the element kept at the index and the rest. *)
Fixpoint pass (x : Decision) (rest : list Decision) : Decision * list Decision :=
  match rest with
  | [] => (x, [])
  | y :: rest' =>
      if (priority y <? priority x)%Z
      then let '(m, r) := pass y rest' in (m, x :: r)
      else let '(m, r) := pass x rest' in (m, y :: r)
  end.

(** The first [n] rounds of the outer loop. *)
Fixpoint passes (n : nat) (l : list Decision) : list Decision :=
  match n, l with
  | S n', x :: rest => let '(m, r) := pass x rest in m :: passes n' r
  | _, _ => l
  end.

Lemma exchangeStep_middle pre x mid y rest :
  exchangeStep (length pre) (length pre + S (length mid)) (pre ++ x :: mid ++ y :: rest)
  = if (priority y <? priority x)%Z
    then pre ++ y :: mid ++ x :: rest
    else pre ++ x :: mid ++ y :: rest.
Proof.
  unfold exchangeStep.
  assert (Hi : (pre ++ x :: mid ++ y :: rest) !! length pre = Some x).
  { apply list_lookup_middle. reflexivity. }
  assert (Hj : (pre ++ x :: mid ++ y :: rest) !! (length pre + S (length mid))%nat = Some y).
  { rewrite lookup_app_r by lia.
    replace (length pre + S (length mid) - length pre)%nat with (S (length mid)) by lia.
    simpl. apply list_lookup_middle. reflexivity. }
  rewrite Hi, Hj.
  destruct (priority y <? priority x)%Z; [|reflexivity].
  rewrite insert_app_r_alt by lia.
  replace (length pre - length pre)%nat with 0%nat by lia. simpl.
  rewrite insert_app_r_alt by lia.
  replace (length pre + S (length mid) - length pre)%nat with (S (length mid)) by lia.
  simpl. rewrite insert_app_r_alt by lia.
  replace (length mid - length mid)%nat with 0%nat by lia. reflexivity.
Qed.

Lemma pass_length x rest : length (snd (pass x rest)) = length rest.
Proof.
  revert x. induction rest as [|y rest IH]; intros x; simpl; [reflexivity|].
  destruct (priority y <? priority x)%Z.
  - specialize (IH y). destruct (pass y rest). simpl in *. lia.
  - specialize (IH x). destruct (pass x rest). simpl in *. lia.
Qed.

Lemma innerLoop_pass pre x mid rest :
  foldl (fun sorted j => exchangeStep (length pre) j sorted)
    (pre ++ x :: mid ++ rest)
    (seq (length pre + S (length mid)) (length rest))
  = pre ++ fst (pass x rest) :: mid ++ snd (pass x rest).
Proof.
  revert x mid. induction rest as [|y rest IH]; intros x mid; simpl; [reflexivity|].
  rewrite exchangeStep_middle.
  destruct (priority y <? priority x)%Z.
  - specialize (IH y (mid ++ [x])).
    rewrite length_app in IH. simpl in IH.
    replace (length pre + S (length mid + 1))%nat
      with (S (length pre + S (length mid))) in IH by lia.
    rewrite <- !app_assoc in IH. simpl in IH. rewrite IH.
    destruct (pass y rest). reflexivity.
  - specialize (IH x (mid ++ [y])).
    rewrite length_app in IH. simpl in IH.
    replace (length pre + S (length mid + 1))%nat
      with (S (length pre + S (length mid))) in IH by lia.
    rewrite <- !app_assoc in IH. simpl in IH. rewrite IH.
    destruct (pass x rest). reflexivity.
Qed.

Lemma innerLoop_suffix pre x rest :
  innerLoop (length (pre ++ x :: rest)) (length pre) (pre ++ x :: rest)
  = pre ++ fst (pass x rest) :: snd (pass x rest).
Proof.
  unfold innerLoop. rewrite length_app. simpl.
  replace (length pre + S (length rest) - S (length pre))%nat with (length rest) by lia.
  pose proof (innerLoop_pass pre x [] rest) as H. simpl in H.
  replace (length pre + 1)%nat with (S (length pre)) in H by lia. exact H.
Qed.

Lemma outerLoop_passes n : forall total pre suffix,
  total = length (pre ++ suffix) ->
  (n < length suffix)%nat ->
  foldl (fun sorted i => innerLoop total i sorted) (pre ++ suffix) (seq (length pre) n)
  = pre ++ passes n suffix.
Proof.
  induction n as [|n IH]; intros total pre suffix Ht Hn; simpl; [reflexivity|].
  destruct suffix as [|x rest]; [simpl in Hn; lia|].
  subst total. rewrite innerLoop_suffix.
  pose proof (pass_length x rest) as Hl.
  destruct (pass x rest) as [m r]. simpl in *.
  pose proof (IH (length (pre ++ x :: rest)) (pre ++ [m]) r) as IH'.
  rewrite <- !app_assoc in IH'. simpl in IH'.
  replace (length (pre ++ [m])) with (S (length pre)) in IH'
    by (rewrite length_app; simpl; lia).
  apply IH'; [|lia].
  rewrite !length_app. simpl. lia.
Qed.

Lemma sortDecisionsByPriority_passes decisions :
  sortDecisionsByPriority decisions = passes (length decisions - 1) decisions.
Proof.
  unfold sortDecisionsByPriority.
  destruct (Nat.leb_spec (length decisions) 1) as [Hle|Hgt].
  - destruct decisions as [|x [|y l]]; simpl in *; try reflexivity; lia.
  - unfold outerLoop. apply (outerLoop_passes (length decisions - 1) (length decisions) [] decisions); [reflexivity|lia].
Qed.

(** The order of the priority classes. *)
Definition byPriority (a b : Decision) : Prop := (priority a <= priority b)%Z.

Lemma pass_perm x rest :
  Permutation (fst (pass x rest) :: snd (pass x rest)) (x :: rest).
Proof.
  revert x. induction rest as [|y rest IH]; intros x; simpl; [reflexivity|].
  destruct (priority y <? priority x)%Z.
  - specialize (IH y). destruct (pass y rest) as [m r]. simpl in *.
    etransitivity; [apply perm_swap|]. apply perm_skip. exact IH.
  - specialize (IH x). destruct (pass x rest) as [m r]. simpl in *.
    etransitivity; [apply perm_swap|].
    etransitivity; [apply perm_skip; exact IH|]. apply perm_swap.
Qed.

Lemma pass_min x rest :
  byPriority (fst (pass x rest)) x
  /\ Forall (byPriority (fst (pass x rest))) (snd (pass x rest)).
Proof.
  unfold byPriority.
  revert x. induction rest as [|y rest IH]; intros x; simpl.
  - split; [lia|constructor].
  - destruct (Z.ltb_spec (priority y) (priority x)).
    + specialize (IH y). destruct (pass y rest) as [m r]. simpl in *.
      destruct IH as [H1 H2]. split; [lia|]. constructor; [lia|exact H2].
    + specialize (IH x). destruct (pass x rest) as [m r]. simpl in *.
      destruct IH as [H1 H2]. split; [lia|]. constructor; [lia|exact H2].
Qed.

Lemma pass_sorted x rest :
  Forall (byPriority x) rest -> pass x rest = (x, rest).
Proof.
  unfold byPriority.
  revert x. induction rest as [|y rest IH]; intros x H; simpl; [reflexivity|].
  inversion H; subst.
  destruct (Z.ltb_spec (priority y) (priority x)); [lia|].
  rewrite IH by assumption. reflexivity.
Qed.

Lemma passes_perm n : forall l, Permutation (passes n l) l.
Proof.
  induction n as [|n IH]; intros l; simpl; [reflexivity|].
  destruct l as [|x rest]; [reflexivity|].
  pose proof (pass_perm x rest) as Hp.
  destruct (pass x rest) as [m r]. simpl in *.
  rewrite IH. exact Hp.
Qed.

Lemma passes_sorted n : forall l,
  (length l <= S n)%nat -> StronglySorted byPriority (passes n l).
Proof.
  induction n as [|n IH]; intros l Hl; simpl.
  - destruct l as [|x [|y l]]; simpl in Hl; try lia; repeat constructor.
  - destruct l as [|x rest]; [constructor|].
    pose proof (pass_min x rest) as [_ Hm].
    pose proof (pass_length x rest) as Hlen.
    destruct (pass x rest) as [m r]. simpl in *.
    constructor.
    + apply IH. lia.
    + eapply Permutation_Forall; [|exact Hm]. symmetry. apply passes_perm.
Qed.

Lemma passes_id n : forall l, StronglySorted byPriority l -> passes n l = l.
Proof.
  induction n as [|n IH]; intros l Hs; simpl; [reflexivity|].
  destruct l as [|x rest]; [reflexivity|].
  inversion Hs; subst.
  rewrite pass_sorted by assumption. rewrite IH by assumption. reflexivity.
Qed.

Ltac case_action a :=
  repeat match goal with
         | |- context [String.eqb a ?s] =>
             destruct (String.eqb_spec a s); [subst a; cbn|]
         end; cbn.

Lemma getActionPriority_classes (action : string) :
  (getActionPriority action = 1%Z <->
     action = "close_long"%string \/ action = "close_short"%string
     \/ action = "partial_close"%string)
  /\ (getActionPriority action = 2%Z <->
        action = "update_stop_loss"%string \/ action = "update_take_profit"%string)
  /\ (getActionPriority action = 3%Z <->
        action = "open_long"%string \/ action = "open_short"%string)
  /\ (getActionPriority action = 4%Z <->
        action = "hold"%string \/ action = "wait"%string)
  /\ (getActionPriority action = 999%Z <-> isValidAction action = false).
Proof.
  unfold getActionPriority, isValidAction, validActions, existsb.
  case_action action;
    repeat split; intros; try discriminate; try lia; try tauto;
    repeat match goal with H : _ \/ _ |- _ => destruct H end;
    try discriminate; try congruence; auto.
Qed.

Definition decisionOf (symbol action : string) : Decision :=
  {| Symbol := symbol; Action := action; Leverage := 0; PositionSizeUSD := 0;
     StopLoss := 0; TakeProfit := 0; NewStopLoss := 0; NewTakeProfit := 0;
     ClosePercentage := 0; Confidence := 0; RiskUSD := 0; Reasoning := EmptyString |}.

(** C6 (as amended).  For every decision list, [sortDecisionsByPriority]
    returns a permutation of the input in the order of the priority classes:
    closes and partial closes (1), then stop-loss and take-profit updates (2),
    then opens (3), then hold and wait (4), then unknown actions (999).  A
    list already in that order is returned as it is, and the actions
    open_long, close_short, hold come out as close_short, open_long, hold.
    (The relative order inside a class is not kept in general.) *)
Theorem sortDecisionsByPriority_sorts :
  (forall action,
     (getActionPriority action = 1%Z <->
        action = "close_long"%string \/ action = "close_short"%string
        \/ action = "partial_close"%string)
     /\ (getActionPriority action = 2%Z <->
           action = "update_stop_loss"%string
           \/ action = "update_take_profit"%string)
     /\ (getActionPriority action = 3%Z <->
           action = "open_long"%string \/ action = "open_short"%string)
     /\ (getActionPriority action = 4%Z <->
           action = "hold"%string \/ action = "wait"%string)
     /\ (getActionPriority action = 999%Z <-> isValidAction action = false))
  /\ (forall decisions,
     Permutation (sortDecisionsByPriority decisions) decisions
     /\ StronglySorted byPriority (sortDecisionsByPriority decisions))
  /\ (forall decisions,
        StronglySorted byPriority decisions ->
        sortDecisionsByPriority decisions = decisions)
  /\ (forall a b c,
        Action a = "open_long"%string -> Action b = "close_short"%string ->
        Action c = "hold"%string ->
        sortDecisionsByPriority [a; b; c] = [b; a; c]).
Proof.
  split; [exact getActionPriority_classes|].
  split; [|split].
  - intros decisions. rewrite sortDecisionsByPriority_passes. split.
    + apply passes_perm.
    + apply passes_sorted. lia.
  - intros decisions H. rewrite sortDecisionsByPriority_passes. apply passes_id, H.
  - intros a b c Ha Hb Hc. rewrite sortDecisionsByPriority_passes. simpl.
    unfold priority. rewrite Ha, Hb, Hc.
    change (getActionPriority "open_long") with 3%Z.
    change (getActionPriority "close_short") with 1%Z.
    change (getActionPriority "hold") with 4%Z.
    cbn. unfold priority. rewrite Ha, Hc.
    change (getActionPriority "open_long") with 3%Z.
    change (getActionPriority "hold") with 4%Z.
    reflexivity.
Qed.

Lemma sortDecisionsByPriority_sorts_witness :
  sortDecisionsByPriority
    [ decisionOf "BTCUSDT" "open_long"; decisionOf "ETHUSDT" "close_short";
      decisionOf "SOLUSDT" "hold" ]
  = [ decisionOf "ETHUSDT" "close_short"; decisionOf "BTCUSDT" "open_long";
      decisionOf "SOLUSDT" "hold" ].
Proof.
  apply (proj2 (proj2 (proj2 sortDecisionsByPriority_sorts))); reflexivity.
Defined.

(** Stability: the decisions of each class come out in their input order. *)
Definition sameClass (c : Z) (d : Decision) : bool := (priority d =? c)%Z.
Definition keepsClassOrder (input output : list Decision) : Prop :=
  forall c, List.filter (sameClass c) output = List.filter (sameClass c) input.

Definition swapInput : list Decision :=
  [ decisionOf "BTCUSDT" "open_long"; decisionOf "ETHUSDT" "open_short";
    decisionOf "SOLUSDT" "close_long" ].

(** C6 as stated fails on stability: the exchange of two elements that are
    not adjacent can carry a decision over another one of its class.  With
    two opens followed by a close, the first round exchanges the first open
    with the close, and the opens come out reversed. *)
Lemma sortDecisionsByPriority_not_stable :
  List.map Symbol (sortDecisionsByPriority swapInput)
    = ["SOLUSDT"; "ETHUSDT"; "BTCUSDT"]%string
  /\ ~ keepsClassOrder swapInput (sortDecisionsByPriority swapInput).
Proof.
  split; [reflexivity|].
  intros H. specialize (H 3%Z). vm_compute in H. discriminate H.
Qed.

(** ** The response parser *)

(** JSON text written with apostrophes in place of double quotes. *)
Definition jsonText (s : string) : string :=
  strings.mapBytes (fun c => if Ascii.eqb c "'" then ascii_of_nat 34 else c) s.

Definition newlineString : string := String (ascii_of_nat 10) EmptyString.

Definition holdObject : string :=
  jsonText "{'decisions':[{'symbol':'BTCUSDT','action':'hold','reasoning':'x'}]}".

Definition fencedJSON : string :=
  ("```json" ++ newlineString ++ holdObject ++ newlineString ++ "```")%string.

Definition fencedPlain : string :=
  ("```" ++ newlineString ++ holdObject ++ newlineString ++ "```")%string.

(** The fence without line breaks, between two lines of prose. *)
Definition fencedInProse : string :=
  ("Here is my decision:" ++ newlineString ++ "```json" ++ holdObject ++ "```"
   ++ newlineString ++ "Done.")%string.

Definition holdDecision : Decision :=
  {| Symbol := "BTCUSDT"; Action := "hold"; Leverage := 0; PositionSizeUSD := 0;
     StopLoss := 0; TakeProfit := 0; NewStopLoss := 0; NewTakeProfit := 0;
     ClosePercentage := 0; Confidence := 0; RiskUSD := 0; Reasoning := "x" |}.

Lemma extract_fencedJSON : extractDecisionsStrict fencedJSON = Ok [holdDecision].
Proof. vm_compute. reflexivity. Qed.

Lemma extract_fencedPlain : extractDecisionsStrict fencedPlain = Ok [holdDecision].
Proof. vm_compute. reflexivity. Qed.

Lemma extract_fencedInProse :
  extractDecisionsStrict fencedInProse = Ok [holdDecision].
Proof. vm_compute. reflexivity. Qed.

Lemma validate_hold eq b a ctx : validateDecisions [holdDecision] eq b a ctx = None.
Proof. reflexivity. Qed.

(** C5.  Parsing a response that wraps the object
    {decisions: [{symbol: BTCUSDT, action: hold, reasoning: x}]} in a fenced
    code block succeeds and yields exactly one decision, whose action is
    hold: for the fence marked json (the sanitizer takes the text inside the
    fence), for the bare fence (the object is found by its decisions key),
    for a fence between lines of prose, and through
    [parseFullDecisionResponse], whose validation accepts it. *)
Theorem fenced_hold_parses :
  sanitizeModelResponse fencedJSON = holdObject
  /\ extractDecisionsStrict fencedJSON = Ok [holdDecision]
  /\ extractDecisionsStrict fencedPlain = Ok [holdDecision]
  /\ extractDecisionsStrict fencedInProse = Ok [holdDecision]
  /\ Action holdDecision = "hold"%string
  /\ (forall extractCoTTrace ctx,
        snd (parseFullDecisionResponse extractCoTTrace fencedJSON ctx) = None
        /\ Decisions (fst (parseFullDecisionResponse extractCoTTrace fencedJSON ctx))
           = [holdDecision]).
Proof.
  split; [vm_compute; reflexivity|].
  split; [exact extract_fencedJSON|]. split; [exact extract_fencedPlain|].
  split; [exact extract_fencedInProse|]. split; [reflexivity|].
  intros extractCoTTrace ctx. unfold parseFullDecisionResponse.
  rewrite extract_fencedJSON. rewrite validate_hold. split; reflexivity.
Qed.

(** ** Fail-closed validation *)


Lemma validateDecisionsFrom_passes decisions : forall i eq b a ctx,
  validateDecisionsFrom i decisions eq b a ctx = None <->
  Forall (fun d => validateDecision d eq b a ctx = None) decisions.
Proof.
  induction decisions as [|x rest IH]; intros i eq b a ctx; simpl.
  - split; [constructor|reflexivity].
  - destruct (validateDecision x eq b a ctx) as [ex|] eqn:Hx.
    + split; [discriminate|]. intros H. inversion H; subst. congruence.
    + rewrite IH. split; [intros; constructor; assumption|].
      intros H. inversion H; subst. assumption.
Qed.

Section CycleProperties.
Variable Exp : Q -> Q.
Variable extractCoTTrace : string -> string.
Variable buildSystemPrompt : Context -> string.
Variable buildUserPrompt : Context -> string.




End CycleProperties.

(** A response with a decision of unknown action after a valid one. *)
Definition buyObject : string :=
  jsonText "{'decisions':[{'symbol':'BTCUSDT','action':'hold','reasoning':'x'},{'symbol':'ETHUSDT','action':'buy','reasoning':'y'}]}".

Definition buyResponse : string :=
  ("```json" ++ newlineString ++ buyObject ++ newlineString ++ "```")%string.


(** A cycle one hour into the example session: no position, an equity of
    1000, and that response. *)
Definition exampleEnv : CycleEnv :=
  {| env_now := Hour; env_syncedBalance := None;
     env_balance := Ok {| totalWalletBalance := Some 1000;
                          totalUnrealizedProfit := Some 0;
                          availableBalance := Some 1000 |};
     env_positions := Ok []; env_candidateCoins := Ok ["BTCUSDT"%string];
     env_performance := None; env_recentPerf := None; env_recentLogs := [];
     env_marketData := ∅; env_aiAnswer := Ok buyResponse;
     env_execute := fun _ => None |}.



(** ** Sessions: what the cycle and the monitor leave to each other *)

(** The tracking step only ever raises the peak. *)
Lemma updateRiskTracking_peak currentEquity tr :
  equityPeak tr <= equityPeak (updateRiskTracking currentEquity tr).
Proof.
  unfold updateRiskTracking.
  destruct (dayStartEquity tr <=? 0); simpl;
  match goal with |- context [if ?a >? ?b then _ else _] =>
    destruct (Qgtb_spec a b) end;
  simpl in *; lra.
Qed.

Lemma CheckAndApplyRiskPause_peak now currentEquity tr :
  equityPeak (fst (CheckAndApplyRiskPause now currentEquity tr))
  = equityPeak (updateRiskTracking currentEquity tr).
Proof.
  unfold CheckAndApplyRiskPause.
  destruct (dailyLossBreached _); simpl;
  destruct (drawdownBreached _ _); reflexivity.
Qed.

Lemma CheckAndApplyRiskPause_peak_le now currentEquity tr :
  equityPeak tr <= equityPeak (fst (CheckAndApplyRiskPause now currentEquity tr)).
Proof. rewrite CheckAndApplyRiskPause_peak. apply updateRiskTracking_peak. Qed.

Lemma equityPeaks_sorted observations : forall tr,
  Forall (fun peak => equityPeak tr <= peak) (equityPeaks observations tr)
  /\ StronglySorted Qle (equityPeak tr :: equityPeaks observations tr).
Proof.
  induction observations as [|[now eq] rest IH]; intros tr; simpl.
  - split; [constructor|]. constructor; constructor.
  - destruct (IH (fst (CheckAndApplyRiskPause now eq tr))) as [IH1 IH2].
    pose proof (CheckAndApplyRiskPause_peak_le now eq tr) as H0.
    assert (HF : Forall (fun peak => equityPeak tr <= peak)
             (equityPeak (fst (CheckAndApplyRiskPause now eq tr))
              :: equityPeaks rest (fst (CheckAndApplyRiskPause now eq tr)))).
    { constructor; [exact H0|].
      eapply List.Forall_impl; [|exact IH1]. simpl. intros; lra. }
    split; [exact HF|]. constructor; assumption.
Qed.

Lemma riskChecks_peak_le observations : forall tr,
  equityPeak tr <= equityPeak (riskChecks observations tr).
Proof.
  induction observations as [|[now eq] rest IH]; intros tr; simpl; [lra|].
  pose proof (CheckAndApplyRiskPause_peak_le now eq tr).
  pose proof (IH (fst (CheckAndApplyRiskPause now eq tr))). lra.
Qed.

Lemma positionSnapshots_equityPeak now positions : forall tr,
  equityPeak (positionSnapshots now positions tr).2 = equityPeak tr.
Proof.
  induction positions as [|p rest IH]; intros tr; simpl; [reflexivity|].
  unfold positionSnapshot. cbv zeta.
  destruct (Qeq_bool _ 0); [apply IH|].
  match goal with |- context [positionSnapshots now rest ?t] =>
    specialize (IH t); destruct (positionSnapshots now rest t) as [[infos keys] tr2] end.
  simpl in *. rewrite IH.
  destruct (positionFirstSeenTime tr !! _); reflexivity.
Qed.

Lemma buildTradingContext_equityPeak env tr :
  equityPeak (fst (buildTradingContext env tr)) = equityPeak tr.
Proof.
  unfold buildTradingContext.
  destruct (env_balance env); [|reflexivity].
  destruct (env_positions env) as [positions|]; [|reflexivity].
  pose proof (positionSnapshots_equityPeak (env_now env) positions tr) as H.
  destruct (positionSnapshots (env_now env) positions tr) as [[infos keys] tr1].
  simpl in H. cbv zeta.
  destruct (env_candidateCoins env); cbn [fst]; exact H.
Qed.

Lemma checkPosition_equityPeak trader p tr :
  equityPeak (fst (checkPosition trader p tr)) = equityPeak tr.
Proof.
  unfold checkPosition, UpdatePeakPnL, ClearPeakPnLCache. cbv zeta.
  destruct (peakPnLCache tr !! _);
  repeat match goal with
         | |- context [if ?b then _ else _] => destruct b; cbn
         | |- context [emergencyClosePosition ?t ?s ?d] =>
             destruct (emergencyClosePosition t s d) as [? [?|]]; cbn
         end; reflexivity.
Qed.

Lemma checkPositionDrawdown_equityPeak trader tr :
  equityPeak (fst (checkPositionDrawdown trader tr)) = equityPeak tr.
Proof.
  unfold checkPositionDrawdown. destruct (GetPositions trader) as [positions|]; [|reflexivity].
  revert tr. induction positions as [|p rest IH]; intros tr; simpl; [reflexivity|].
  pose proof (checkPosition_equityPeak trader p tr) as H.
  destruct (checkPosition trader p tr) as [tr1 calls]. simpl in H.
  specialize (IH tr1). destruct (checkPositions trader rest tr1). simpl in *. congruence.
Qed.


Section CycleFrame.

Variable Exp : Q -> Q.
Variable extractCoTTrace : string -> string.
Variable buildSystemPrompt : Context -> string.
Variable buildUserPrompt : Context -> string.

Lemma runCycle_equityPeak env tr :
  equityPeak tr
  <= equityPeak (fst (runCycle Exp extractCoTTrace buildSystemPrompt buildUserPrompt env tr)).
Proof.
  unfold runCycle. cbv zeta.
  destruct (env_now env <? _)%Z; [cbn; lra|].
  match goal with |- context [buildTradingContext env ?t] =>
    pose proof (buildTradingContext_equityPeak env t) as Hb;
    assert (Ht : equityPeak t = equityPeak tr)
      by (unfold dailyReset, autoSyncBalanceIfNeeded;
          destruct (dailyResetDue _ _), (env_syncedBalance env); reflexivity);
    destruct (buildTradingContext env t) as [tr1 [ctx|err]] end;
    cbn [fst] in *.
  - pose proof (CheckAndApplyRiskPause_peak_le (env_now env)
                  (TotalEquity (ctx_Account ctx)) tr1) as Hc.
    destruct (CheckAndApplyRiskPause _ _ tr1) as [tr2 [|]]; cbn [fst] in *;
      rewrite <- Ht, <- Hb; exact Hc.
  - rewrite Hb, Ht. lra.
Qed.

(** The state of the drawdown monitor: a decision cycle leaves it as it
    is. *)
Definition monitorState (tr : AutoTrader) : gmap string Q * gmap string Z * Z :=
  (peakPnLCache tr, drawdownBreachCount tr, drawdownBreachWindow tr).

Lemma positionSnapshots_monitorState now positions : forall tr,
  monitorState (positionSnapshots now positions tr).2 = monitorState tr.
Proof.
  induction positions as [|p rest IH]; intros tr; simpl; [reflexivity|].
  unfold positionSnapshot. cbv zeta.
  destruct (Qeq_bool _ 0); [apply IH|].
  match goal with |- context [positionSnapshots now rest ?t] =>
    specialize (IH t); destruct (positionSnapshots now rest t) as [[infos keys] tr2] end.
  simpl in *. rewrite IH.
  destruct (positionFirstSeenTime tr !! _); reflexivity.
Qed.

Lemma buildTradingContext_monitorState env tr :
  monitorState (fst (buildTradingContext env tr)) = monitorState tr.
Proof.
  unfold buildTradingContext.
  destruct (env_balance env); [|reflexivity].
  destruct (env_positions env) as [positions|]; [|reflexivity].
  pose proof (positionSnapshots_monitorState (env_now env) positions tr) as H.
  destruct (positionSnapshots (env_now env) positions tr) as [[infos keys] tr1].
  simpl in H. cbv zeta.
  destruct (env_candidateCoins env); cbn [fst]; exact H.
Qed.

Lemma CheckAndApplyRiskPause_monitorState now eq tr :
  monitorState (fst (CheckAndApplyRiskPause now eq tr)) = monitorState tr.
Proof.
  unfold CheckAndApplyRiskPause, updateRiskTracking.
  repeat match goal with
         | |- context [if ?b then _ else _] => destruct b; cbn
         end; reflexivity.
Qed.

Lemma runCycle_monitorState env tr :
  monitorState (fst (runCycle Exp extractCoTTrace buildSystemPrompt buildUserPrompt env tr))
  = monitorState tr.
Proof.
  unfold runCycle. cbv zeta.
  destruct (env_now env <? _)%Z; [reflexivity|].
  match goal with |- context [buildTradingContext env ?t] =>
    pose proof (buildTradingContext_monitorState env t) as Hb;
    destruct (buildTradingContext env t) as [tr1 [ctx|err]] end;
    cbn [fst] in *.
  - pose proof (CheckAndApplyRiskPause_monitorState (env_now env)
                  (TotalEquity (ctx_Account ctx)) tr1) as Hc.
    destruct (CheckAndApplyRiskPause _ _ tr1) as [tr2 [|]]; cbn [fst] in *;
      rewrite Hc, Hb; unfold dailyReset, autoSyncBalanceIfNeeded;
      destruct (dailyResetDue _ _), (env_syncedBalance env); reflexivity.
  - rewrite Hb. unfold dailyReset, autoSyncBalanceIfNeeded;
      destruct (dailyResetDue _ _), (env_syncedBalance env); reflexivity.
Qed.

End CycleFrame.

(** C10.  Within a session the equity peak is monotonically non-decreasing:
    after each invocation of [CheckAndApplyRiskPause], with any equity, it is
    at least its value before; along any sequence of invocations the peaks
    form a non-decreasing sequence that starts at the initial peak; a whole
    decision cycle does not lower it and a monitor check does not change
    it. *)
Theorem equityPeak_monotone :
  (forall now currentEquity tr,
     equityPeak tr <= equityPeak (fst (CheckAndApplyRiskPause now currentEquity tr)))
  /\ (forall observations tr,
        StronglySorted Qle (equityPeak tr :: equityPeaks observations tr)
        /\ equityPeak tr <= equityPeak (riskChecks observations tr))
  /\ (forall Exp extractCoTTrace buildSystemPrompt buildUserPrompt env tr,
        equityPeak tr
        <= equityPeak (fst (runCycle Exp extractCoTTrace buildSystemPrompt
                              buildUserPrompt env tr)))
  /\ (forall trader tr,
        equityPeak (fst (checkPositionDrawdown trader tr)) = equityPeak tr).
Proof.
  split; [exact CheckAndApplyRiskPause_peak_le|].
  split; [intros; split; [apply equityPeaks_sorted | apply riskChecks_peak_le]|].
  split; [intros; apply runCycle_equityPeak|].
  exact checkPositionDrawdown_equityPeak.
Qed.

(** * Further properties *)

(** ** The decision validator: what an accepted opening decision satisfies *)

(** The stops of an accepted opening decision are positive and on the right
    sides of each other. *)
Definition stopsOrdered (d : Decision) : Prop :=
  0 < StopLoss d /\ 0 < TakeProfit d
  /\ (Action d = "open_long"%string -> StopLoss d < TakeProfit d)
  /\ (Action d <> "open_long"%string -> TakeProfit d < StopLoss d).

Definition leverageCap (d : Decision) (btcEthLeverage altcoinLeverage : Z) : Z :=
  if isBTCETH (Symbol d) then btcEthLeverage else altcoinLeverage.

Definition sizeFloor (d : Decision) : Q := if isBTCETH (Symbol d) then 60 else 12.

Lemma validateOpen_sound d eq b a ctx :
  validateOpen d eq b a ctx = None ->
  (0 < Leverage d <= leverageCap d b a)%Z
  /\ sizeFloor d <= PositionSizeUSD d
  /\ stopsOrdered d.
Proof.
  unfold validateOpen, leverageCap, sizeFloor, stopsOrdered. cbv zeta.
  destruct (Z.leb_spec (Leverage d) 0) as [?|Hl0]; [discriminate|].
  destruct (Z.ltb_spec (if isBTCETH (Symbol d) then b else a) (Leverage d)) as [?|Hl1];
    [discriminate|]. cbn [orb].
  destruct (Qleb_spec (PositionSizeUSD d) 0) as [?|Hs0]; [discriminate|].
  destruct (isBTCETH (Symbol d)) eqn:Hb; cbn [andb negb].
  - destruct (Qltb_spec (PositionSizeUSD d) 60.0) as [?|Hs1]; [discriminate|].
    destruct (PositionSizeUSD d >? _); [discriminate|].
    destruct (Qleb_spec (StopLoss d) 0) as [?|Hsl]; [discriminate|].
    destruct (Qleb_spec (TakeProfit d) 0) as [?|Htp]; [discriminate|]. cbn [orb].
    destruct (String.eqb_spec (Action d) "open_long") as [Ha|Ha]; cbn [andb negb].
    + destruct (Qgeb_spec (StopLoss d) (TakeProfit d)) as [?|Ho]; [discriminate|].
      intros _. split; [lia|]. split; [lra|].
      split; [lra|]. split; [lra|]. split; [intros; lra|intros; tauto].
    + destruct (Qleb_spec (StopLoss d) (TakeProfit d)) as [?|Ho]; [discriminate|].
      intros _. split; [lia|]. split; [lra|].
      split; [lra|]. split; [lra|]. split; [intros; tauto|intros; lra].
  - destruct (Qltb_spec (PositionSizeUSD d) 12.0) as [?|Hs1]; [discriminate|].
    destruct (PositionSizeUSD d >? _); [discriminate|].
    destruct (Qleb_spec (StopLoss d) 0) as [?|Hsl]; [discriminate|].
    destruct (Qleb_spec (TakeProfit d) 0) as [?|Htp]; [discriminate|]. cbn [orb].
    destruct (String.eqb_spec (Action d) "open_long") as [Ha|Ha]; cbn [andb negb].
    + destruct (Qgeb_spec (StopLoss d) (TakeProfit d)) as [?|Ho]; [discriminate|].
      intros _. split; [lia|]. split; [lra|].
      split; [lra|]. split; [lra|]. split; [intros; lra|intros; tauto].
    + destruct (Qleb_spec (StopLoss d) (TakeProfit d)) as [?|Ho]; [discriminate|].
      intros _. split; [lia|]. split; [lra|].
      split; [lra|]. split; [lra|]. split; [intros; tauto|intros; lra].
Qed.

Lemma validateDecision_open d eq b a ctx :
  isOpenAction (Action d) = true ->
  validateDecision d eq b a ctx = validateOpen d eq b a ctx.
Proof.
  unfold validateDecision, isOpenAction, isValidAction, validActions. intros H.
  destruct (String.eqb_spec (Action d) "open_long") as [E|_];
    [|destruct (String.eqb_spec (Action d) "open_short") as [E|_]; [|discriminate H]];
    rewrite E; cbn; destruct (validateOpen d eq b a ctx); reflexivity.
Qed.

(** An opening decision on BTCUSDT: 100 USDT at leverage 5, stop 95 and
    target 120. *)
Definition openBTC : Decision :=
  {| Symbol := "BTCUSDT"; Action := "open_long"; Leverage := 5;
     PositionSizeUSD := 100; StopLoss := 95; TakeProfit := 120; NewStopLoss := 0;
     NewTakeProfit := 0; ClosePercentage := 0; Confidence := 80; RiskUSD := 0;
     Reasoning := EmptyString |}.

(** X1.  An opening decision that [validateDecision] accepts has a leverage
    between 1 and the configured cap of its symbol class, a size of at least
    the floor of the class (60 for BTCUSDT and ETHUSDT, 12 otherwise),
    positive stops, and the stop below the target for a long, above it for a
    short; this holds with and without market data. *)
Theorem validateDecision_open_bounds :
  forall d accountEquity btcEthLeverage altcoinLeverage ctx,
    isOpenAction (Action d) = true ->
    validateDecision d accountEquity btcEthLeverage altcoinLeverage ctx = None ->
    (0 < Leverage d <= leverageCap d btcEthLeverage altcoinLeverage)%Z
    /\ sizeFloor d <= PositionSizeUSD d
    /\ stopsOrdered d.
Proof.
  intros d eq b a ctx Ho H. rewrite validateDecision_open in H by exact Ho.
  exact (validateOpen_sound _ _ _ _ _ H).
Qed.

Lemma validateDecision_open_bounds_witness :
  (0 < Leverage openBTC <= leverageCap openBTC 10 5)%Z
  /\ sizeFloor openBTC <= PositionSizeUSD openBTC
  /\ stopsOrdered openBTC.
Proof.
  apply (validateDecision_open_bounds openBTC 1000 10%Z 5%Z None); reflexivity.
Defined.

Lemma validateDecisionsFrom_first decisions : forall i pre d post e eq b a ctx,
  decisions = pre ++ d :: post ->
  Forall (fun x => validateDecision x eq b a ctx = None) pre ->
  validateDecision d eq b a ctx = Some e ->
  validateDecisionsFrom i decisions eq b a ctx
  = Some (ErrDecisionFailed (i + Z.of_nat (length pre) + 1)%Z e).
Proof.
  intros i pre. revert i decisions.
  induction pre as [|x pre IH]; intros i decisions d post e eq b a ctx -> Hpre Hd.
  - cbn. rewrite Hd. do 3 f_equal. lia.
  - inversion Hpre as [|? ? Hx Hrest]; subst. cbn [app validateDecisionsFrom].
    rewrite Hx. erewrite IH by eauto. do 3 f_equal. cbn [length]. lia.
Qed.

(** X2.  [validateDecisions] stops at the first decision that fails: when
    the decisions before it are valid, the batch is rejected with the error of
    that decision and its position counted from 1, whatever follows it. *)
Theorem validateDecisions_reports_first_failure :
  forall pre d post e accountEquity btcEthLeverage altcoinLeverage ctx,
    Forall (fun x => validateDecision x accountEquity btcEthLeverage altcoinLeverage ctx
                     = None) pre ->
    validateDecision d accountEquity btcEthLeverage altcoinLeverage ctx = Some e ->
    validateDecisions (pre ++ d :: post) accountEquity btcEthLeverage altcoinLeverage ctx
    = Some (ErrDecisionFailed (Z.of_nat (length pre) + 1)%Z e).
Proof.
  intros pre d post e eq b a ctx Hpre Hd. unfold validateDecisions.
  erewrite validateDecisionsFrom_first by eauto. reflexivity.
Qed.

(** A decision of which only the action matters. *)
Definition actionOnly (action : string) : Decision :=
  {| Symbol := "SOLUSDT"; Action := action; Leverage := 0; PositionSizeUSD := 0;
     StopLoss := 0; TakeProfit := 0; NewStopLoss := 0; NewTakeProfit := 0;
     ClosePercentage := 0; Confidence := 0; RiskUSD := 0; Reasoning := EmptyString |}.

Lemma validateDecisions_reports_first_failure_witness :
  validateDecisions [actionOnly "hold"; actionOnly "buy"; actionOnly "sell"] 1000 10 5 None
  = Some (ErrDecisionFailed 2 (ErrInvalidAction "buy")).
Proof.
  apply (validateDecisions_reports_first_failure [actionOnly "hold"] (actionOnly "buy")
           [actionOnly "sell"] (ErrInvalidAction "buy") 1000 10%Z 5%Z None).
  - repeat constructor.
  - reflexivity.
Defined.

(** ** The pause and the cycles of a session *)

Lemma CheckAndApplyRiskPause_deadline now currentEquity tr :
  snd (CheckAndApplyRiskPause now currentEquity tr) = true ->
  stopUntil (fst (CheckAndApplyRiskPause now currentEquity tr))
  = (now + StopTradingTime (config tr))%Z.
Proof.
  unfold CheckAndApplyRiskPause.
  pose proof (updateRiskTracking_config currentEquity tr) as Hc.
  set (tr1 := updateRiskTracking currentEquity tr) in *.
  destruct (dailyLossBreached tr1); cbn [fst snd].
  - destruct (drawdownBreached currentEquity _); cbn; rewrite Hc; reflexivity.
  - destruct (drawdownBreached currentEquity tr1); cbn; [rewrite Hc; reflexivity|].
    discriminate.
Qed.

Lemma CheckAndApplyRiskPause_dayStartEquity now currentEquity tr :
  0 < dayStartEquity tr ->
  dayStartEquity (fst (CheckAndApplyRiskPause now currentEquity tr)) = dayStartEquity tr.
Proof.
  intros H. unfold CheckAndApplyRiskPause, updateRiskTracking.
  destruct (Qleb_spec (dayStartEquity tr) 0) as [?|_]; [lra|].
  repeat match goal with
         | |- context [if ?b then _ else _] => destruct b; cbn
         end; reflexivity.
Qed.

Lemma positionSnapshots_dayStartEquity now positions : forall tr,
  dayStartEquity (positionSnapshots now positions tr).2 = dayStartEquity tr.
Proof.
  induction positions as [|p rest IH]; intros tr; simpl; [reflexivity|].
  unfold positionSnapshot. cbv zeta.
  destruct (Qeq_bool _ 0); [apply IH|].
  match goal with |- context [positionSnapshots now rest ?t] =>
    specialize (IH t); destruct (positionSnapshots now rest t) as [[infos keys] tr2] end.
  simpl in *. rewrite IH.
  destruct (positionFirstSeenTime tr !! _); reflexivity.
Qed.

Lemma buildTradingContext_dayStartEquity env tr :
  dayStartEquity (fst (buildTradingContext env tr)) = dayStartEquity tr.
Proof.
  unfold buildTradingContext.
  destruct (env_balance env); [|reflexivity].
  destruct (env_positions env) as [positions|]; [|reflexivity].
  pose proof (positionSnapshots_dayStartEquity (env_now env) positions tr) as H.
  destruct (positionSnapshots (env_now env) positions tr) as [[infos keys] tr1].
  simpl in H. cbv zeta.
  destruct (env_candidateCoins env); cbn [fst]; exact H.
Qed.

Section CycleSessions.

Variable Exp : Q -> Q.
Variable extractCoTTrace : string -> string.
Variable buildSystemPrompt : Context -> string.
Variable buildUserPrompt : Context -> string.

Local Abbreviation cycle :=
  (runCycle Exp extractCoTTrace buildSystemPrompt buildUserPrompt).

(** The cycles of a session, one environment per cycle: the state after
    the last of them. *)
Fixpoint runCycles (envs : list CycleEnv) (tr : AutoTrader) : AutoTrader :=
  match envs with
  | [] => tr
  | env :: rest => runCycles rest (fst (cycle env tr))
  end.

Lemma runCycle_paused env tr :
  (env_now env < stopUntil tr)%Z ->
  cycle env tr
  = (set_callCount (callCount tr + 1)%Z tr,
     {| logged := failRecord (MsgPaused (stopUntil tr - env_now env)%Z) newRecord;
        executed := []; returned := None |}).
Proof.
  intros H. unfold runCycle. cbv zeta. cbn [stopUntil set_callCount].
  destruct (Z.ltb_spec (env_now env) (stopUntil tr)); [reflexivity|lia].
Qed.

Lemma runCycle_dayStartEquity env tr :
  0 < dayStartEquity tr -> dayStartEquity (fst (cycle env tr)) = dayStartEquity tr.
Proof.
  intros H. unfold runCycle. cbv zeta.
  destruct (env_now env <? _)%Z; [reflexivity|].
  match goal with |- context [buildTradingContext env ?t] =>
    pose proof (buildTradingContext_dayStartEquity env t) as Hb;
    assert (Ht : dayStartEquity t = dayStartEquity tr)
      by (unfold dailyReset, autoSyncBalanceIfNeeded;
          destruct (dailyResetDue _ _), (env_syncedBalance env); reflexivity);
    destruct (buildTradingContext env t) as [tr1 [ctx|err]] end;
    cbn [fst] in *; [|congruence].
  pose proof (CheckAndApplyRiskPause_dayStartEquity (env_now env)
                (TotalEquity (ctx_Account ctx)) tr1) as Hc.
  rewrite Hb, Ht in Hc. specialize (Hc H).
  destruct (CheckAndApplyRiskPause _ _ tr1) as [tr2 [|]]; cbn [fst] in *; exact Hc.
Qed.

Lemma runCycles_dayStartEquity envs : forall tr,
  0 < dayStartEquity tr -> dayStartEquity (runCycles envs tr) = dayStartEquity tr.
Proof.
  induction envs as [|env rest IH]; intros tr H; [reflexivity|].
  cbn [runCycles]. rewrite IH; rewrite runCycle_dayStartEquity; auto.
Qed.


(** X4.  After [CheckAndApplyRiskPause] has reported a pause at some time,
    every cycle that starts less than the configured pause duration later is
    skipped: it executes nothing and changes nothing of the state but the
    call counter, so the pause deadline, the day-start equity and the equity
    peak stay as they are. *)
Theorem risk_pause_skips_cycles :
  forall now currentEquity tr env,
    snd (CheckAndApplyRiskPause now currentEquity tr) = true ->
    (env_now env < now + StopTradingTime (config tr))%Z ->
    let paused := fst (CheckAndApplyRiskPause now currentEquity tr) in
    executed (snd (cycle env paused)) = []
    /\ returned (snd (cycle env paused)) = None
    /\ fst (cycle env paused) = set_callCount (callCount paused + 1)%Z paused.
Proof.
  intros now currentEquity tr env Hp Ht paused.
  pose proof (CheckAndApplyRiskPause_deadline now currentEquity tr Hp) as Hd.
  fold paused in Hd.
  rewrite runCycle_paused by (rewrite Hd; exact Ht).
  repeat split.
Qed.

(** X5.  The day-start equity of a session is the configured initial
    balance for as long as the session runs: [NewAutoTrader] sets it, and no
    cycle changes it, not even the cycle that resets the daily profit and loss
    after 24 hours.  So the daily loss is always measured from the initial
    balance. *)
Theorem dayStartEquity_is_initial_balance :
  forall cfg start tr envs,
    NewAutoTrader cfg start = Ok tr ->
    dayStartEquity (runCycles envs tr) = InitialBalance cfg.
Proof.
  intros cfg start tr envs H. unfold NewAutoTrader in H.
  destruct (Qleb_spec (InitialBalance cfg) 0) as [?|Hpos]; [discriminate|].
  injection H as <-. rewrite runCycles_dayStartEquity; [reflexivity|].
  cbn. lra.
Qed.

End CycleSessions.



(** The example session loses 6 percent at minute 30 and is paused for an
    hour; the cycle at minute 60 is skipped. *)
Lemma risk_pause_skips_cycles_witness :
  executed (snd (runCycle (fun _ => 1) (fun s => s) (fun _ => EmptyString)
                   (fun _ => EmptyString) exampleEnv
                   (fst (CheckAndApplyRiskPause (30 * Minute)%Z 940 exampleTrader)))) = []
  /\ returned (snd (runCycle (fun _ => 1) (fun s => s) (fun _ => EmptyString)
                      (fun _ => EmptyString) exampleEnv
                      (fst (CheckAndApplyRiskPause (30 * Minute)%Z 940 exampleTrader))))
     = None
  /\ fst (runCycle (fun _ => 1) (fun s => s) (fun _ => EmptyString)
            (fun _ => EmptyString) exampleEnv
            (fst (CheckAndApplyRiskPause (30 * Minute)%Z 940 exampleTrader)))
     = set_callCount
         (callCount (fst (CheckAndApplyRiskPause (30 * Minute)%Z 940 exampleTrader)) + 1)%Z
         (fst (CheckAndApplyRiskPause (30 * Minute)%Z 940 exampleTrader)).
Proof.
  apply (risk_pause_skips_cycles (fun _ => 1) (fun s => s) (fun _ => EmptyString)
           (fun _ => EmptyString) (30 * Minute)%Z 940 exampleTrader exampleEnv).
  - vm_compute. reflexivity.
  - reflexivity.
Defined.

(** Two cycles of the example session, the second one 25 hours later. *)
Lemma dayStartEquity_is_initial_balance_witness :
  dayStartEquity
    (runCycles (fun _ => 1) (fun s => s) (fun _ => EmptyString) (fun _ => EmptyString)
       [exampleEnv;
        {| env_now := (26 * Hour)%Z; env_syncedBalance := Some 900;
           env_balance := env_balance exampleEnv;
           env_positions := env_positions exampleEnv;
           env_candidateCoins := env_candidateCoins exampleEnv;
           env_performance := None; env_recentPerf := None; env_recentLogs := [];
           env_marketData := ∅; env_aiAnswer := env_aiAnswer exampleEnv;
           env_execute := fun _ => None |}]
       exampleTrader)
  = InitialBalance exampleConfig.
Proof.
  apply (dayStartEquity_is_initial_balance (fun _ => 1) (fun s => s)
           (fun _ => EmptyString) (fun _ => EmptyString) exampleConfig 0%Z).
  reflexivity.
Defined.

(** ** The adjuster and the execution loop *)

(** A decision without its size. *)
Definition sizeErased (d : Decision) : Decision := set_PositionSizeUSD 0 d.

Section AdjusterProperties.
Variable Exp : Q -> Q.

Lemma adjustDecision_frame now available marginError winRate profitFactor trades d :
  sizeErased (adjustDecision Exp now available marginError winRate profitFactor trades d).1
  = sizeErased d
  /\ (isOpenAction (Action d) = false ->
      (adjustDecision Exp now available marginError winRate profitFactor trades d).1 = d).
Proof.
  unfold adjustDecision, isOpenAction.
  destruct (String.eqb (Action d) "open_long"), (String.eqb (Action d) "open_short");
    cbn [negb andb orb]; cbv zeta;
    try (match goal with |- context [if ?c then (_, _) else (_, _)] => destruct c end);
    cbn [fst]; split; try reflexivity; discriminate.
Qed.

Lemma adjustEach_frame now available marginError winRate profitFactor trades decisions :
  map sizeErased
    (adjustEach Exp now available marginError winRate profitFactor trades decisions).1
  = map sizeErased decisions
  /\ Forall2 (fun d d' => isOpenAction (Action d) = false -> d' = d) decisions
       (adjustEach Exp now available marginError winRate profitFactor trades decisions).1.
Proof.
  induction decisions as [|d rest [IH1 IH2]]; [split; [reflexivity|constructor]|].
  cbn [adjustEach].
  pose proof (adjustDecision_frame now available marginError winRate profitFactor trades d)
    as [H1 H2].
  destruct (adjustDecision Exp now available marginError winRate profitFactor trades d)
    as [d' lines].
  destruct (adjustEach Exp now available marginError winRate profitFactor trades rest)
    as [rest' lines'].
  cbn [fst map] in *. split; [congruence|constructor; assumption].
Qed.

Lemma adjustDecisionsByPerformance_frame now logs decisions ctx recent :
  map sizeErased (adjustDecisionsByPerformance Exp now logs decisions ctx recent).1
  = map sizeErased decisions
  /\ Forall2 (fun d d' => isOpenAction (Action d) = false -> d' = d) decisions
       (adjustDecisionsByPerformance Exp now logs decisions ctx recent).1.
Proof.
  unfold adjustDecisionsByPerformance.
  destruct decisions as [|d rest]; [split; [reflexivity|constructor]|].
  destruct recent as [r|]; apply adjustEach_frame.
Qed.

End AdjusterProperties.

(** X6.  The adjuster changes nothing but sizes, and those of opening
    decisions only: the decisions it returns are the decisions it was given,
    in the same order and number, equal to them in every field but the
    position size, and a decision that opens no position is returned as it
    is. *)
Theorem adjuster_changes_open_sizes_only :
  forall Exp now logs decisions ctx recent,
    map sizeErased (adjustDecisionsByPerformance Exp now logs decisions ctx recent).1
    = map sizeErased decisions
    /\ Forall2 (fun d d' => isOpenAction (Action d) = false -> d' = d) decisions
         (adjustDecisionsByPerformance Exp now logs decisions ctx recent).1.
Proof. exact adjustDecisionsByPerformance_frame. Qed.






Section CycleExecution.
Variable Exp : Q -> Q.
Variable extractCoTTrace : string -> string.
Variable buildSystemPrompt : Context -> string.
Variable buildUserPrompt : Context -> string.





End CycleExecution.





(** ** The peak cache and the positions that the monitor does not see *)

(** The monitor feeding the profit percentages of successive checks of one
    position to the peak cache. *)
Definition observePnL (symbol side : string) (pnls : list Q) (tr : AutoTrader)
    : AutoTrader :=
  foldl (fun tr pnl => UpdatePeakPnL symbol side pnl tr) tr pnls.

Lemma observePnL_peak symbol side pnls : forall tr peak,
  peakPnLCache tr !! posKey symbol side = Some peak ->
  exists m,
    peakPnLCache (observePnL symbol side pnls tr) !! posKey symbol side = Some m
    /\ peak <= m /\ Forall (fun pnl => pnl <= m) pnls /\ (m = peak \/ In m pnls).
Proof.
  induction pnls as [|pnl rest IH]; intros tr peak H.
  - exists peak. cbn. repeat split; [exact H|lra|constructor|auto].
  - cbn [observePnL foldl].
    pose proof (UpdatePeakPnL_lookup symbol side pnl tr) as Hu. rewrite H in Hu.
    destruct (IH _ _ Hu) as (m & Hm & Hle & Hall & Hin).
    exists m. split; [exact Hm|].
    destruct (Qgtb_spec pnl peak) as [Hgt|Hgt].
    + split; [lra|]. split; [constructor; [exact Hle|exact Hall]|].
      destruct Hin as [->|Hin]; right; [left; reflexivity|right; exact Hin].
    + split; [exact Hle|]. split; [constructor; [lra|exact Hall]|].
      destruct Hin as [->|Hin]; [left; reflexivity|right; right; exact Hin].
Qed.

(** X9.  After [ClearPeakPnLCache], the cached peak of the position is the
    greatest of the profit percentages that [UpdatePeakPnL] is given since,
    the first of them even if it is lower than the peak before the clear; the
    peaks of the other positions are left as they are. *)
Theorem peak_cache_holds_maximum_since_clear :
  forall symbol side pnl pnls tr,
    let tr' := observePnL symbol side (pnl :: pnls) (ClearPeakPnLCache symbol side tr) in
    (exists m,
       peakPnLCache tr' !! posKey symbol side = Some m
       /\ In m (pnl :: pnls) /\ Forall (fun x => x <= m) (pnl :: pnls))
    /\ (forall key, posKey symbol side <> key ->
          peakPnLCache tr' !! key = peakPnLCache tr !! key).
Proof.
  intros symbol side pnl pnls tr tr'. split.
  - subst tr'. cbn [observePnL foldl].
    pose proof (UpdatePeakPnL_lookup symbol side pnl (ClearPeakPnLCache symbol side tr))
      as Hu.
    assert (Hd : peakPnLCache (ClearPeakPnLCache symbol side tr) !! posKey symbol side = None)
      by (cbn; apply lookup_delete_eq).
    rewrite Hd in Hu.
    destruct (observePnL_peak symbol side pnls _ _ Hu) as (m & Hm & Hle & Hall & Hin).
    exists m. split; [exact Hm|]. split.
    + destruct Hin as [->|Hin]; [left; reflexivity|right; exact Hin].
    + constructor; assumption.
  - intros key Hne. subst tr'.
    assert (Ho : forall l t, peakPnLCache (observePnL symbol side l t) !! key
                             = peakPnLCache t !! key).
    { induction l as [|x l IH]; intros t; [reflexivity|].
      cbn [observePnL foldl]. unfold observePnL in IH. rewrite IH.
      apply UpdatePeakPnL_other, Hne. }
    rewrite Ho. cbn. apply lookup_delete_ne. exact Hne.
Qed.

(** X10.  A monitor check touches the cached peak and the breach counter of
    the positions that the exchange lists, and of no other: the entries of a
    position that is no longer listed (closed by a decision or by hand) stay
    as they are, for a later position of the same symbol and side to
    inherit. *)
Theorem monitor_keeps_entries_of_unlisted_positions :
  forall trader tr key,
    (forall positions, GetPositions trader = Ok positions ->
       Forall (fun q => posKey (pos_symbol q) (pos_side q) <> key) positions) ->
    peakPnLCache (fst (checkPositionDrawdown trader tr)) !! key = peakPnLCache tr !! key
    /\ breachCount (fst (checkPositionDrawdown trader tr)) key = breachCount tr key.
Proof.
  intros trader tr key H. unfold checkPositionDrawdown.
  destruct (GetPositions trader) as [positions|e]; [|split; reflexivity].
  specialize (H positions eq_refl). split.
  - apply checkPositions_other_peak, H.
  - apply checkPositions_other_keys, H.
Qed.

(** After two breaching checks of the long BTCUSDT position, a check on
    which the exchange lists a short ETHUSDT position only. *)
Lemma monitor_keeps_entries_of_unlisted_positions_witness :
  peakPnLCache (fst (checkPositionDrawdown (listing [ethShort 99]) breachedTwice))
    !! "BTCUSDT_long"%string
  = peakPnLCache breachedTwice !! "BTCUSDT_long"%string
  /\ breachCount (fst (checkPositionDrawdown (listing [ethShort 99]) breachedTwice))
       "BTCUSDT_long"
     = breachCount breachedTwice "BTCUSDT_long".
Proof.
  apply (monitor_keeps_entries_of_unlisted_positions (listing [ethShort 99])
           breachedTwice "BTCUSDT_long").
  intros positions H. injection H as <-. repeat constructor. vm_compute. discriminate.
Defined.

(** ** The execution paths *)

(** An exchange that lists the given positions, quotes every symbol at the
    given price, has 1000 USDT available and accepts every order; and the
    same exchange rejecting the orders that set a stop loss. *)
Definition quoting (positions : list RawPosition) (price : Q) : Execution.Exchange :=
  {| Execution.ex_positions := Ok positions;
     Execution.ex_balance := Ok {| totalWalletBalance := Some 1000;
                                   totalUnrealizedProfit := Some 0;
                                   availableBalance := Some 1000 |};
     Execution.ex_marketGet :=
       fun _ => Ok {| CurrentPrice := price; LongerTermATR14 := None |};
     Execution.ex_send := fun _ => None;
     Execution.ex_isCrossMargin := true |}.

Definition quotingWithoutStops (positions : list RawPosition) (price : Q)
    : Execution.Exchange :=
  {| Execution.ex_positions := Ok positions;
     Execution.ex_balance := Execution.ex_balance (quoting positions price);
     Execution.ex_marketGet := Execution.ex_marketGet (quoting positions price);
     Execution.ex_send :=
       fun o => match o with
                | Execution.OrderSetStopLoss _ _ _ _ => Some (ErrCollaborator "timeout")
                | _ => None
                end;
     Execution.ex_isCrossMargin := true |}.

(** Decisions that move the stop and the target of the BTCUSDT position. *)
Definition moveStop (newStopLoss : Q) : Decision :=
  {| Symbol := "BTCUSDT"; Action := "update_stop_loss"; Leverage := 0;
     PositionSizeUSD := 0; StopLoss := 0; TakeProfit := 0; NewStopLoss := newStopLoss;
     NewTakeProfit := 0; ClosePercentage := 0; Confidence := 0; RiskUSD := 0;
     Reasoning := EmptyString |}.

Definition moveTarget (newTakeProfit : Q) : Decision :=
  {| Symbol := "BTCUSDT"; Action := "update_take_profit"; Leverage := 0;
     PositionSizeUSD := 0; StopLoss := 0; TakeProfit := 0; NewStopLoss := 0;
     NewTakeProfit := newTakeProfit; ClosePercentage := 0; Confidence := 0; RiskUSD := 0;
     Reasoning := EmptyString |}.

Lemma executeOpenWithRecord_orders long now ex d tr :
  Execution.out_orders (Execution.executeOpenWithRecord long now ex d tr) <> [] ->
  (forall listed, Execution.ex_positions ex = Ok listed ->
     existsb (Execution.heldOnSide (Symbol d) (if long then "LONG" else "SHORT")) listed
     = false)
  /\ exists marketData balance,
       Execution.ex_marketGet ex (Symbol d) = Ok marketData
       /\ Execution.ex_balance ex = Ok balance
       /\ PositionSizeUSD d / float64 (Leverage d) + PositionSizeUSD d * 0.0004
          <= default 0.0 (availableBalance balance)
       /\ exists protective,
            Execution.out_orders (Execution.executeOpenWithRecord long now ex d tr)
            = Execution.OrderSetMarginMode (Symbol d) (Execution.ex_isCrossMargin ex)
              :: (if long
                  then Execution.OrderOpenLong (Symbol d)
                         (PositionSizeUSD d / CurrentPrice marketData) (Leverage d)
                  else Execution.OrderOpenShort (Symbol d)
                         (PositionSizeUSD d / CurrentPrice marketData) (Leverage d))
              :: protective.
Proof.
  unfold Execution.executeOpenWithRecord. cbv zeta.
  destruct (match Execution.ex_positions ex with
            | Ok listed => existsb _ listed
            | Err _ => false
            end) eqn:Hheld; [intros H; exfalso; apply H; reflexivity|].
  destruct (Execution.ex_marketGet ex (Symbol d)) as [marketData|e];
    [|intros H; exfalso; apply H; reflexivity].
  destruct (Execution.ex_balance ex) as [balance|e];
    [|intros H; exfalso; apply H; reflexivity].
  match goal with |- context [if ?x >? ?y then _ else _] =>
    destruct (Qgtb_spec x y) as [Hgt|Hle] end;
    [intros H; exfalso; apply H; reflexivity|].
  intros _. split.
  - intros listed Hl. rewrite Hl in Hheld. exact Hheld.
  - exists marketData, balance. split; [reflexivity|]. split; [reflexivity|].
    split; [apply Qnot_lt_le, Hle|].
    match goal with |- context [match ?s with Some _ => _ | None => _ end] =>
      destruct s end; eexists; reflexivity.
Qed.

(** X11.  An opening path sends orders only after its checks have passed:
    if it sends any order at all, then no position of the symbol on the same
    side with a quantity other than 0 was listed (when the positions could be
    read), the price and the balance were read, and the margin
    size / leverage plus the fee of 0.04 percent of the size is within the
    available balance (in exact arithmetic); the orders then start with the
    margin mode and the opening order for size / price at the leverage of the
    decision. *)
Theorem open_orders_only_after_checks :
  forall long now ex d tr,
    Execution.out_orders (Execution.executeOpenWithRecord long now ex d tr) <> [] ->
    (forall listed, Execution.ex_positions ex = Ok listed ->
       existsb (Execution.heldOnSide (Symbol d) (if long then "LONG" else "SHORT")) listed
       = false)
    /\ exists marketData balance,
         Execution.ex_marketGet ex (Symbol d) = Ok marketData
         /\ Execution.ex_balance ex = Ok balance
         /\ PositionSizeUSD d / float64 (Leverage d) + PositionSizeUSD d * 0.0004
            <= default 0.0 (availableBalance balance)
         /\ exists protective,
              Execution.out_orders (Execution.executeOpenWithRecord long now ex d tr)
              = Execution.OrderSetMarginMode (Symbol d) (Execution.ex_isCrossMargin ex)
                :: (if long
                    then Execution.OrderOpenLong (Symbol d)
                           (PositionSizeUSD d / CurrentPrice marketData) (Leverage d)
                    else Execution.OrderOpenShort (Symbol d)
                           (PositionSizeUSD d / CurrentPrice marketData) (Leverage d))
                :: protective.
Proof. exact executeOpenWithRecord_orders. Qed.

Lemma open_orders_only_after_checks_witness :
  (forall listed, Execution.ex_positions (quoting [] 100) = Ok listed ->
     existsb (Execution.heldOnSide (Symbol openBTC) "LONG") listed = false)
  /\ exists marketData balance,
       Execution.ex_marketGet (quoting [] 100) (Symbol openBTC) = Ok marketData
       /\ Execution.ex_balance (quoting [] 100) = Ok balance
       /\ PositionSizeUSD openBTC / float64 (Leverage openBTC)
          + PositionSizeUSD openBTC * 0.0004
          <= default 0.0 (availableBalance balance)
       /\ exists protective,
            Execution.out_orders
              (Execution.executeOpenWithRecord true Hour (quoting [] 100) openBTC
                 exampleTrader)
            = Execution.OrderSetMarginMode (Symbol openBTC) true
              :: Execution.OrderOpenLong (Symbol openBTC)
                   (PositionSizeUSD openBTC / CurrentPrice marketData) (Leverage openBTC)
              :: protective.
Proof.
  apply (open_orders_only_after_checks true Hour (quoting [] 100) openBTC exampleTrader).
  vm_compute. discriminate.
Defined.

Definition isOpenOrder (o : Execution.Order) : bool :=
  match o with
  | Execution.OrderOpenLong _ _ _ | Execution.OrderOpenShort _ _ _ => true
  | _ => false
  end.

(** X12.  What an opening path returns and does depends on the answer of
    the exchange to the opening order only: the answers to the margin-mode,
    stop-loss and take-profit orders are not looked at.  So an open is
    reported as a success, and the first-seen time of the position is
    recorded, also when the stop-loss order has failed. *)
Theorem open_outcome_ignores_protective_order_failures :
  forall long now ex ex' d tr,
    Execution.ex_positions ex' = Execution.ex_positions ex ->
    Execution.ex_balance ex' = Execution.ex_balance ex ->
    Execution.ex_marketGet ex' = Execution.ex_marketGet ex ->
    Execution.ex_isCrossMargin ex' = Execution.ex_isCrossMargin ex ->
    (forall o, isOpenOrder o = true -> Execution.ex_send ex' o = Execution.ex_send ex o) ->
    Execution.executeOpenWithRecord long now ex' d tr
    = Execution.executeOpenWithRecord long now ex d tr.
Proof.
  intros long now ex ex' d tr Hp Hb Hm Hc Hs.
  unfold Execution.executeOpenWithRecord. cbv zeta. rewrite Hp, Hb, Hm, Hc.
  destruct (match Execution.ex_positions ex with
            | Ok listed => existsb _ listed
            | Err _ => false
            end); [reflexivity|].
  destruct (Execution.ex_marketGet ex (Symbol d)) as [marketData|e]; [|reflexivity].
  destruct (Execution.ex_balance ex) as [balance|e]; [|reflexivity].
  match goal with |- context [if ?c then _ else _] => destruct c end; [reflexivity|].
  rewrite Hs by (destruct long; reflexivity). reflexivity.
Qed.

Lemma open_outcome_ignores_protective_order_failures_witness :
  Execution.executeOpenWithRecord true Hour (quotingWithoutStops [] 100) openBTC
    exampleTrader
  = Execution.executeOpenWithRecord true Hour (quoting [] 100) openBTC exampleTrader.
Proof.
  apply open_outcome_ignores_protective_order_failures; try reflexivity.
  intros [] H; try discriminate H; reflexivity.
Defined.

Lemma targetPosition_spec symbol listed target :
  Execution.targetPosition symbol listed = Some target ->
  In target listed /\ pos_symbol target = symbol /\ ~ pos_positionAmt target == 0.
Proof.
  unfold Execution.targetPosition. intros H.
  pose proof (find_some _ _ H) as [Hin Hc].
  apply andb_true_iff in Hc as [Hs Ha]. split; [exact Hin|].
  split; [apply String.eqb_eq, Hs|].
  unfold Qneqb in Ha. apply negb_true_iff in Ha. intros E.
  apply Qeq_bool_iff in E. congruence.
Qed.

Lemma Qabs_nonzero_pos x : ~ x == 0 -> 0 < Qabs x.
Proof.
  intros H. destruct (Qlt_le_dec 0 (Qabs x)) as [?|Hle]; [assumption|].
  exfalso. apply H. apply Qabs_Qle_condition in Hle. lra.
Qed.


Lemma executeUpdateWithRecord_orders stop ex d tr :
  Execution.out_orders (Execution.executeUpdateWithRecord stop ex d tr) <> [] ->
  exists marketData listed target,
    Execution.ex_marketGet ex (Symbol d) = Ok marketData
    /\ Execution.ex_positions ex = Ok listed
    /\ Execution.targetPosition (Symbol d) listed = Some target
    /\ let positionSide := strings.ToUpper (pos_side target) in
       let newPrice := if stop then NewStopLoss d else NewTakeProfit d in
       (positionSide = "LONG"%string ->
        if stop then newPrice < CurrentPrice marketData
        else CurrentPrice marketData < newPrice)
       /\ (positionSide = "SHORT"%string ->
           if stop then CurrentPrice marketData < newPrice
           else newPrice < CurrentPrice marketData)
       /\ 0 < Qabs (pos_positionAmt target)
       /\ Execution.out_orders (Execution.executeUpdateWithRecord stop ex d tr)
          = if stop
            then [Execution.OrderCancelStopLoss (Symbol d) positionSide;
                  Execution.OrderSetStopLoss (Symbol d) positionSide
                    (Qabs (pos_positionAmt target)) newPrice]
            else [Execution.OrderCancelTakeProfit (Symbol d) positionSide;
                  Execution.OrderSetTakeProfit (Symbol d) positionSide
                    (Qabs (pos_positionAmt target)) newPrice].
Proof.
  unfold Execution.executeUpdateWithRecord. cbv zeta.
  destruct (Execution.ex_marketGet ex (Symbol d)) as [marketData|e];
    [|intros H; exfalso; apply H; reflexivity].
  destruct (Execution.ex_positions ex) as [listed|e];
    [|intros H; exfalso; apply H; reflexivity].
  destruct (Execution.targetPosition (Symbol d) listed) as [target|] eqn:Ht;
    [|intros H; exfalso; apply H; reflexivity].
  destruct (targetPosition_spec _ _ _ Ht) as (_ & _ & Hnz).
  pose proof (Qabs_nonzero_pos _ Hnz) as Hpos.
  destruct (String.eqb_spec (strings.ToUpper (pos_side target)) "LONG") as [El|El];
    [|destruct (String.eqb_spec (strings.ToUpper (pos_side target)) "SHORT") as [Es|Es]];
    destruct stop; cbn [andb]; cbv beta iota;
    repeat match goal with
           | |- (Execution.out_orders (if ?x >=? ?y then _ else _) <> _) -> _ =>
               destruct (Qgeb_spec x y) as [?|Hc];
               [intros H; exfalso; apply H; reflexivity|apply Qnot_le_lt in Hc]
           | |- (Execution.out_orders (if ?x <=? ?y then _ else _) <> _) -> _ =>
               destruct (Qleb_spec x y) as [?|Hc];
               [intros H; exfalso; apply H; reflexivity|apply Qnot_le_lt in Hc]
           | |- (Execution.out_orders (if String.eqb _ "SHORT" && _ then _ else _) <> _)
                -> _ =>
               rewrite El; cbn [String.eqb Ascii.eqb Bool.eqb andb]; cbv beta iota
           end;
    intros _; exists marketData, listed, target;
    (split; [reflexivity|]); (split; [reflexivity|]); (split; [exact Ht|]);
    (split; [intros E; first [exact Hc | congruence]|]);
    (split; [intros E; first [exact Hc | congruence]|]);
    (split; [exact Hpos|]); try rewrite El; reflexivity.
Qed.

(** X14.  A stop-loss update sends orders only for a listed position of the
    symbol with a quantity other than 0, and only when the new stop is on the
    losing side of the current price: below it when the side of the position
    reads LONG, above it when the side reads SHORT.  It then cancels the
    stop-loss orders of that side and sets the new stop for the absolute
    quantity of the position. *)
Theorem stop_loss_update_only_on_losing_side :
  forall ex d tr,
    Execution.out_orders (Execution.executeUpdateStopLossWithRecord ex d tr) <> [] ->
    exists marketData listed target,
      Execution.ex_marketGet ex (Symbol d) = Ok marketData
      /\ Execution.ex_positions ex = Ok listed
      /\ Execution.targetPosition (Symbol d) listed = Some target
      /\ (strings.ToUpper (pos_side target) = "LONG"%string ->
          NewStopLoss d < CurrentPrice marketData)
      /\ (strings.ToUpper (pos_side target) = "SHORT"%string ->
          CurrentPrice marketData < NewStopLoss d)
      /\ 0 < Qabs (pos_positionAmt target)
      /\ Execution.out_orders (Execution.executeUpdateStopLossWithRecord ex d tr)
         = [Execution.OrderCancelStopLoss (Symbol d) (strings.ToUpper (pos_side target));
            Execution.OrderSetStopLoss (Symbol d) (strings.ToUpper (pos_side target))
              (Qabs (pos_positionAmt target)) (NewStopLoss d)].
Proof.
  intros ex d tr H.
  destruct (executeUpdateWithRecord_orders true ex d tr H)
    as (marketData & listed & target & H1 & H2 & H3 & H4 & H5 & H6 & H7).
  exists marketData, listed, target. repeat split; assumption.
Qed.

(** The long BTCUSDT position at a price of 102, and a new stop at 101. *)
Lemma stop_loss_update_only_on_losing_side_witness :
  exists marketData listed target,
    Execution.ex_marketGet (quoting [btcLong 102] 102) (Symbol (moveStop 101))
    = Ok marketData
    /\ Execution.ex_positions (quoting [btcLong 102] 102) = Ok listed
    /\ Execution.targetPosition (Symbol (moveStop 101)) listed = Some target
    /\ (strings.ToUpper (pos_side target) = "LONG"%string ->
        NewStopLoss (moveStop 101) < CurrentPrice marketData)
    /\ (strings.ToUpper (pos_side target) = "SHORT"%string ->
        CurrentPrice marketData < NewStopLoss (moveStop 101))
    /\ 0 < Qabs (pos_positionAmt target)
    /\ Execution.out_orders
         (Execution.executeUpdateStopLossWithRecord (quoting [btcLong 102] 102)
            (moveStop 101) exampleTrader)
       = [Execution.OrderCancelStopLoss (Symbol (moveStop 101))
            (strings.ToUpper (pos_side target));
          Execution.OrderSetStopLoss (Symbol (moveStop 101))
            (strings.ToUpper (pos_side target))
            (Qabs (pos_positionAmt target)) (NewStopLoss (moveStop 101))].
Proof.
  apply (stop_loss_update_only_on_losing_side (quoting [btcLong 102] 102) (moveStop 101)
           exampleTrader).
  vm_compute. discriminate.
Defined.

(** X15.  A take-profit update is the mirror image: it sends orders only
    when the new target is on the winning side of the current price, above it
    for a side that reads LONG and below it for a side that reads SHORT, and
    then cancels the take-profit orders of that side and sets the new one. *)
Theorem take_profit_update_only_on_winning_side :
  forall ex d tr,
    Execution.out_orders (Execution.executeUpdateTakeProfitWithRecord ex d tr) <> [] ->
    exists marketData listed target,
      Execution.ex_marketGet ex (Symbol d) = Ok marketData
      /\ Execution.ex_positions ex = Ok listed
      /\ Execution.targetPosition (Symbol d) listed = Some target
      /\ (strings.ToUpper (pos_side target) = "LONG"%string ->
          CurrentPrice marketData < NewTakeProfit d)
      /\ (strings.ToUpper (pos_side target) = "SHORT"%string ->
          NewTakeProfit d < CurrentPrice marketData)
      /\ 0 < Qabs (pos_positionAmt target)
      /\ Execution.out_orders (Execution.executeUpdateTakeProfitWithRecord ex d tr)
         = [Execution.OrderCancelTakeProfit (Symbol d) (strings.ToUpper (pos_side target));
            Execution.OrderSetTakeProfit (Symbol d) (strings.ToUpper (pos_side target))
              (Qabs (pos_positionAmt target)) (NewTakeProfit d)].
Proof.
  intros ex d tr H.
  destruct (executeUpdateWithRecord_orders false ex d tr H)
    as (marketData & listed & target & H1 & H2 & H3 & H4 & H5 & H6 & H7).
  exists marketData, listed, target. repeat split; assumption.
Qed.

(** The long BTCUSDT position at a price of 102, and a new target at 110. *)
Lemma take_profit_update_only_on_winning_side_witness :
  exists marketData listed target,
    Execution.ex_marketGet (quoting [btcLong 102] 102) (Symbol (moveTarget 110))
    = Ok marketData
    /\ Execution.ex_positions (quoting [btcLong 102] 102) = Ok listed
    /\ Execution.targetPosition (Symbol (moveTarget 110)) listed = Some target
    /\ (strings.ToUpper (pos_side target) = "LONG"%string ->
        CurrentPrice marketData < NewTakeProfit (moveTarget 110))
    /\ (strings.ToUpper (pos_side target) = "SHORT"%string ->
        NewTakeProfit (moveTarget 110) < CurrentPrice marketData)
    /\ 0 < Qabs (pos_positionAmt target)
    /\ Execution.out_orders
         (Execution.executeUpdateTakeProfitWithRecord (quoting [btcLong 102] 102)
            (moveTarget 110) exampleTrader)
       = [Execution.OrderCancelTakeProfit (Symbol (moveTarget 110))
            (strings.ToUpper (pos_side target));
          Execution.OrderSetTakeProfit (Symbol (moveTarget 110))
            (strings.ToUpper (pos_side target))
            (Qabs (pos_positionAmt target)) (NewTakeProfit (moveTarget 110))].
Proof.
  apply (take_profit_update_only_on_winning_side (quoting [btcLong 102] 102)
           (moveTarget 110) exampleTrader).
  vm_compute. discriminate.
Defined.

Lemma executeOpenWithRecord_state long now ex d tr :
  let r := Execution.executeOpenWithRecord long now ex d tr in
  Execution.out_state r = tr
  \/ (Execution.out_error r = None
      /\ Execution.out_state r
         = set_positionFirstSeenTime
             (<[(Symbol d ++ (if long then "_long" else "_short"))%string := UnixMilli now]>
                (positionFirstSeenTime tr)) tr).
Proof.
  unfold Execution.executeOpenWithRecord. cbv zeta.
  repeat match goal with
         | |- context [match ?x with Ok _ => _ | Err _ => _ end] => destruct x
         | |- context [if ?c then _ else _] => destruct c
         | |- context [match ?x with Some _ => _ | None => _ end] => destruct x
         end; cbn; auto.
Qed.

(** X16.  No execution path touches the risk state or the caches of the
    monitor: the state after a decision is executed is the state before,
    except that a successful open records the first-seen time of the position
    under symbol_long or symbol_short.  In particular a close by decision
    leaves the cached peak and the breach counter of the position where they
    are. *)
Theorem execution_changes_first_seen_time_only :
  forall now ex d tr,
    let r := Execution.executeDecisionWithRecord now ex d tr in
    Execution.out_state r = tr
    \/ (Execution.out_error r = None
        /\ exists long : bool,
             Action d = (if long then "open_long" else "open_short")%string
             /\ Execution.out_state r
                = set_positionFirstSeenTime
                    (<[(Symbol d ++ (if long then "_long" else "_short"))%string
                       := UnixMilli now]> (positionFirstSeenTime tr)) tr).
Proof.
  intros now ex d tr. unfold Execution.executeDecisionWithRecord. cbv zeta.
  destruct (String.eqb_spec (Action d) "open_long") as [E|_].
  { destruct (executeOpenWithRecord_state true now ex d tr) as [H|[H1 H2]]; [left; exact H|].
    right. split; [exact H1|]. exists true. split; [exact E|exact H2]. }
  destruct (String.eqb_spec (Action d) "open_short") as [E|_].
  { destruct (executeOpenWithRecord_state false now ex d tr) as [H|[H1 H2]]; [left; exact H|].
    right. split; [exact H1|]. exists false. split; [exact E|exact H2]. }
  left.
  unfold Execution.executeCloseLongWithRecord, Execution.executeCloseShortWithRecord,
    Execution.executeCloseWithRecord, Execution.executeUpdateStopLossWithRecord,
    Execution.executeUpdateTakeProfitWithRecord, Execution.executeUpdateWithRecord,
    Execution.executePartialCloseWithRecord. cbv zeta.
  repeat match goal with
         | |- context [match ?x with Ok _ => _ | Err _ => _ end] => destruct x
         | |- context [if ?c then _ else _] => destruct c
         | |- context [match ?x with Some _ => _ | None => _ end] => destruct x
         end; reflexivity.
Qed.

(** X17.  The actions that the validator accepts are the actions that the
    dispatch of [executeDecisionWithRecord] knows: a decision with a valid
    action is never answered with the unknown-action error, and a decision
    with any other action always is, with no order sent. *)
Theorem dispatch_knows_the_valid_actions :
  forall now ex d tr,
    (isValidAction (Action d) = true ->
     Execution.out_error (Execution.executeDecisionWithRecord now ex d tr)
     <> Some (Execution.ErrUnknown (Action d)))
    /\ (isValidAction (Action d) = false ->
        Execution.executeDecisionWithRecord now ex d tr
        = Execution.failed tr 0 0 (Execution.ErrUnknown (Action d))).
Proof.
  intros now ex d tr. unfold isValidAction, validActions, Execution.executeDecisionWithRecord.
  cbv zeta. cbn [existsb]. split.
  - intros Hv.
    unfold Execution.executeOpenLongWithRecord, Execution.executeOpenShortWithRecord,
      Execution.executeOpenWithRecord,
      Execution.executeCloseLongWithRecord, Execution.executeCloseShortWithRecord,
      Execution.executeCloseWithRecord, Execution.executeUpdateStopLossWithRecord,
      Execution.executeUpdateTakeProfitWithRecord, Execution.executeUpdateWithRecord,
      Execution.executePartialCloseWithRecord. cbv zeta.
    repeat match goal with
           | |- Execution.out_error (if String.eqb (Action d) ?s then _ else _) <> _ =>
               destruct (String.eqb (Action d) s)
           end.
    all: try solve
      [repeat match goal with
              | |- context [match ?x with Ok _ => _ | Err _ => _ end] => destruct x
              | |- context [if ?c then _ else _] => destruct c
              | |- context [match ?x with Some _ => _ | None => _ end] => destruct x
              end; cbn; discriminate].
    destruct (String.eqb (Action d) "hold"); cbn [orb]; [cbn; discriminate|].
    destruct (String.eqb (Action d) "wait"); cbn; [discriminate|].
    cbn in Hv. discriminate Hv.
  - intros H.
    repeat (apply orb_false_iff in H; destruct H as [? H]).
    repeat match goal with E : String.eqb (Action d) _ = false |- _ => rewrite E; clear E end.
    reflexivity.
Qed.

(** ** The balance synchronisation *)

Lemma extractBalance_nonneg info : 0 <= BalanceSync.extractBalance info.
Proof.
  unfold BalanceSync.extractBalance. cbv zeta.
  destruct (List.find _ _) as [[value|]|] eqn:E; try lra.
  apply find_some in E as [_ E]. apply (reflect_iff _ _ (Qgtb_spec value 0)) in E. lra.
Qed.


(** An exchange balance under the key that the adapter of Binance fills. *)
Definition balanceOf (value : Q) : result BalanceSync.BalanceInfo :=
  Ok {| BalanceSync.available_balance := None;
        BalanceSync.availableBalance := Some value;
        BalanceSync.balance := Some 0 |}.

(** The example session, last synchronised at its start: after 5 minutes a
    balance of 1060 is not looked at; after 10 minutes it replaces the initial
    balance of 1000, a balance of 1050 (a change of 5 percent) does not, and
    a balance of 940 does. *)
Lemma balance_sync_examples :
  BalanceSync.trader
    (BalanceSync.autoSyncBalanceIfNeeded (5 * Minute)%Z (balanceOf 1060) exampleTrader 0%Z)
  = exampleTrader
  /\ BalanceSync.trader
       (BalanceSync.autoSyncBalanceIfNeeded (10 * Minute)%Z (balanceOf 1060) exampleTrader 0%Z)
     = set_initialBalance 1060 exampleTrader
  /\ BalanceSync.changePercent 1000 1050 == 5
  /\ BalanceSync.autoSyncBalanceIfNeeded (10 * Minute)%Z (balanceOf 1050) exampleTrader 0%Z
     = {| BalanceSync.trader := exampleTrader;
          BalanceSync.lastBalanceSyncTime := (10 * Minute)%Z;
          BalanceSync.written := None |}
  /\ BalanceSync.changePercent 1000 940 == -6
  /\ BalanceSync.written
       (BalanceSync.autoSyncBalanceIfNeeded (10 * Minute)%Z (balanceOf 940) exampleTrader 0%Z)
     = Some 940.
Proof. vm_compute. repeat split; reflexivity. Qed.

(** ** The indicators *)

Lemma float64_pos n : (0 < n)%Z -> 0 < float64 n.
Proof. intros H. unfold float64. change 0 with (inject_Z 0). rewrite <- Zlt_Qlt. exact H. Qed.

Lemma float64_nonneg n : (0 <= n)%Z -> 0 <= float64 n.
Proof. intros H. unfold float64. change 0 with (inject_Z 0). rewrite <- Zle_Qle. exact H. Qed.

Lemma Qdiv_nonneg x y : 0 <= x -> 0 < y -> 0 <= x / y.
Proof. intros Hx Hy. apply Qle_shift_div_l; lra. Qed.

Lemma trueRange_nonneg klines i : 0 <= trueRange klines i.
Proof.
  unfold trueRange, mathMax. cbv zeta.
  pose proof (Qabs_nonneg (kl_High (klineAt klines i) - kl_Close (klineAt klines (i - 1)))).
  pose proof (Qabs_nonneg (kl_Low (klineAt klines i) - kl_Close (klineAt klines (i - 1)))).
  set (tr2 := Qabs (kl_High (klineAt klines i) - kl_Close (klineAt klines (i - 1)))) in *.
  set (tr3 := Qabs (kl_Low (klineAt klines i) - kl_Close (klineAt klines (i - 1)))) in *.
  destruct (Qltb_spec tr2 tr3);
    match goal with |- context [if ?x <? ?y then _ else _] =>
      destruct (Qltb_spec x y) end; lra.
Qed.

(** X19.  For a period of at least 1, [calculateATR] is never negative,
    whatever the candles are; it is 0 when there are not more candles than the
    period. *)
Theorem calculateATR_nonneg :
  forall klines period, (1 <= period)%Z -> 0 <= calculateATR klines period.
Proof.
  intros klines period Hp. unfold calculateATR.
  destruct (Z.of_nat (length klines) <=? period)%Z; [apply Qle_refl|]. cbv zeta.
  pose proof (float64_pos period ltac:(lia)) as Hf.
  pose proof (float64_nonneg (period - 1) ltac:(lia)) as Hf1.
  assert (Hsum : forall l acc, 0 <= acc ->
            0 <= foldl (fun sum i => sum + trueRange klines i) acc l).
  { induction l as [|i l IH]; intros acc Hacc; [exact Hacc|].
    cbn [foldl]. apply IH. pose proof (trueRange_nonneg klines i). lra. }
  assert (Hsm : forall l acc, 0 <= acc ->
            0 <= foldl (fun atr i => (atr * float64 (period - 1) + trueRange klines i)
                                     / float64 period) acc l).
  { induction l as [|i l IH]; intros acc Hacc; [exact Hacc|].
    cbn [foldl]. apply IH. apply Qdiv_nonneg; [|exact Hf].
    pose proof (trueRange_nonneg klines i). nra. }
  apply Hsm. apply Qdiv_nonneg; [|exact Hf]. apply Hsum. lra.
Qed.

Lemma calculateATR_nonneg_witness :
  0 <= calculateATR [ {| kl_High := 102; kl_Low := 98; kl_Close := 100 |};
                      {| kl_High := 105; kl_Low := 99; kl_Close := 104 |};
                      {| kl_High := 104; kl_Low := 97; kl_Close := 98 |} ] 2.
Proof. apply calculateATR_nonneg. lia. Defined.

(** X20.  For a period of at least 1, [calculateRSI] lies between 0 and 100,
    whatever the candles are. *)
Theorem calculateRSI_range :
  forall klines period, (1 <= period)%Z -> 0 <= calculateRSI klines period <= 100.
Proof.
  intros klines period Hp. unfold calculateRSI.
  destruct (Z.of_nat (length klines) <=? period)%Z; [split; [apply Qle_refl|discriminate]|].
  pose proof (float64_pos period ltac:(lia)) as Hf.
  pose proof (float64_nonneg (period - 1) ltac:(lia)) as Hf1.
  set (step1 := fun '(gains, losses) i =>
                  let change := closeChange klines i in
                  if change >? 0 then (gains + change, losses)
                  else (gains, losses + - change)).
  set (step2 := fun '(avgGain, avgLoss) i =>
                  let change := closeChange klines i in
                  if change >? 0 then
                    ((avgGain * float64 (period - 1) + change) / float64 period,
                     (avgLoss * float64 (period - 1)) / float64 period)
                  else
                    ((avgGain * float64 (period - 1)) / float64 period,
                     (avgLoss * float64 (period - 1) + - change) / float64 period)).
  assert (H1 : forall l acc, 0 <= acc.1 /\ 0 <= acc.2 ->
            0 <= (foldl step1 acc l).1 /\ 0 <= (foldl step1 acc l).2).
  { induction l as [|i l IH]; intros [g s] Hacc; [exact Hacc|].
    cbn [foldl]. apply IH. cbn [fst snd] in Hacc. unfold step1. cbv zeta.
    destruct (Qgtb_spec (closeChange klines i) 0); cbn [fst snd]; lra. }
  assert (H2 : forall l acc, 0 <= acc.1 /\ 0 <= acc.2 ->
            0 <= (foldl step2 acc l).1 /\ 0 <= (foldl step2 acc l).2).
  { induction l as [|i l IH]; intros [g s] Hacc; [exact Hacc|].
    cbn [foldl]. apply IH. cbn [fst snd] in Hacc. unfold step2. cbv zeta.
    destruct (Qgtb_spec (closeChange klines i) 0); cbn [fst snd];
      split; apply Qdiv_nonneg; try exact Hf; nra. }
  specialize (H1 (indices 1 (period + 1)) (0.0, 0.0) ltac:(cbn; split; lra)).
  destruct (foldl step1 (0.0, 0.0) (indices 1 (period + 1))) as [gains losses].
  cbn [fst snd] in H1. cbv zeta.
  specialize (H2 (indices (period + 1) (Z.of_nat (length klines)))
                (gains / float64 period, losses / float64 period)
                ltac:(cbn [fst snd]; split; apply Qdiv_nonneg; tauto)).
  destruct (foldl step2 _ _) as [avgGain avgLoss]. cbn [fst snd] in H2.
  destruct (Qeq_bool avgLoss 0) eqn:E; [split; [discriminate|apply Qle_refl]|].
  assert (Hl : 0 < avgLoss).
  { destruct H2 as [_ H2]. apply Qle_lt_or_eq in H2 as [H2|H2]; [exact H2|].
    symmetry in H2. apply Qeq_bool_iff in H2. congruence. }
  assert (Hrs : 0 <= avgGain / avgLoss) by (apply Qdiv_nonneg; tauto).
  set (rs := avgGain / avgLoss) in *.
  assert (Hq : 0 < 100 / (1 + rs) <= 100).
  { split; [apply Qlt_shift_div_l; lra|apply Qle_shift_div_r; lra]. }
  lra.
Qed.

Lemma calculateRSI_range_witness :
  0 <= calculateRSI [ {| kl_High := 102; kl_Low := 98; kl_Close := 100 |};
                      {| kl_High := 105; kl_Low := 99; kl_Close := 104 |};
                      {| kl_High := 104; kl_Low := 97; kl_Close := 98 |} ] 2
    <= 100.
Proof. apply calculateRSI_range. lia. Defined.

(** ** The adjuster and the margin check of the open path *)

Section AdjusterMargin.

Variable Exp : Q -> Q.


End AdjusterMargin.




(** ** The response parser: what a parse returns *)

Lemma nonEmptyDecisions_some r ds : nonEmptyDecisions r = Some ds -> ds <> [].
Proof. destruct r as [[|d l]|]; intros H; inversion H; discriminate. Qed.

Lemma substring_length_le n : forall m s, (String.length (substring n m s) <= m)%nat.
Proof.
  induction n as [|n IH]; intros m s.
  - revert s. induction m as [|m IHm]; intros [|c s]; cbn; try lia.
    specialize (IHm s). lia.
  - destruct s as [|c s]; cbn; [destruct m; cbn; lia|apply IH].
Qed.

Lemma append_length a b :
  String.length (a ++ b)%string = (String.length a + String.length b)%nat.
Proof.
  induction a as [|c a IH]; [reflexivity|].
  change (String.length (String c (a ++ b)) = S (String.length a + String.length b)).
  cbn [String.length]. rewrite IH. reflexivity.
Qed.

(** The preview of a response in the error: at most 160 bytes of it and
    the ellipsis. *)
Lemma preview_length (s : string) :
  (strings.len (if (160 <? strings.len s)%Z
                then (strings.slice s 0 160 ++ "...")%string else s) <= 163)%Z.
Proof.
  destruct (Z.ltb_spec 160 (strings.len s)) as [H|H]; [|lia].
  unfold strings.len, strings.slice. rewrite append_length.
  pose proof (substring_length_le (Z.to_nat 0) (Z.to_nat (160 - 0)) s) as Hl.
  set (n := String.length (substring _ _ _)) in *.
  assert (E3 : String.length "..." = 3%nat) by reflexivity.
  rewrite E3. clear E3.
  assert (E160 : Z.of_nat (Z.to_nat (160 - 0)) = 160%Z) by reflexivity.
  apply Nat2Z.inj_le in Hl. rewrite E160 in Hl.
  rewrite Nat2Z.inj_add. change (Z.of_nat 3) with 3%Z. lia.
Qed.

(** The shape of [extractDecisionsStrict]: the first of four attempts that
    gives a list, or the error. *)
Lemma firstAttempt_result (a b c d : option (list Decision)) (e : error) :
  (forall ds, a = Some ds -> ds <> []) -> (forall ds, b = Some ds -> ds <> []) ->
  (forall ds, c = Some ds -> ds <> []) -> (forall ds, d = Some ds -> ds <> []) ->
  match (match a with
         | Some ds => Ok ds
         | None =>
         match b with
         | Some ds => Ok ds
         | None =>
         match c with
         | Some ds => Ok ds
         | None => match d with Some ds => Ok ds | None => Err e end
         end end end) with
  | Ok ds => ds <> []
  | Err e' => e' = e
  end.
Proof.
  intros Ha Hb Hc Hd.
  destruct a; [auto|]. destruct b; [auto|]. destruct c; [auto|]. destruct d; auto.
Qed.

Lemma extractDecisionsStrict_cases response :
  match extractDecisionsStrict response with
  | Ok ds => ds <> []
  | Err e => exists preview, e = ErrUnparsable preview /\ (strings.len preview <= 163)%Z
  end.
Proof.
  unfold extractDecisionsStrict. cbv zeta.
  lazymatch goal with
  | |- match (match ?a with Some _ => _ | None =>
              match ?b with Some _ => _ | None =>
              match ?c with Some _ => _ | None =>
              match ?d with Some _ => _ | None => Err ?e end end end end) with _ => _ end =>
      assert (H : match (match a with Some ds => Ok ds | None =>
                         match b with Some ds => Ok ds | None =>
                         match c with Some ds => Ok ds | None =>
                         match d with Some ds => Ok ds | None => Err e end end end end)
                  with Ok ds => ds <> [] | Err e' => e' = e end)
  end.
  { apply firstAttempt_result.
    - intros ds. apply nonEmptyDecisions_some.
    - intros ds. destruct (negb _); [apply nonEmptyDecisions_some|discriminate].
    - intros ds. apply nonEmptyDecisions_some.
    - intros ds. destruct (_ <=? _)%Z; [|discriminate].
      destruct (_ <? _)%Z; [apply nonEmptyDecisions_some|discriminate]. }
  match type of H with match ?big with _ => _ end => destruct big as [ds|e] end.
  - exact H.
  - subst e. eexists. split; [reflexivity|]. apply preview_length.
Qed.

(** X22.  [extractDecisionsStrict] never succeeds with an empty list: a
    response parses into at least one decision, or the call fails; and when
    all the attempts fail, the error carries a preview of the sanitized
    response of at most 163 bytes (160 and the ellipsis). *)
Theorem extractDecisionsStrict_result :
  forall response,
    (forall decisions, extractDecisionsStrict response = Ok decisions -> decisions <> [])
    /\ (forall e, extractDecisionsStrict response = Err e ->
          exists preview, e = ErrUnparsable preview /\ (strings.len preview <= 163)%Z).
Proof.
  intros response. pose proof (extractDecisionsStrict_cases response) as H.
  split; intros x E; rewrite E in H; exact H.
Qed.
